(** * Upstream uploader: submission client, batch loops and form validation

    A shallow embedding of the three Python front ends of the upstream
    uploader:

    - [upstream_integration.py]: command line, [push_customer] / [push_batch];
    - [upstream_ui.py]: Tkinter, [push_customer] / [push_batch] /
      [_submit_single];
    - [upstream_streamlit.py]: Streamlit, [push_customer], the
      "Submit Record" handler and the "Push All Records" loop.

    Python strings are lists of Unicode code points, dictionaries are
    association lists in insertion order, and code that performs I/O or can
    raise is written in a state-and-exception monad over a [world] that
    records every [requests.post] call and every message shown to the
    operator.  The remote service is an arbitrary function from the history
    of requests to a reply. *)

From Stdlib Require Import ZArith NArith List String Ascii Bool Lia DecimalString.
Import ListNotations.
Open Scope Z_scope.

(* ------------------------------------------------------------------ *)
(** * Python strings *)

Module PyStr.

(** A [str] is a sequence of code points. *)
Definition char := N.
Definition str := list char.

(** A literal of the source (all of them are ASCII). *)
Definition lit (s : string) : str :=
  map N_of_ascii (list_ascii_of_string s).

(** [a == b] *)
Fixpoint eqb (a b : str) : bool :=
  match a, b with
  | [], [] => true
  | x :: a', y :: b' => N.eqb x y && eqb a' b'
  | _, _ => false
  end.

(** [str.isspace] on one code point (the table of CPython's
    [_PyUnicode_IsWhitespace]). *)
Definition isspace (c : char) : bool :=
  (((9 <=? c) && (c <=? 13)) || ((28 <=? c) && (c <=? 32))
   || (c =? 133) || (c =? 160) || (c =? 5760)
   || ((8192 <=? c) && (c <=? 8202))
   || (c =? 8232) || (c =? 8233) || (c =? 8239) || (c =? 8287)
   || (c =? 12288))%N.

(** [s.lstrip(pred)]: drop the longest prefix of characters in [p]. *)
Fixpoint lstrip_by (p : char -> bool) (s : str) : str :=
  match s with
  | [] => []
  | c :: s' => if p c then lstrip_by p s' else s
  end.

Definition rstrip_by (p : char -> bool) (s : str) : str :=
  rev (lstrip_by p (rev s)).

(** [s.strip()] *)
Definition strip (s : str) : str := rstrip_by isspace (lstrip_by isspace s).

(** [s.rstrip(chars)] *)
Definition rstrip_chars (chars s : str) : str :=
  rstrip_by (fun c => existsb (N.eqb c) chars) s.

(** [sep.join(parts)] *)
Fixpoint join (sep : str) (parts : list str) : str :=
  match parts with
  | [] => []
  | [p] => p
  | p :: ps => p ++ sep ++ join sep ps
  end.

(** [str(n)] for an [int]. *)
Definition of_int (n : Z) : str := lit (NilZero.string_of_int (Z.to_int n)).

(** Truthiness of a string: [not v] holds for the empty string only. *)
Definition is_empty (s : str) : bool :=
  match s with [] => true | _ => false end.

(** The first character, if any, is not in [p]. *)
Definition starts_clean (p : char -> bool) (s : str) : bool :=
  match s with
  | [] => true
  | c :: _ => negb (p c)
  end.

(** No whitespace at either end. *)
Definition trimmed (s : str) : bool :=
  starts_clean isspace s && starts_clean isspace (rev s).

End PyStr.
Import PyStr.

(* ------------------------------------------------------------------ *)
(** * Dictionaries, JSON values, exceptions *)

(** A customer [dict]: keys and values are strings, in insertion order. *)
Definition dict := list (str * str).

(** [d.get(k)] ([None] when the key is absent). *)
Fixpoint dict_get (d : dict) (k : str) : option str :=
  match d with
  | [] => None
  | (k', v) :: d' => if eqb k' k then Some v else dict_get d' k
  end.

(** [d.get(k, default)] *)
Definition dict_get_default (d : dict) (k default : str) : str :=
  match dict_get d k with Some v => v | None => default end.

(** What [response.json()] can return. *)
#[warnings="-register-all"]
Inductive jval : Type :=
| JNull
| JBool (b : bool)
| JNum (literal : str)
| JStr (s : str)
| JArr (items : list jval)
| JObj (members : list (str * jval)).

Fixpoint members_get (m : list (str * jval)) (k : str) : option jval :=
  match m with
  | [] => None
  | (k', v) :: m' => if eqb k' k then Some v else members_get m' k
  end.

(** The classes of [requests.exceptions] a call can end in; none of them
    derives from [RuntimeError]. *)
Inductive requests_error : Type :=
| ConnectionError
| Timeout
| InvalidURL
| OtherRequestException.

Inductive exn : Type :=
| RuntimeError (msg : str)
| RequestException (cls : requests_error) (msg : str)
| JSONDecodeError (msg : str)
| KeyError (key : str)
| TypeError (msg : str)
| NameError (name : str).

(** [isinstance(e, RuntimeError)], the test of [except RuntimeError]. *)
Definition is_RuntimeError (e : exn) : bool :=
  match e with RuntimeError _ => true | _ => false end.

(** [str(exc)] *)
Definition exn_str (e : exn) : str :=
  match e with
  | RuntimeError m | RequestException _ m | JSONDecodeError m
  | TypeError m => m
  | KeyError k => lit "'" ++ k ++ lit "'"
  | NameError n =>
      lit "cannot access free variable '" ++ n
      ++ lit "' where it is not associated with a value in enclosing scope"
  end.

(** A message built by an f-string is kept as its sequence of fragments:
    the literal text of the source, and the values of its fields. *)
#[warnings="-register-all"]
Inductive frag : Type :=
| Lit (s : string)
| FInt (n : Z)
| FStr (s : str)
| FVal (v : jval)
| FExc (e : exn).

Definition fmt := list frag.

(* ------------------------------------------------------------------ *)
(** * The outside world *)

(** The arguments of one [requests.post] call. *)
Record request : Type := mk_request {
  url : str;
  json : dict;
  headers : list (str * str);
  timeout : Z
}.

(** A [requests.Response]: [body_json] is what [response.json()] does on
    [text], either the decoded value or the message of the
    [JSONDecodeError]. *)
Record response : Type := mk_response {
  status_code : Z;
  text : str;
  body_json : str + jval
}.

(** [requests.post] returns a response or raises one of the
    [requests.exceptions]. *)
Inductive reply : Type :=
| Responded (r : response)
| Failed (cls : requests_error) (msg : str).

(** The remote service and the network in front of it: the reply to a
    request may depend on every request made before it. *)
Definition network := list request -> request -> reply.

(** What the operator is shown, and the callbacks that are invoked:
    [print], a call of [log_cb] or [done_cb] (a message is built before the
    call and handed over as a string), a Streamlit call, a Tk message box.
    [CallbackError] is the exception a callback of the Tk event loop was
    left by, which Tk reports on the console ([report_callback_exception])
    and drops. *)
Inductive event : Type :=
| Print (msg : fmt)
| LogCb (msg : fmt) (tag : str)
| DoneCb (ok total : Z)
| MessageBox (kind : string) (title : string) (msg : fmt)
| St (call : string) (msg : fmt)
| Progress (i total : Z) (msg : fmt)
| LogArea (lines : list fmt)
| ProgressEmpty
| CallbackError (e : exn).

Record world : Type := mk_world {
  calls : list request;   (* every requests.post so far, oldest first *)
  shown : list event      (* every message so far, oldest first *)
}.

Definition fresh : world := mk_world [] [].

(* ------------------------------------------------------------------ *)
(** * State and exceptions *)

Inductive result (A : Type) : Type :=
| Ok (a : A)
| Raise (e : exn).
Arguments Ok {A} a.
Arguments Raise {A} e.

Definition M (A : Type) : Type := world -> result A * world.

Definition ret {A} (a : A) : M A := fun w => (Ok a, w).

Definition bind {A B} (c : M A) (k : A -> M B) : M B :=
  fun w => match c w with
           | (Ok a, w') => k a w'
           | (Raise e, w') => (Raise e, w')
           end.

Definition raise {A} (e : exn) : M A := fun w => (Raise e, w).

(** [try: c  except <class> as exc: h exc] *)
Definition try_except {A} (c : M A) (caught : exn -> bool) (h : exn -> M A)
  : M A :=
  fun w => match c w with
           | (Ok a, w') => (Ok a, w')
           | (Raise e, w') => if caught e then h e w' else (Raise e, w')
           end.

(** [except Exception] catches every exception of the model. *)
Definition is_Exception (e : exn) : bool := true.

Definition emit (ev : event) : M unit :=
  fun w => (Ok tt, mk_world (calls w) (shown w ++ [ev])).

(** [self.after(0, callback)]: the callback runs in the Tk event loop, once
    the code that scheduled it has gone on; an exception that leaves it is
    reported by Tk and goes no further. *)
Definition after (callback : M unit) : M unit :=
  fun w => match callback w with
           | (Ok _, w') => (Ok tt, w')
           | (Raise e, w') =>
               (Ok tt, mk_world (calls w') (shown w' ++ [CallbackError e]))
           end.

(** Reading a variable of an enclosing scope that is no longer bound: the
    name of an [except ... as name] clause, deleted when the clause ends. *)
Definition unbound {A} (name : str) : M A := raise (NameError name).

Declare Scope py_scope.
Delimit Scope py_scope with py.
Notation "x <- c ;; k" := (bind c (fun x => k))
  (at level 61, c at next level, right associativity) : py_scope.
Notation "c ;; k" := (bind c (fun _ => k))
  (at level 61, right associativity) : py_scope.
Open Scope py_scope.

(** [for i, x in enumerate(xs, start=i0): s = body i x s], the local
    variables the body assigns being threaded as [s]. *)
Fixpoint for_enumerate {A S} (body : Z -> A -> S -> M S)
  (i0 : Z) (xs : list A) (s : S) : M S :=
  match xs with
  | [] => ret s
  | x :: xs' => s' <- body i0 x s ;; for_enumerate body (i0 + 1) xs' s'
  end.

Definition len {A} (xs : list A) : Z := Z.of_nat (List.length xs).

Section Network.

Variable net : network.

(** [requests.post(url, json=..., headers=..., timeout=...)]: the call is
    recorded whether it returns or raises. *)
Definition post (q : request) : M response :=
  fun w =>
    let w' := mk_world (calls w ++ [q]) (shown w) in
    match net (calls w) q with
    | Responded r => (Ok r, w')
    | Failed cls msg => (Raise (RequestException cls msg), w')
    end.

End Network.

(** [response.json()] *)
Definition response_json (r : response) : M jval :=
  match body_json r with
  | inr v => ret v
  | inl msg => raise (JSONDecodeError msg)
  end.

(** A number literal that [json] decodes to an [int]: digits and a sign
    only; one with a fraction or an exponent, and [NaN] and [Infinity],
    decode to a [float]. *)
Definition is_int_literal (s : str) : bool :=
  forallb (fun c => N.eqb c 45 || (N.leb 48 c && N.leb c 57)) s.

(** [v[k]] for a string key [k]: only a JSON object can be subscripted by
    a string. *)
Definition getitem (v : jval) (k : str) : M jval :=
  match v with
  | JObj m =>
      match members_get m k with
      | Some x => ret x
      | None => raise (KeyError k)
      end
  | JArr _ => raise (TypeError (lit "list indices must be integers or slices, not str"))
  | JStr _ => raise (TypeError (lit "string indices must be integers, not 'str'"))
  | JNull => raise (TypeError (lit "'NoneType' object is not subscriptable"))
  | JBool _ => raise (TypeError (lit "'bool' object is not subscriptable"))
  | JNum literal =>
      raise (TypeError (if is_int_literal literal
                        then lit "'int' object is not subscriptable"
                        else lit "'float' object is not subscriptable"))
  end.

(** [d[k]] on a customer dictionary. *)
Definition dict_getitem (d : dict) (k : str) : M str :=
  match dict_get d k with
  | Some v => ret v
  | None => raise (KeyError k)
  end.

(** The nine text inputs of the single-record form, as typed. *)
Record form : Type := mk_form {
  first_name : str;
  last_name : str;
  road : str;
  city : str;
  state : str;
  zip_code : str;
  country : str;
  phone : str;
  dob : str
}.

(* ------------------------------------------------------------------ *)
(** * upstream_integration.py *)

Module Integration.

Definition BASE_URL : str := lit "http://localhost:5000".
Definition API_KEY : str := lit "upstream-app-key-001".

Definition HEADERS : list (str * str) :=
  [ (lit "Content-Type", lit "application/json");
    (lit "X-API-Key", API_KEY) ].

Section Net.

Variable net : network.

Definition push_customer (customer : dict) : M jval :=
  response <- post net {| url := BASE_URL ++ lit "/api/customers";
                          json := customer;
                          headers := HEADERS;
                          timeout := 10 |} ;;
  if status_code response =? 201 then
    created <- response_json response ;;
    id <- getitem created (lit "id") ;;
    first_name <- getitem created (lit "first_name") ;;
    last_name <- getitem created (lit "last_name") ;;
    emit (Print [Lit "[OK] Customer created  id="; FVal id; Lit "  name=";
                 FVal first_name; Lit " "; FVal last_name]) ;;
    ret created
  else
    emit (Print [Lit "[FAIL] HTTP "; FInt (status_code response); Lit ": ";
                 FStr (text response)]) ;;
    raise (RuntimeError (lit "Failed to push customer: " ++ text response)).

(** The body of the loop of [push_batch]; [created] is the list being
    appended to. *)
Definition push_batch_body (total : Z) (i : Z) (customer : dict)
  (created : list jval) : M (list jval) :=
  emit (Print [Lit "Pushing record "; FInt i; Lit "/"; FInt total;
               Lit " ..."]) ;;
  try_except
    (r <- push_customer customer ;; ret (created ++ [r]))
    is_RuntimeError
    (fun exc =>
       emit (Print [Lit "  Skipping record "; FInt i; Lit ": "; FExc exc]) ;;
       ret created).

Definition push_batch (customers : list dict) : M (list jval) :=
  created <- for_enumerate (push_batch_body (len customers)) 1 customers [] ;;
  emit (Print [Lit "\nDone. "; FInt (len created); Lit "/";
               FInt (len customers); Lit " records pushed successfully."]) ;;
  ret created.

End Net.

End Integration.

(* ------------------------------------------------------------------ *)
(** * upstream_ui.py *)

Module UI.

Definition DEFAULT_BASE_URL : str := lit "http://localhost:5000".
Definition DEFAULT_API_KEY : str := lit "upstream-app-key-001".

Definition FIELDS : list (str * str) :=
  [ (lit "first_name", lit "First Name *");
    (lit "last_name",  lit "Last Name *");
    (lit "road",       lit "Road / Street *");
    (lit "city",       lit "City *");
    (lit "state",      lit "State *");
    (lit "zip",        lit "ZIP Code *");
    (lit "country",    lit "Country *");
    (lit "phone",      lit "Phone *");
    (lit "dob",        lit "Date of Birth (MM/DD/YYYY) *") ].

Definition CSV_COLUMNS : list str := map fst FIELDS.

(** [self.entry_vars] once the operator has typed [f]: one [StringVar] per
    entry of [FIELDS], in that order ([_build_single_tab]). *)
Definition entry_vars (f : form) : dict :=
  combine CSV_COLUMNS
    [ first_name f; last_name f; road f; city f; state f; zip_code f;
      country f; phone f; dob f ].

Section Net.

Variable net : network.

Definition push_customer (customer : dict) (base_url api_key : str)
  : M jval :=
  let headers := [ (lit "Content-Type", lit "application/json");
                   (lit "X-API-Key", api_key) ] in
  response <- post net {| url := base_url ++ lit "/api/customers";
                          json := customer;
                          headers := headers;
                          timeout := 10 |} ;;
  if status_code response =? 201 then
    response_json response
  else
    raise (RuntimeError (lit "HTTP " ++ of_int (status_code response)
                         ++ lit ": " ++ text response)).

(** The body of the loop of [push_batch]; [ok] is the success counter. *)
Definition push_batch_body (base_url api_key : str) (total : Z)
  (i : Z) (customer : dict) (ok : Z) : M Z :=
  emit (LogCb [Lit "["; FInt i; Lit "/"; FInt total; Lit "] Pushing ";
               FStr (dict_get_default customer (lit "first_name") []);
               Lit " ";
               FStr (dict_get_default customer (lit "last_name") []);
               Lit " …"] (lit "info")) ;;
  try_except
    (created <- push_customer customer base_url api_key ;;
     id <- getitem created (lit "id") ;;
     first <- getitem created (lit "first_name") ;;
     last <- getitem created (lit "last_name") ;;
     emit (LogCb [Lit "  ✔ Created  id="; FVal id; Lit "  "; FVal first;
                  Lit " "; FVal last] (lit "ok")) ;;
     ret (ok + 1))
    is_RuntimeError
    (fun exc =>
       emit (LogCb [Lit "  ✘ Failed: "; FExc exc] (lit "error")) ;;
       ret ok).

(** [log_cb] and [done_cb] are recorded as the events [LogCb] and
    [DoneCb]. *)
Definition push_batch (customers : list dict) (base_url api_key : str)
  : M unit :=
  ok <- for_enumerate (push_batch_body base_url api_key (len customers))
          1 customers 0 ;;
  emit (DoneCb ok (len customers)).

(** [customer] of [_submit_single]: every entry stripped. *)
Definition customer (vars : dict) : dict :=
  map (fun '(key, var) => (key, strip var)) vars.

(** [not customer.get(key)] *)
Definition falsy (v : option str) : bool :=
  match v with
  | None => true
  | Some s => is_empty s
  end.

(** [missing] of [_submit_single]: the labels of the fields left empty. *)
Definition missing (customer : dict) : list str :=
  map snd (filter (fun '(key, label) => falsy (dict_get customer key)) FIELDS).

(** [task], the body of the worker thread of [_submit_single].  The two
    message boxes are lambdas handed to [self.after]: they read [created]
    and [exc] when they run.  [created] is still bound then; [exc] is not,
    the [except] clause that bound it has ended. *)
Definition task (customer : dict) (base_url api_key : str) : M unit :=
  try_except
    (created <- push_customer customer base_url api_key ;;
     id <- getitem created (lit "id") ;;
     first <- getitem created (lit "first_name") ;;
     last <- getitem created (lit "last_name") ;;
     emit (LogCb [Lit "✔ Created  id="; FVal id; Lit "  "; FVal first;
                  Lit " "; FVal last] (lit "ok")) ;;
     after (id <- getitem created (lit "id") ;;
            first <- getitem created (lit "first_name") ;;
            last <- getitem created (lit "last_name") ;;
            emit (MessageBox "showinfo" "Success"
                    [Lit "Customer created!\nID: "; FVal id; Lit "\nName: ";
                     FVal first; Lit " "; FVal last])))
    is_Exception
    (fun exc =>
       emit (LogCb [Lit "✘ "; FExc exc] (lit "error")) ;;
       after (exc <- unbound (lit "exc") ;;
              emit (MessageBox "showerror" "Error" [FExc exc]))).

(** [_submit_single]; the worker thread it starts is run to its end in
    place. *)
Definition _submit_single (f : form) (var_url var_key : str) : M unit :=
  let customer := customer (entry_vars f) in
  let missing := missing customer in
  match missing with
  | _ :: _ =>
      emit (MessageBox "showwarning" "Missing Fields"
              [Lit "Please fill in:\n"; FStr (join [10%N] missing)])
  | [] =>
      first <- dict_getitem customer (lit "first_name") ;;
      last <- dict_getitem customer (lit "last_name") ;;
      emit (LogCb [Lit "Submitting "; FStr first; Lit " "; FStr last;
                   Lit " …"] (lit "info")) ;;
      let base_url := rstrip_chars (lit "/") var_url in
      let api_key := strip var_key in
      task customer base_url api_key
  end.

End Net.

End UI.

(* ------------------------------------------------------------------ *)
(** * upstream_streamlit.py *)

Module Streamlit.

Definition REQUIRED_COLS : list str :=
  [ lit "first_name"; lit "last_name"; lit "road"; lit "city";
    lit "state"; lit "zip"; lit "country"; lit "phone"; lit "dob" ].

(** [customer] of the "Submit Record" handler. *)
Definition customer (f : form) : dict :=
  [ (lit "first_name", strip (first_name f));
    (lit "last_name",  strip (last_name f));
    (lit "road",       strip (road f));
    (lit "city",       strip (city f));
    (lit "state",      strip (state f));
    (lit "zip",        strip (zip_code f));
    (lit "country",    strip (country f));
    (lit "phone",      strip (phone f));
    (lit "dob",        strip (dob f)) ].

(** [missing = [k for k, v in customer.items() if not v]] *)
Definition missing (customer : dict) : list str :=
  map fst (filter (fun '(k, v) => is_empty v) customer).

(** [data], the rows of the uploaded file normalised to the required
    columns (every cell of a row is a string). *)
Definition normalise (rows : list dict) : list dict :=
  map (fun row =>
         map (fun col => (col, strip (dict_get_default row col [])))
             REQUIRED_COLS)
      rows.

Section Net.

Variable net : network.

(** The two text inputs of the configuration expander. *)
Variables base_url api_key : str.

Definition HEADERS : list (str * str) :=
  [ (lit "Content-Type", lit "application/json");
    (lit "X-API-Key", api_key) ].

Definition push_customer (customer : dict) : M jval :=
  response <- post net {| url := rstrip_chars (lit "/") base_url
                                 ++ lit "/api/customers";
                          json := customer;
                          headers := HEADERS;
                          timeout := 10 |} ;;
  if status_code response =? 201 then
    response_json response
  else
    raise (RuntimeError (lit "HTTP " ++ of_int (status_code response)
                         ++ lit ": " ++ text response)).

(** The block of the "Submit Record" button. *)
Definition submit_record (f : form) : M unit :=
  let customer := customer f in
  let missing := missing customer in
  match missing with
  | _ :: _ =>
      emit (St "error" [Lit "Please fill in: "; FStr (join (lit ", ") missing)])
  | [] =>
      emit (St "spinner" [Lit "Submitting…"]) ;;
      try_except
        (created <- push_customer customer ;;
         id <- getitem created (lit "id") ;;
         first <- getitem created (lit "first_name") ;;
         last <- getitem created (lit "last_name") ;;
         emit (St "success" [Lit "✅ Customer created!\n\n**ID:** "; FVal id;
                             Lit "  \n**Name:** "; FVal first; Lit " ";
                             FVal last]))
        is_Exception
        (fun exc => emit (St "error" [Lit "❌ "; FExc exc]))
  end.

(** The body of the loop of the "Push All Records" button; the loop
    assigns [log_lines] and [ok_count]. *)
Definition push_all_body (total : Z) (i : Z) (customer : dict)
  (s : list fmt * Z) : M (list fmt * Z) :=
  let '(log_lines, ok_count) := s in
  first <- dict_getitem customer (lit "first_name") ;;
  last <- dict_getitem customer (lit "last_name") ;;
  let name := first ++ lit " " ++ last in
  s' <- try_except
          (created <- push_customer customer ;;
           id <- getitem created (lit "id") ;;
           ret (log_lines ++ [[Lit "✅ ["; FInt i; Lit "/"; FInt total;
                               Lit "] Created id="; FVal id; Lit "  ";
                               FStr name]],
                ok_count + 1))
          is_RuntimeError
          (fun exc =>
             ret (log_lines ++ [[Lit "❌ ["; FInt i; Lit "/"; FInt total;
                                 Lit "] Failed – "; FStr name; Lit ": ";
                                 FExc exc]],
                  ok_count)) ;;
  emit (Progress i total [Lit "Processing "; FInt i; Lit "/"; FInt total;
                          Lit "…"]) ;;
  emit (LogArea (fst s')) ;;
  ret s'.

(** The block of the "Push All Records" button; it returns [log_lines]
    and [ok_count] as they are when the block ends. *)
Definition push_all_records (data : list dict) : M (list fmt * Z) :=
  emit (St "progress" [Lit "Starting…"]) ;;
  s <- for_enumerate (push_all_body (len data)) 1 data ([], 0) ;;
  emit ProgressEmpty ;;
  (if snd s =? len data then
     emit (St "success" [Lit "🎉 All "; FInt (snd s);
                         Lit " records pushed successfully!"])
   else
     emit (St "warning" [Lit "⚠️ "; FInt (snd s); Lit "/"; FInt (len data);
                         Lit " records pushed. Check the log above for failures."])) ;;
  ret s.

End Net.

End Streamlit.

(* ------------------------------------------------------------------ *)
(** * Vocabulary of the statements *)

(** The nine fields of the form by name, as typed, in the canonical
    order. *)
Definition typed (f : form) : dict :=
  [ (lit "first_name", first_name f);
    (lit "last_name",  last_name f);
    (lit "road",       road f);
    (lit "city",       city f);
    (lit "state",      state f);
    (lit "zip",        zip_code f);
    (lit "country",    country f);
    (lit "phone",      phone f);
    (lit "dob",        dob f) ].

(** The names of the fields that are empty once trimmed, in the canonical
    order. *)
Definition empty_fields (f : form) : list str :=
  map fst (filter (fun '(k, v) => is_empty (strip v)) (typed f)).

(** The form label of a field ([FIELDS] of upstream_ui.py). *)
Definition label_of (name : str) : str :=
  dict_get_default UI.FIELDS name [].

(** The record of the form with every value trimmed. *)
Definition normalised (f : form) : dict :=
  map (fun '(k, v) => (k, strip v)) (typed f).

Definition is_Ok {A} (r : result A) : bool :=
  match r with Ok _ => true | Raise _ => false end.

(** A created record as the loops use it: an object with [id],
    [first_name] and [last_name]. *)
Definition well_formed (v : jval) : bool :=
  match v with
  | JObj m =>
      match members_get m (lit "id"), members_get m (lit "first_name"),
            members_get m (lit "last_name") with
      | Some _, Some _, Some _ => true
      | _, _, _ => false
      end
  | _ => false
  end.

(** A submission that ended the way the batch loops provide for: a
    well-formed created record, or a [RuntimeError]. *)
Definition settled (o : result jval) : bool :=
  match o with
  | Ok v => well_formed v
  | Raise e => is_RuntimeError e
  end.

(** A created record as the Streamlit loop uses it: an object with
    [id]. *)
Definition has_id (v : jval) : bool :=
  match v with
  | JObj m =>
      match members_get m (lit "id") with
      | Some _ => true
      | None => false
      end
  | _ => false
  end.

(** A submission that ended the way a loop provides for, when [good] is
    what the loop needs of a created record: a good created record, or a
    [RuntimeError]. *)
Definition settled_by (good : jval -> bool) (o : result jval) : bool :=
  match o with
  | Ok v => good v
  | Raise e => is_RuntimeError e
  end.

Section Replay.

(** A submission client, [push_customer] with its configuration. *)
Variable submit : dict -> M jval.

(** What each record's submission results in, in input order: record [i]
    is submitted after the requests of records [1..i-1], on top of the
    requests [hist] made before the batch. *)
Fixpoint outcomes (hist : list request) (customers : list dict)
  : list (result jval) :=
  match customers with
  | [] => []
  | c :: cs =>
      let '(o, w) := submit c (mk_world hist []) in
      o :: outcomes (calls w) cs
  end.

(** The created records among the outcomes, in input order. *)
Definition created_records (hist : list request) (customers : list dict)
  : list jval :=
  flat_map (fun o => match o with Ok v => [v] | Raise _ => [] end)
           (outcomes hist customers).

Definition created_count (hist : list request) (customers : list dict) : Z :=
  len (created_records hist customers).

End Replay.

(** The requests the three clients send for a record. *)
Definition integration_request (c : dict) : request :=
  {| url := lit "http://localhost:5000/api/customers";
     json := c;
     headers := [ (lit "Content-Type", lit "application/json");
                  (lit "X-API-Key", lit "upstream-app-key-001") ];
     timeout := 10 |}.

Definition ui_request (base_url api_key : str) (c : dict) : request :=
  {| url := base_url ++ lit "/api/customers";
     json := c;
     headers := [ (lit "Content-Type", lit "application/json");
                  (lit "X-API-Key", api_key) ];
     timeout := 10 |}.

Definition streamlit_request (base_url api_key : str) (c : dict) : request :=
  ui_request (rstrip_chars (lit "/") base_url) api_key c.

(** The tag of the result line the Tk loop logs for an outcome. *)
Definition tag_of (o : result jval) : str :=
  if is_Ok o then lit "ok" else lit "error".

(** The tags of the result lines among the events. *)
Definition result_tags (evs : list event) : list str :=
  flat_map (fun ev =>
              match ev with
              | LogCb _ tag =>
                  if eqb tag (lit "ok") || eqb tag (lit "error")
                  then [tag] else []
              | _ => []
              end) evs.

(** The progress lines ([info]) among the events. *)
Definition progress_lines (evs : list event) : list event :=
  filter (fun ev =>
            match ev with
            | LogCb _ tag => eqb tag (lit "info")
            | Print (Lit "Pushing record " :: _) => true
            | Progress _ _ _ => true
            | _ => false
            end) evs.

(** The rows of [data] have the two columns the Streamlit loop reads. *)
Definition named (c : dict) : Prop :=
  dict_get c (lit "first_name") <> None /\ dict_get c (lit "last_name") <> None.

(** The progress updates among the events of a world, one [tt] each. *)
Definition ticks (w : world) : list unit :=
  flat_map (fun ev => match ev with Progress _ _ _ => [tt] | _ => [] end)
           (shown w).

(** The exception [requests] raises for a reply that is a transport
    failure or a 201 whose body is not JSON; [None] for the other
    replies. *)
Definition raw_failure (rp : reply) : option exn :=
  match rp with
  | Failed cls msg => Some (RequestException cls msg)
  | Responded r =>
      if status_code r =? 201 then
        match body_json r with
        | inl msg => Some (JSONDecodeError msg)
        | inr _ => None
        end
      else None
  end.

Definition result_map {A B} (f : A -> B) (r : result A) : result B :=
  match r with
  | Ok a => Ok (f a)
  | Raise e => Raise e
  end.

(** What holds of the success counter [r] of a loop run on [customers],
    when [good] is what the loop needs of a created record.  The loop gets
    through exactly when every submission settles, and its counter is then
    the number of created records; otherwise it is left by an exception that
    is not a [RuntimeError]. *)
Definition counter_ok (submit : dict -> M jval) (good : jval -> bool)
  (hist : list request) (customers : list dict) (r : result Z) : Prop :=
  match r with
  | Ok ok =>
      forallb (settled_by good) (outcomes submit hist customers) = true
      /\ ok = created_count submit hist customers
      /\ 0 <= ok <= len customers
  | Raise e =>
      forallb (settled_by good) (outcomes submit hist customers) = false
      /\ is_RuntimeError e = false
  end.

(** What one more record does to the success counter: [before] is the
    counter of the loop run on the records so far, [next] that of the loop
    run on one record more, whose submission results in [o].  The counter
    goes up by one when the submission returns and stays when it raises a
    [RuntimeError]; any other outcome ends the loop, and a loop that was
    left stays left. *)
Definition counter_step (good : jval -> bool) (o : result jval)
  (before next : result Z) : Prop :=
  match before, next with
  | Ok n, Ok n' =>
      settled_by good o = true /\ n' = n + (if is_Ok o then 1 else 0)
  | Ok _, Raise e => settled_by good o = false /\ is_RuntimeError e = false
  | Raise e, Raise e' => e' = e
  | Raise _, Ok _ => False
  end.

(* ------------------------------------------------------------------ *)
(** * Sample data *)

Module Samples.

Definition record (first last street : string) : dict :=
  [ (lit "first_name", lit first);
    (lit "last_name",  lit last);
    (lit "road",       lit street);
    (lit "city",       lit "Boston");
    (lit "state",      lit "MA");
    (lit "zip",        lit "02101");
    (lit "country",    lit "USA");
    (lit "phone",      lit "6171234567");
    (lit "dob",        lit "03/15/1985") ].

Definition alice : dict := record "Alice" "Johnson" "10 Elm Street".
Definition bob : dict := record "Bob" "Williams" "55 Oak Avenue".
(** The "intentionally bad record" of the demo: [road] is empty. *)
Definition charlie : dict := record "Charlie" "Brown" "".

Definition echoed (c : dict) : jval :=
  JObj ((lit "id", JNum (lit "1")) :: map (fun '(k, v) => (k, JStr v)) c).

Definition rejection (status : Z) (body : string) : response :=
  mk_response status (lit body)
    (inl (lit "Expecting value: line 1 column 1 (char 0)")).

(** A service that creates every record that has a road and answers 422
    to the others. *)
Definition service : network :=
  fun _ q =>
    match dict_get (json q) (lit "road") with
    | Some (_ :: _) =>
        Responded (mk_response 201 (lit "{}") (inr (echoed (json q))))
    | _ => Responded (rejection 422 "road is required")
    end.

(** A service that answers every request the same way. *)
Definition always (r : response) : network := fun _ _ => Responded r.

(** The same service behind a connection that fails for the first
    request. *)
Definition flaky : network :=
  fun hist q =>
    match hist with
    | [] => Failed ConnectionError (lit "Connection refused")
    | _ :: _ => service hist q
    end.

(** A service that answers 201 with a body that is not JSON. *)
Definition garbled : network :=
  always (mk_response 201 (lit "<html>")
            (inl (lit "Expecting value: line 1 column 1 (char 0)"))).

Definition endpoint : str := lit "http://localhost:5000".
Definition secret : str := lit "upstream-app-key-001".

Definition padded : form :=
  mk_form (lit "  Alice ") (lit "Johnson") (lit "10 Elm Street")
          (lit "Boston") (lit "MA") (lit " 02101") (lit "USA")
          (lit "6171234567") (lit "03/15/1985").

Definition no_road : form :=
  mk_form (lit "Charlie") (lit "Brown") (lit "   ")
          (lit "New York") (lit "NY") (lit "10001") (lit "USA")
          (lit "2125550001") (lit "").

Definition blank : form := mk_form [] [] [] [] [] [] [] [] [].

End Samples.

(* ------------------------------------------------------------------ *)
(** * Reading a CSV file *)

Module Csv.

(** A row as [csv.DictReader] yields it: a cell is [None] where the line is
    shorter than the header.  (What [DictReader] files under the key [None]
    for a line longer than the header is left out: no column name equals
    that key.) *)
Definition row := list (str * option str).

Fixpoint lookup (r : row) (col : str) : option (option str) :=
  match r with
  | [] => None
  | (k, v) :: r' => if eqb k col then Some v else lookup r' col
  end.

(** [col in row] *)
Definition has (r : row) (col : str) : bool :=
  match lookup r col with
  | Some _ => true
  | None => false
  end.

(** [row.get(col, "")]; the result [None] is Python's [None]. *)
Definition get (r : row) (col : str) : option str :=
  match lookup r col with
  | Some v => v
  | None => Some []
  end.

(** What the [try] block that reads the file ends in: the message of the
    exception it caught, or [list(reader)]. *)
Inductive read : Type :=
| Unreadable (message : str)
| Rows (rows : list row).

End Csv.

(** What can leave a handler of the two applications: an exception of the
    submission path, or the [AttributeError] of a method called on
    [None]. *)
Inductive uncaught : Type :=
| Exc (e : exn)
| AttributeError (msg : str).

(** A list comprehension whose element expression can raise: the first
    exception ends it. *)
Fixpoint collect {A B} (f : A -> uncaught + B) (xs : list A)
  : uncaught + list B :=
  match xs with
  | [] => inr []
  | x :: xs' =>
      match f x with
      | inl e => inl e
      | inr y =>
          match collect f xs' with
          | inl e => inl e
          | inr ys => inr (y :: ys)
          end
      end
  end.

(** [row.get(col, "").strip()] *)
Definition stripped_cell (r : Csv.row) (col : str) : uncaught + str :=
  match Csv.get r col with
  | Some s => inr (strip s)
  | None =>
      inl (AttributeError (lit "'NoneType' object has no attribute 'strip'"))
  end.

(** [{col: row.get(col, "").strip() for col in cols}] *)
Definition normalise_row (cols : list str) (r : Csv.row) : uncaught + dict :=
  collect (fun col =>
             match stripped_cell r col with
             | inl e => inl e
             | inr v => inr (col, v)
             end) cols.

(** [[{col: ...} for row in rows]] *)
Definition normalise_rows (cols : list str) (rows : list Csv.row)
  : uncaught + list dict :=
  collect (normalise_row cols) rows.

(** [[c for c in cols if c not in rows[0]]], for [rows] that are not
    empty. *)
Definition missing_cols (cols : list str) (first : Csv.row) : list str :=
  filter (fun c => negb (Csv.has first c)) cols.

(* ------------------------------------------------------------------ *)
(** * Handlers with a state of their own *)

Section Handlers.

(** The state the handlers keep besides the [world]. *)
Variable G : Type.

Definition T (A : Type) : Type := G -> world -> (uncaught + A) * G * world.

Definition tret {A} (a : A) : T A := fun g w => (inr a, g, w).

Definition tbind {A B} (c : T A) (k : A -> T B) : T B :=
  fun g w => match c g w with
             | (inr a, g', w') => k a g' w'
             | (inl e, g', w') => (inl e, g', w')
             end.

(** A computation of the submission path. *)
Definition lift {A} (c : M A) : T A :=
  fun g w => match c w with
             | (Ok a, w') => (inr a, g, w')
             | (Raise e, w') => (inl (Exc e), g, w')
             end.

(** The value of an expression that can raise. *)
Definition attempt {A} (r : uncaught + A) : T A :=
  fun g w => (r, g, w).

Definition get_state : T G := fun g w => (inr g, g, w).

Definition modify (f : G -> G) : T unit := fun g w => (inr tt, f g, w).

End Handlers.

Arguments tret {G A} a.
Arguments tbind {G A B} c k.
Arguments lift {G A} c.
Arguments attempt {G A} r.
Arguments get_state {G}.
Arguments modify {G} f.

Declare Scope handler_scope.
Delimit Scope handler_scope with handler.
Notation "x <-- c ;;; k" := (tbind c (fun x => k))
  (at level 61, c at next level, right associativity) : handler_scope.
Notation "c ;;; k" := (tbind c (fun _ => k))
  (at level 61, right associativity) : handler_scope.
Open Scope handler_scope.

(* ------------------------------------------------------------------ *)
(** * upstream_ui.py: the application *)

Module TkApp.

(** The variables and widgets of [UpstreamApp] the handlers read or
    write. *)
Record app : Type := mk_app {
  var_url : str;
  var_key : str;
  entry_vars : dict;            (* one StringVar per field of the form *)
  var_csv_path : str;
  _csv_data : list dict;
  tree : list (list str);       (* the rows of the preview *)
  var_row_count : fmt;
  btn_push_csv : string         (* its "state" *)
}.

Definition with_entry_vars (v : dict) (a : app) : app :=
  mk_app (var_url a) (var_key a) v (var_csv_path a) (_csv_data a) (tree a)
         (var_row_count a) (btn_push_csv a).

Definition with_var_csv_path (p : str) (a : app) : app :=
  mk_app (var_url a) (var_key a) (entry_vars a) p (_csv_data a) (tree a)
         (var_row_count a) (btn_push_csv a).

Definition with_csv_data (d : list dict) (a : app) : app :=
  mk_app (var_url a) (var_key a) (entry_vars a) (var_csv_path a) d (tree a)
         (var_row_count a) (btn_push_csv a).

Definition with_tree (t : list (list str)) (a : app) : app :=
  mk_app (var_url a) (var_key a) (entry_vars a) (var_csv_path a)
         (_csv_data a) t (var_row_count a) (btn_push_csv a).

Definition with_var_row_count (m : fmt) (a : app) : app :=
  mk_app (var_url a) (var_key a) (entry_vars a) (var_csv_path a)
         (_csv_data a) (tree a) m (btn_push_csv a).

Definition with_btn_push_csv (s : string) (a : app) : app :=
  mk_app (var_url a) (var_key a) (entry_vars a) (var_csv_path a)
         (_csv_data a) (tree a) (var_row_count a) s.

Definition with_var_url (s : str) (a : app) : app :=
  mk_app s (var_key a) (entry_vars a) (var_csv_path a) (_csv_data a)
         (tree a) (var_row_count a) (btn_push_csv a).

Definition with_var_key (s : str) (a : app) : app :=
  mk_app (var_url a) s (entry_vars a) (var_csv_path a) (_csv_data a)
         (tree a) (var_row_count a) (btn_push_csv a).

(** The application as [_build_ui] leaves it. *)
Definition built : app :=
  {| var_url := UI.DEFAULT_BASE_URL;
     var_key := UI.DEFAULT_API_KEY;
     entry_vars := map (fun '(key, label) => (key, [])) UI.FIELDS;
     var_csv_path := [];
     _csv_data := [];
     tree := [];
     var_row_count := [Lit "No file loaded."];
     btn_push_csv := "disabled" |}.

(** Where [_build_single_tab] puts the label and the entry of the field of
    index [idx]: [(row, column)] of each. *)
Definition field_cells (idx : Z) : (Z * Z) * (Z * Z) :=
  let row := idx / 2 in
  let col := idx mod 2 in
  let row := row + 1 in
  let lbl_col := col * 2 in
  let ent_col := col * 2 + 1 in
  ((row, lbl_col), (row, ent_col)).

(** The row of the two buttons, for a form of [n] fields. *)
Definition btn_row (n : Z) : Z := (n + 1) / 2 + 2.

Section Net.

Variable net : network.

Definition _clear_form : T app unit :=
  modify (fun a =>
            with_entry_vars (map (fun '(key, var) => (key, [])) (entry_vars a))
                            a).

(** [_submit_single] on the entries of the application. *)
Definition _submit_single : T app unit :=
  a <-- get_state ;;;
  let customer := UI.customer (entry_vars a) in
  let missing := UI.missing customer in
  match missing with
  | _ :: _ =>
      lift (emit (MessageBox "showwarning" "Missing Fields"
                    [Lit "Please fill in:\n"; FStr (join [10%N] missing)]))
  | [] =>
      lift (first <- dict_getitem customer (lit "first_name") ;;
            last <- dict_getitem customer (lit "last_name") ;;
            emit (LogCb [Lit "Submitting "; FStr first; Lit " "; FStr last;
                         Lit " …"] (lit "info")) ;;
            let base_url := rstrip_chars (lit "/") (var_url a) in
            let api_key := strip (var_key a) in
            UI.task net customer base_url api_key)
  end.

(** [_populate_preview] *)
Definition _populate_preview (data : list dict) : T app unit :=
  let cols := UI.CSV_COLUMNS in
  modify (with_tree
            (map (fun row => map (fun c => dict_get_default row c []) cols)
                 (firstn 5 data))).

(** [_load_csv]; [read] is what its [try] block ends in. *)
Definition _load_csv (path : str) (read : Csv.read) : T app unit :=
  match read with
  | Csv.Unreadable message =>
      lift (emit (MessageBox "showerror" "CSV Error"
                    [Lit "Could not read file:\n"; FStr message]))
  | Csv.Rows [] =>
      lift (emit (MessageBox "showwarning" "Empty File"
                    [Lit "The CSV file contains no data rows."]))
  | Csv.Rows ((first :: _) as rows) =>
      let missing_cols := missing_cols UI.CSV_COLUMNS first in
      match missing_cols with
      | _ :: _ =>
          lift (emit (MessageBox "showwarning" "Missing Columns"
                        [Lit "CSV is missing required columns:\n";
                         FStr (join (lit ", ") missing_cols)]))
      | [] => tret tt
      end ;;;
      data <-- attempt (normalise_rows UI.CSV_COLUMNS rows) ;;;
      modify (with_csv_data data) ;;;
      _populate_preview data ;;;
      let total := len data in
      modify (with_var_row_count
                [FInt total; Lit " record";
                 Lit (if total =? 1 then "" else "s"); Lit " loaded."]) ;;;
      modify (with_btn_push_csv "normal") ;;;
      lift (emit (LogCb [Lit "Loaded "; FInt total; Lit " records from: ";
                         FStr path] (lit "info")))
  end.

(** [_browse_csv]; [path] is what the file dialog returns (empty when it
    is cancelled). *)
Definition _browse_csv (path : str) (read : Csv.read) : T app unit :=
  if is_empty path then tret tt
  else
    modify (with_var_csv_path path) ;;;
    _load_csv path read.

(** [done] of [_push_csv] *)
Definition done (ok total : Z) : T app unit :=
  lift (emit (LogCb [Lit "─── Batch complete: "; FInt ok; Lit "/";
                     FInt total; Lit " records pushed successfully ───"]
                (if ok =? total then lit "ok" else lit "warn"))) ;;;
  lift (emit (MessageBox "showinfo" "Batch Complete"
                [FInt ok; Lit " of "; FInt total;
                 Lit " records pushed successfully."])) ;;;
  modify (with_btn_push_csv "normal").

(** [push_batch] with its [done_cb] argument ([log_cb] is still recorded
    as [LogCb]). *)
Definition push_batch (customers : list dict) (base_url api_key : str)
  (done_cb : Z -> Z -> T app unit) : T app unit :=
  ok <-- lift (for_enumerate
                 (UI.push_batch_body net base_url api_key (len customers))
                 1 customers 0) ;;;
  done_cb ok (len customers).

(** [_push_csv]; the worker thread it starts is run to its end in place,
    and an exception that ends the thread is the result. *)
Definition _push_csv : T app unit :=
  a <-- get_state ;;;
  match _csv_data a with
  | [] => tret tt
  | _ :: _ =>
      let base_url := rstrip_chars (lit "/") (var_url a) in
      let api_key := strip (var_key a) in
      modify (with_btn_push_csv "disabled") ;;;
      lift (emit (LogCb [Lit "─── Starting batch push of ";
                         FInt (len (_csv_data a)); Lit " records ───"]
                    (lit "warn"))) ;;;
      push_batch (_csv_data a) base_url api_key done
  end.

(** What the operator can do. *)
Inductive action : Type :=
| TypeInto (key value : str)        (* type into an entry of the form *)
| TypeUrl (value : str)
| TypeKey (value : str)
| ClearForm
| SubmitRecord
| Browse (path : str) (read : Csv.read)
| PushAllRecords.

(** [var.set(value)] on the entry of [key]. *)
Fixpoint set_entry (key value : str) (vars : dict) : dict :=
  match vars with
  | [] => []
  | (k, v) :: vars' =>
      if eqb k key then (k, value) :: vars'
      else (k, v) :: set_entry key value vars'
  end.

(** The handler an action runs; a button that is disabled runs none. *)
Definition perform (act : action) : T app unit :=
  match act with
  | TypeInto key value =>
      modify (fun a => with_entry_vars (set_entry key value (entry_vars a)) a)
  | TypeUrl value => modify (with_var_url value)
  | TypeKey value => modify (with_var_key value)
  | ClearForm => _clear_form
  | SubmitRecord => _submit_single
  | Browse path read => _browse_csv path read
  | PushAllRecords =>
      a <-- get_state ;;;
      if String.eqb (btn_push_csv a) "normal" then _push_csv else tret tt
  end.

(** A session: the application goes on after a handler or a worker thread
    has been left by an exception. *)
Fixpoint session (acts : list action) (a : app) (w : world) : app * world :=
  match acts with
  | [] => (a, w)
  | act :: acts' =>
      let '(_, a', w') := perform act a w in
      session acts' a' w'
  end.

End Net.

End TkApp.

(* ------------------------------------------------------------------ *)
(** * upstream_streamlit.py: the CSV tab *)

Module StreamlitApp.

(** What the page shows besides its messages: the table of
    [st.dataframe]. *)
Record page : Type := mk_page {
  dataframe : list dict
}.

Definition sample_csv : str :=
  lit "first_name,last_name,road,city,state,zip,country,phone,dob" ++ [10%N]
  ++ lit "Alice,Johnson,10 Elm Street,Boston,MA,02101,USA,6171234567,03/15/1985"
  ++ [10%N]
  ++ lit "Bob,Williams,55 Oak Avenue,Chicago,IL,60601,USA,3129876543,07/22/1990"
  ++ [10%N].

Section Net.

Variable net : network.
Variables base_url api_key : str.

(** The block [with tab_csv:] of one run of the script.  [uploaded_file] is
    [None] when no file is chosen, and otherwise what the [try] block that
    reads it ends in; [pushed] is what [st.button] returns. *)
Definition tab_csv (uploaded_file : option Csv.read) (pushed : bool)
  : T page unit :=
  lift (emit (St "subheader" [Lit "Upload CSV File"])) ;;;
  lift (emit (St "caption" [Lit "Required columns: ";
                            FStr (join (lit ", ") Streamlit.REQUIRED_COLS)])) ;;;
  match uploaded_file with
  | Some read =>
      rows <-- match read with
               | Csv.Rows rows => tret rows
               | Csv.Unreadable message =>
                   lift (emit (St "error" [Lit "Could not read file: ";
                                           FStr message])) ;;;
                   tret []
               end ;;;
      match rows with
      | first :: _ =>
          let missing_cols := missing_cols Streamlit.REQUIRED_COLS first in
          match missing_cols with
          | _ :: _ =>
              lift (emit (St "warning"
                            [Lit "⚠️ Missing columns: ";
                             FStr (join (lit ", ") missing_cols)]))
          | [] => tret tt
          end ;;;
          data <-- attempt (normalise_rows Streamlit.REQUIRED_COLS rows) ;;;
          lift (emit (St "markdown"
                        [Lit "**"; FInt (len data);
                         Lit " record(s) loaded.** Preview (first 5 rows):"])) ;;;
          modify (fun _ => mk_page (firstn 5 data)) ;;;
          lift (emit (St "markdown" [Lit "---"])) ;;;
          if pushed then
            lift (Streamlit.push_all_records net base_url api_key data) ;;;
            tret tt
          else tret tt
      | [] =>
          lift (emit (St "warning"
                        [Lit "The CSV file contains no data rows."]))
      end
  | None =>
      lift (emit (St "info" [Lit "Upload a CSV file to get started."])) ;;;
      lift (emit (St "download_button"
                    [Lit "⬇️ Download sample CSV template";
                     FStr sample_csv]))
  end.

End Net.

End StreamlitApp.

(* ------------------------------------------------------------------ *)
(** * More vocabulary *)

(** The progress updates among the events: the position and the total of
    each. *)
Definition progress_of (evs : list event) : list (Z * Z) :=
  flat_map (fun ev =>
              match ev with
              | Progress i total _ => [(i, total)]
              | _ => []
              end) evs.

(** [i, i+1, ..., i+n-1] *)
Fixpoint zrange (i : Z) (n : nat) : list Z :=
  match n with
  | O => []
  | S n' => i :: zrange (i + 1) n'
  end.

(** [c == '/'] *)
Definition is_slash (c : char) : bool := N.eqb c 47.

(** A row of strings as a row of [csv.DictReader]. *)
Definition of_strings (d : dict) : Csv.row :=
  map (fun '(k, v) => (k, Some v)) d.

(** No cell the normalisation reads is [None]. *)
Definition readable (cols : list str) (r : Csv.row) : bool :=
  forallb (fun col => match Csv.get r col with
                      | Some _ => true
                      | None => false
                      end) cols.

(** The table the preview shows for [data]: the nine cells of each of its
    first five rows. *)
Definition preview_of (data : list dict) : list (list str) :=
  map (fun row => map (fun c => dict_get_default row c []) UI.CSV_COLUMNS)
      (firstn 5 data).

(** A record with exactly the nine columns, in the canonical order, each
    value trimmed. *)
Definition clean_record (d : dict) : Prop :=
  map fst d = UI.CSV_COLUMNS /\ Forall (fun v => trimmed v = true) (map snd d).

(** What every state of the Tk application satisfies. *)
Definition consistent (a : TkApp.app) : Prop :=
  map fst (TkApp.entry_vars a) = UI.CSV_COLUMNS
  /\ (TkApp.btn_push_csv a = "normal"%string -> TkApp._csv_data a <> [])
  /\ Forall clean_record (TkApp._csv_data a)
  /\ TkApp.tree a = preview_of (TkApp._csv_data a).

(** The rows as [_load_csv] stores them when no cell it reads is [None]. *)
Definition loaded (cols : list str) (rows : list Csv.row) : list dict :=
  map (fun r =>
         map (fun col => (col, strip (match Csv.get r col with
                                      | Some s => s
                                      | None => []
                                      end))) cols) rows.

(** The warning [_load_csv] shows for the columns the header lacks. *)
Definition missing_warning (first : Csv.row) : list event :=
  match missing_cols UI.CSV_COLUMNS first with
  | [] => []
  | (_ :: _) as m =>
      [MessageBox "showwarning" "Missing Columns"
         [Lit "CSV is missing required columns:\n";
          FStr (join (lit ", ") m)]]
  end.

(** The submission client of a Tk batch: [push_customer] with the URL and
    the key as [_push_csv] reads them. *)
Definition tk_client (net : network) (a : TkApp.app) (c : dict) : M jval :=
  UI.push_customer net c (rstrip_chars (lit "/") (TkApp.var_url a))
                   (strip (TkApp.var_key a)).

Definition tk_request (a : TkApp.app) (c : dict) : request :=
  ui_request (rstrip_chars (lit "/") (TkApp.var_url a))
             (strip (TkApp.var_key a)) c.

(** The upload has rows. *)
Definition has_rows (uploaded_file : option Csv.read) : bool :=
  match uploaded_file with
  | Some (Csv.Rows (_ :: _)) => true
  | _ => false
  end.

(* ------------------------------------------------------------------ *)
(** * More sample data *)

Module Fixtures.

(** A header that lacks [dob], and two lines; the second is one cell
    short. *)
Definition line (first last street : string) (phone : option str)
  : Csv.row :=
  [ (lit "first_name", Some (lit first));
    (lit "last_name",  Some (lit last));
    (lit "road",       Some (lit street));
    (lit "city",       Some (lit " Boston"));
    (lit "state",      Some (lit "MA"));
    (lit "zip",        Some (lit "02101"));
    (lit "country",    Some (lit "USA"));
    (lit "phone",      phone);
    (lit "notes",      Some (lit "vip")) ].

Definition ada : Csv.row :=
  line "Ada " "Byron" "1 Main St" (Some (lit "5550001")).
Definition bea : Csv.row :=
  line "Bea" "Cole" "" (Some (lit "5550002")).
Definition short : Csv.row :=
  line "Cy" "Dunn" "3 Low Rd" None.

Definition record_of (first last street phone : string) : dict :=
  [ (lit "first_name", lit first);
    (lit "last_name",  lit last);
    (lit "road",       lit street);
    (lit "city",       lit "Boston");
    (lit "state",      lit "MA");
    (lit "zip",        lit "02101");
    (lit "country",    lit "USA");
    (lit "phone",      lit phone);
    (lit "dob",        []) ].

Definition path : str := lit "customers.csv".

(** A service that creates every record. *)
Definition accepting : network :=
  fun _ q =>
    Responded (mk_response 201 (lit "{}") (inr (Samples.echoed (json q)))).

(** A service that is unreachable. *)
Definition unreachable : network :=
  fun _ _ => Failed Timeout (lit "timed out").

(** A service that answers every request with a record that has an [id]
    and nothing else. *)
Definition terse : network :=
  fun _ _ =>
    Responded (mk_response 201
                 (lit "{" ++ [34%N] ++ lit "id" ++ [34%N] ++ lit ": 7}")
                 (inr (JObj [(lit "id", JNum (lit "7"))]))).

(** The application with a file of two lines loaded. *)
Definition with_two_rows : TkApp.app :=
  TkApp.with_btn_push_csv "normal"
    (TkApp.with_tree
       (preview_of [record_of "Ada" "Byron" "1 Main St" "5550001";
                    record_of "Bea" "Cole" "" "5550002"])
       (TkApp.with_csv_data
          [record_of "Ada" "Byron" "1 Main St" "5550001";
           record_of "Bea" "Cole" "" "5550002"]
          TkApp.built)).

End Fixtures.

(* ------------------------------------------------------------------ *)
(** * Running the monad *)

(** Unfold the monadic operations and split on every value the control
    flow inspects. *)
Ltac unfold_monad :=
  unfold try_except, after, unbound, bind, ret, raise, emit, post,
    response_json, getitem, dict_getitem in *.

Ltac split_match :=
  match goal with
  | |- context [match ?x with _ => _ end] =>
      lazymatch x with
      | context [match _ with _ => _ end] => fail
      | _ => destruct x eqn:?
      end
  end.

Ltac run := unfold_monad; cbn; repeat (split_match; cbn in *; try congruence).

(** Unfold the operations on handlers. *)
Ltac unfold_handler :=
  unfold tbind, tret, lift, attempt, modify, get_state, emit in *.

(* ------------------------------------------------------------------ *)
(** * Facts about strings *)

Module StrFacts.

Lemma eqb_eq (a b : str) : eqb a b = true <-> a = b.
Proof.
  revert b; induction a as [|x a IH]; intros [|y b]; simpl;
    try (split; [discriminate | congruence]); try tauto.
  rewrite andb_true_iff, N.eqb_eq, IH. split.
  - intros [-> ->]; reflexivity.
  - intros E; injection E; auto.
Qed.

Lemma eqb_refl (a : str) : eqb a a = true.
Proof. apply eqb_eq; reflexivity. Qed.

Section By.

Variable p : char -> bool.

Lemma lstrip_by_clean (s : str) : starts_clean p (lstrip_by p s) = true.
Proof.
  induction s as [|c s IH]; simpl; [reflexivity|].
  destruct (p c) eqn:E; [exact IH|]. simpl. now rewrite E.
Qed.

Lemma lstrip_by_split (s : str) :
  exists l, s = l ++ lstrip_by p s /\ forallb p l = true.
Proof.
  induction s as [|c s [l [E F]]]; simpl.
  - exists []. split; reflexivity.
  - destruct (p c) eqn:Ec.
    + exists (c :: l). simpl. rewrite Ec, F. split; [now f_equal | reflexivity].
    + exists []. split; reflexivity.
Qed.

Lemma lstrip_by_snoc (s : str) (c : char) :
  p c = false -> lstrip_by p (s ++ [c]) = lstrip_by p s ++ [c].
Proof.
  intros Hc. induction s as [|d s IH]; simpl.
  - now rewrite Hc.
  - destruct (p d); [exact IH | reflexivity].
Qed.

Lemma lstrip_by_fixed (s : str) :
  starts_clean p s = true -> lstrip_by p s = s.
Proof.
  destruct s as [|c s]; simpl; [reflexivity|].
  intros H. apply negb_true_iff in H. now rewrite H.
Qed.

Lemma rstrip_by_split (s : str) :
  exists r, s = rstrip_by p s ++ r /\ forallb p r = true.
Proof.
  unfold rstrip_by. destruct (lstrip_by_split (rev s)) as [l [E F]].
  exists (rev l). split.
  - rewrite <- rev_app_distr, <- E. symmetry; apply rev_involutive.
  - rewrite forallb_forall in *. intros x Hx. apply F. now apply in_rev.
Qed.

Lemma rstrip_by_keeps_front (s : str) :
  starts_clean p s = true -> starts_clean p (rstrip_by p s) = true.
Proof.
  unfold rstrip_by. destruct s as [|c s]; simpl; [reflexivity|].
  intros H. apply negb_true_iff in H.
  rewrite lstrip_by_snoc by exact H.
  rewrite rev_app_distr. simpl. now rewrite H.
Qed.

End By.

Lemma strip_trimmed (s : str) : trimmed (strip s) = true.
Proof.
  unfold trimmed, strip. apply andb_true_iff. split.
  - apply rstrip_by_keeps_front, lstrip_by_clean.
  - unfold rstrip_by. rewrite rev_involutive. apply lstrip_by_clean.
Qed.

(** [strip] removes whitespace only, and only at the two ends. *)
Lemma strip_split (s : str) :
  exists l r, s = l ++ strip s ++ r
              /\ forallb isspace l = true /\ forallb isspace r = true.
Proof.
  destruct (lstrip_by_split isspace s) as [l [El Fl]].
  destruct (rstrip_by_split isspace (lstrip_by isspace s)) as [r [Er Fr]].
  exists l, r. unfold strip. rewrite <- Er. auto.
Qed.

Lemma strip_of_trimmed (s : str) : trimmed s = true -> strip s = s.
Proof.
  unfold trimmed, strip, rstrip_by. intros H.
  apply andb_true_iff in H. destruct H as [H1 H2].
  rewrite (lstrip_by_fixed _ _ H1), (lstrip_by_fixed _ _ H2).
  apply rev_involutive.
Qed.

Lemma strip_idempotent (s : str) : strip (strip s) = strip s.
Proof. apply strip_of_trimmed, strip_trimmed. Qed.

End StrFacts.

(* ------------------------------------------------------------------ *)
(** * Validation of the single-record form *)

Module Validation.

Import StrFacts.

Lemma filter_nil_inv {A} (p : A -> bool) (l : list A) :
  filter p l = [] -> forall x, In x l -> p x = false.
Proof.
  induction l as [|a l IH]; simpl; [contradiction|].
  destruct (p a) eqn:E; [discriminate|].
  intros H x [<-|Hx]; auto.
Qed.

Lemma streamlit_customer_normalised (f : form) :
  Streamlit.customer f = normalised f.
Proof. reflexivity. Qed.

Lemma ui_customer_normalised (f : form) :
  UI.customer (UI.entry_vars f) = normalised f.
Proof. reflexivity. Qed.

Lemma streamlit_missing_names (f : form) :
  Streamlit.missing (Streamlit.customer f) = empty_fields f.
Proof.
  rewrite streamlit_customer_normalised.
  unfold Streamlit.missing, empty_fields, normalised.
  induction (typed f) as [|[k v] d IH]; simpl; [reflexivity|].
  destruct (is_empty (strip v)); simpl; now rewrite IH.
Qed.

Lemma filter_cons_app {A} (p : A -> bool) (x : A) (l : list A) :
  filter p (x :: l) = (if p x then [x] else []) ++ filter p l.
Proof. simpl. destruct (p x); reflexivity. Qed.

Lemma ui_missing_labels (f : form) :
  UI.missing (UI.customer (UI.entry_vars f)) = map label_of (empty_fields f).
Proof.
  rewrite ui_customer_normalised.
  destruct f as [a b c d e g h i j].
  unfold UI.missing, empty_fields, normalised, typed, UI.FIELDS.
  cbn [map first_name last_name road city state zip_code country phone dob].
  rewrite !filter_cons_app. cbn [filter]. rewrite !map_app.
  repeat match goal with |- _ ++ _ = _ ++ _ => f_equal end;
    try match goal with
        | |- context [is_empty (strip ?x)] => destruct (strip x)
        end;
    reflexivity.
Qed.

Lemma map_fst_nil_inv {A B} (l : list (A * B)) : map fst l = [] -> l = [].
Proof. destruct l; [reflexivity | discriminate]. Qed.

Lemma normalised_values (f : form) (k raw : str) :
  In (k, raw) (typed f) -> In (k, strip raw) (normalised f).
Proof.
  intros H. unfold normalised.
  change (k, strip raw) with ((fun '(k, v) => (k, strip v)) (k, raw)).
  now apply in_map.
Qed.

Lemma valid_values_nonempty (f : form) (k raw : str) :
  empty_fields f = [] -> In (k, raw) (typed f) -> strip raw <> [].
Proof.
  intros He Hin. unfold empty_fields in He. apply map_fst_nil_inv in He.
  pose proof (filter_nil_inv _ _ He (k, raw) Hin) as H. cbn in H.
  destruct (strip raw); [discriminate | discriminate].
Qed.

(** A submitted form makes exactly one request, whatever comes back. *)
Lemma streamlit_submit_calls (net : network) (base_url api_key : str)
  (f : form) (w : world) :
  empty_fields f = [] ->
  fst (Streamlit.submit_record net base_url api_key f w) = Ok tt
  /\ calls (snd (Streamlit.submit_record net base_url api_key f w))
     = calls w ++ [streamlit_request base_url api_key (normalised f)].
Proof.
  intros He. unfold Streamlit.submit_record. cbv zeta.
  rewrite streamlit_missing_names, He, streamlit_customer_normalised.
  unfold Streamlit.push_customer, is_Exception.
  run; auto.
Qed.

Lemma ui_submit_calls (net : network) (var_url var_key : str)
  (f : form) (w : world) :
  empty_fields f = [] ->
  fst (UI._submit_single net f var_url var_key w) = Ok tt
  /\ calls (snd (UI._submit_single net f var_url var_key w))
     = calls w ++ [ui_request (rstrip_chars (lit "/") var_url)
                              (strip var_key) (normalised f)].
Proof.
  intros He. unfold UI._submit_single. cbv zeta.
  rewrite ui_missing_labels, He, ui_customer_normalised.
  unfold UI.task, UI.push_customer, is_Exception.
  run; auto.
Qed.

Lemma streamlit_invalid_run (net : network) (base_url api_key : str)
  (f : form) (w : world) :
  empty_fields f <> [] ->
  Streamlit.submit_record net base_url api_key f w
  = (Ok tt,
     mk_world (calls w)
       (shown w ++ [St "error" [Lit "Please fill in: ";
                                FStr (join (lit ", ") (empty_fields f))]])).
Proof.
  intros He. unfold Streamlit.submit_record. cbv zeta.
  rewrite streamlit_missing_names.
  destruct (empty_fields f); [congruence | reflexivity].
Qed.

Lemma ui_invalid_run (net : network) (var_url var_key : str)
  (f : form) (w : world) :
  empty_fields f <> [] ->
  UI._submit_single net f var_url var_key w
  = (Ok tt,
     mk_world (calls w)
       (shown w ++ [MessageBox "showwarning" "Missing Fields"
                      [Lit "Please fill in:\n";
                       FStr (join [10%N] (map label_of (empty_fields f)))]])).
Proof.
  intros He. unfold UI._submit_single. cbv zeta.
  rewrite ui_missing_labels.
  destruct (empty_fields f); [congruence | reflexivity].
Qed.

End Validation.

(* ------------------------------------------------------------------ *)
(** * Replaying a batch *)

Module ReplayFacts.

Lemma outcomes_cons (submit : dict -> M jval) (hist : list request)
  (c : dict) (cs : list dict) :
  outcomes submit hist (c :: cs)
  = fst (submit c (mk_world hist []))
    :: outcomes submit (calls (snd (submit c (mk_world hist [])))) cs.
Proof. simpl. destruct (submit c (mk_world hist [])); reflexivity. Qed.

Lemma outcomes_length (submit : dict -> M jval) (cs : list dict) :
  forall hist, List.length (outcomes submit hist cs) = List.length cs.
Proof.
  induction cs as [|c cs IH]; intros hist; [reflexivity|].
  rewrite outcomes_cons. simpl. now rewrite IH.
Qed.

Lemma created_records_cons (submit : dict -> M jval) (hist : list request)
  (c : dict) (cs : list dict) :
  created_records submit hist (c :: cs)
  = match fst (submit c (mk_world hist [])) with
    | Ok v => [v]
    | Raise _ => []
    end ++ created_records submit
             (calls (snd (submit c (mk_world hist [])))) cs.
Proof. unfold created_records. now rewrite outcomes_cons. Qed.

Lemma len_app {A} (xs ys : list A) : len (xs ++ ys) = len xs + len ys.
Proof. unfold len. rewrite length_app. lia. Qed.

Lemma len_nonneg {A} (xs : list A) : 0 <= len xs.
Proof. unfold len. lia. Qed.

Lemma created_count_cons (submit : dict -> M jval) (hist : list request)
  (c : dict) (cs : list dict) :
  created_count submit hist (c :: cs)
  = (if is_Ok (fst (submit c (mk_world hist []))) then 1 else 0)
    + created_count submit (calls (snd (submit c (mk_world hist [])))) cs.
Proof.
  unfold created_count. rewrite created_records_cons, len_app.
  destruct (fst (submit c (mk_world hist []))); reflexivity.
Qed.

(** At most one created record per input record. *)
Lemma created_count_bounds (submit : dict -> M jval) (cs : list dict) :
  forall hist, 0 <= created_count submit hist cs <= len cs.
Proof.
  induction cs as [|c cs IH]; intros hist.
  - unfold created_count, created_records, len; simpl; lia.
  - rewrite created_count_cons.
    specialize (IH (calls (snd (submit c (mk_world hist []))))).
    change (c :: cs) with ([c] ++ cs). rewrite len_app.
    change (len [c]) with 1.
    destruct (is_Ok _); lia.
Qed.

(** Every record created: as many created records as inputs. *)
Lemma created_count_all (submit : dict -> M jval) (cs : list dict) :
  forall hist,
    created_count submit hist cs = len cs
    <-> forallb is_Ok (outcomes submit hist cs) = true.
Proof.
  induction cs as [|c cs IH]; intros hist.
  - simpl. unfold created_count, created_records, len; simpl. tauto.
  - rewrite created_count_cons, outcomes_cons.
    change (c :: cs) with ([c] ++ cs). rewrite len_app.
    change (len [c]) with 1. cbn [forallb].
    pose proof (created_count_bounds submit cs
                  (calls (snd (submit c (mk_world hist []))))) as B.
    specialize (IH (calls (snd (submit c (mk_world hist []))))).
    destruct (is_Ok _); cbn [andb].
    + rewrite <- IH. lia.
    + split; [lia | discriminate].
Qed.

Lemma for_enumerate_cons {A S} (body : Z -> A -> S -> M S) (i : Z)
  (x : A) (xs : list A) (s : S) (w : world) :
  for_enumerate body i (x :: xs) s w
  = match body i x s w with
    | (Ok s', w') => for_enumerate body (i + 1) xs s' w'
    | (Raise e, w') => (Raise e, w')
    end.
Proof. reflexivity. Qed.

Lemma for_enumerate_app {A S} (body : Z -> A -> S -> M S)
  (xs ys : list A) :
  forall (i : Z) (s : S) (w : world),
    for_enumerate body i (xs ++ ys) s w
    = match for_enumerate body i xs s w with
      | (Ok s', w') => for_enumerate body (i + len xs) ys s' w'
      | (Raise e, w') => (Raise e, w')
      end.
Proof.
  induction xs as [|x xs IH]; intros i s w.
  - cbn. unfold len; cbn. now rewrite Z.add_0_r.
  - cbn [app]. rewrite !for_enumerate_cons.
    destruct (body i x s w) as [[s1|e] w1]; [|reflexivity].
    rewrite IH.
    replace (i + len (x :: xs)) with (i + 1 + len xs)
      by (unfold len; cbn [List.length]; lia).
    reflexivity.
Qed.

End ReplayFacts.

(* ------------------------------------------------------------------ *)
(** * The command-line client *)

Module IntegrationFacts.

Import ReplayFacts.

Section Net.

Variable net : network.

Local Abbreviation submit := (Integration.push_customer net).

(** The client looks at the requests made so far and at nothing else of
    the world, and makes exactly one request. *)
Lemma cli_push_customer_frame (c : dict) (w : world) :
  fst (submit c w) = fst (submit c (mk_world (calls w) []))
  /\ calls (snd (submit c w)) = calls w ++ [integration_request c].
Proof. unfold Integration.push_customer. run; auto. Qed.

Lemma push_customer_well_formed (c : dict) (w : world) (v : jval) :
  fst (submit c w) = Ok v -> well_formed v = true.
Proof.
  unfold Integration.push_customer, well_formed. run.
  all: cbn; intros E; inversion E; subst; cbn;
    repeat match goal with H : members_get _ _ = _ |- _ => rewrite H end;
    reflexivity.
Qed.

Lemma cli_body_step (total i : Z) (c : dict) (created : list jval) (w : world) :
  fst (Integration.push_batch_body net total i c created w)
  = match fst (submit c (mk_world (calls w) [])) with
    | Ok v => Ok (created ++ [v])
    | Raise e => if is_RuntimeError e then Ok created else Raise e
    end
  /\ calls (snd (Integration.push_batch_body net total i c created w))
     = calls w ++ [integration_request c].
Proof.
  unfold Integration.push_batch_body, Integration.push_customer.
  run; auto.
Qed.

Lemma loop_spec (total : Z) (cs : list dict) :
  forall (i : Z) (created : list jval) (w : world),
    let r := for_enumerate (Integration.push_batch_body net total)
               i cs created w in
    (forallb settled (outcomes submit (calls w) cs) = true ->
     fst r = Ok (created ++ created_records submit (calls w) cs)
     /\ calls (snd r) = calls w ++ map integration_request cs)
    /\ match fst r with
       | Ok l => l = created ++ created_records submit (calls w) cs
       | Raise e => is_RuntimeError e = false
       end.
Proof.
  induction cs as [|c cs IH]; intros i created w; cbn zeta.
  - cbn. unfold created_records; cbn. rewrite !app_nil_r. auto.
  - rewrite for_enumerate_cons, outcomes_cons, created_records_cons.
    destruct (cli_body_step total i c created w) as [Ef Ec].
    destruct (cli_push_customer_frame c (mk_world (calls w) [])) as [_ Eh].
    cbn [calls] in Eh. rewrite Eh.
    change (map integration_request (c :: cs))
      with ([integration_request c] ++ map integration_request cs).
    rewrite !app_assoc.
    destruct (Integration.push_batch_body net total i c created w)
      as [o w1] eqn:Eb.
    cbn [fst snd] in Ef, Ec. rewrite <- Ec.
    cbn [forallb].
    destruct (fst (submit c (mk_world (calls w) []))) as [v|e] eqn:Eo.
    + subst o. specialize (IH (i + 1) (created ++ [v]) w1). cbn zeta in IH.
      destruct IH as [IH1 IH2]. split; [|exact IH2].
      intros H. apply andb_true_iff in H. destruct H as [_ H]. auto.
    + cbn [settled]. destruct (is_RuntimeError e) eqn:Er; subst o.
      * specialize (IH (i + 1) created w1). cbn zeta in IH.
        rewrite app_nil_r.
        destruct IH as [IH1 IH2]. split; [|exact IH2].
        intros H. apply andb_true_iff in H. destruct H as [_ H]. auto.
      * cbn [fst snd andb]. split; [discriminate | exact Er].
Qed.
End Net.

End IntegrationFacts.

(* ------------------------------------------------------------------ *)
(** * Loops that count their successes *)

Module CountingLoop.

Import ReplayFacts.

Lemma well_formed_has_id (v : jval) : well_formed v = true -> has_id v = true.
Proof.
  destruct v as [| | | | |m]; try discriminate.
  unfold well_formed, has_id.
  destruct (members_get m (lit "id")); [reflexivity | discriminate].
Qed.

Lemma settled_has_id (os : list (result jval)) :
  forallb settled os = true -> forallb (settled_by has_id) os = true.
Proof.
  rewrite !forallb_forall. intros H o Ho. specialize (H o Ho).
  destruct o as [v|e]; [now apply well_formed_has_id | exact H].
Qed.

Lemma firstn_snoc {A} (xs : list A) :
  forall (k : nat) (x : A),
    nth_error xs k = Some x -> firstn (S k) xs = firstn k xs ++ [x].
Proof.
  induction xs as [|y xs IH]; intros [|k] x H; cbn in *; try discriminate.
  - now inversion H.
  - now rewrite (IH k x H).
Qed.

Section Loop.

(** A loop that submits each record once and counts the successes;
    [good] is what its body needs of a created record. *)
Variables (S X : Type).
Variable submit : dict -> M jval.
Variable request_of : dict -> request.
Variable body : Z -> dict -> S -> M S.
Variable count : S -> Z.
Variable pre : dict -> Prop.
Variable good : jval -> bool.
Variable obs : world -> list X.
Variable line : result jval -> X.

Hypothesis submit_calls :
  forall c hist,
    calls (snd (submit c (mk_world hist []))) = hist ++ [request_of c].

Hypothesis body_step :
  forall i c s w,
    pre c ->
    calls (snd (body i c s w)) = calls w ++ [request_of c]
    /\ (settled_by good (fst (submit c (mk_world (calls w) []))) = true ->
        obs (snd (body i c s w))
        = obs w ++ [line (fst (submit c (mk_world (calls w) [])))])
    /\ match fst (submit c (mk_world (calls w) [])), fst (body i c s w) with
       | Ok v, Ok s' => good v = true /\ count s' = count s + 1
       | Ok v, Raise e' => good v = false /\ is_RuntimeError e' = false
       | Raise e, Ok s' => is_RuntimeError e = true /\ count s' = count s
       | Raise e, Raise e' => is_RuntimeError e = false /\ e' = e
       end.

Lemma outcomes_app (xs ys : list dict) :
  forall hist,
    outcomes submit hist (xs ++ ys)
    = outcomes submit hist xs
      ++ outcomes submit (hist ++ map request_of xs) ys.
Proof.
  induction xs as [|x xs IH]; intros hist.
  - cbn. now rewrite app_nil_r.
  - cbn [app]. rewrite !outcomes_cons, submit_calls, IH.
    cbn [map app]. now rewrite <- app_assoc.
Qed.

(** One more record: one more created record if its submission returns,
    none otherwise. *)
Lemma created_count_snoc (xs : list dict) (c : dict) (hist : list request) :
  created_count submit hist (xs ++ [c])
  = created_count submit hist xs
    + (if is_Ok (fst (submit c (mk_world (hist ++ map request_of xs) [])))
       then 1 else 0).
Proof.
  unfold created_count, created_records.
  rewrite outcomes_app, flat_map_app, len_app, outcomes_cons.
  cbn [outcomes flat_map]. rewrite app_nil_r.
  destruct (fst (submit c _)); reflexivity.
Qed.

Lemma loop_counts (cs : list dict) :
  Forall pre cs ->
  forall (i : Z) (s : S) (w : world),
    let r := for_enumerate body i cs s w in
    (forallb (settled_by good) (outcomes submit (calls w) cs) = true ->
     (exists s', fst r = Ok s'
                 /\ count s' = count s + created_count submit (calls w) cs)
     /\ calls (snd r) = calls w ++ map request_of cs
     /\ obs (snd r) = obs w ++ map line (outcomes submit (calls w) cs))
    /\ match fst r with
       | Ok s' =>
           forallb (settled_by good) (outcomes submit (calls w) cs) = true
           /\ count s' = count s + created_count submit (calls w) cs
       | Raise e =>
           forallb (settled_by good) (outcomes submit (calls w) cs) = false
           /\ is_RuntimeError e = false
       end.
Proof.
  induction 1 as [|c cs Hc Hcs IH]; intros i s w; cbn zeta.
  - cbn. unfold created_count, created_records, len; cbn.
    rewrite !app_nil_r, Z.add_0_r. split; [intros _|split; reflexivity].
    split; [exists s; split; [reflexivity | lia] | split; reflexivity].
  - rewrite for_enumerate_cons, outcomes_cons, created_count_cons.
    rewrite submit_calls. cbn [calls].
    destruct (body_step i c s w Hc) as (Ec & Eo & Ef).
    change (map request_of (c :: cs))
      with ([request_of c] ++ map request_of cs).
    rewrite app_assoc. cbn [map forallb].
    destruct (body i c s w) as [o w1].
    cbn [fst snd] in Ec, Eo, Ef. rewrite <- Ec.
    destruct (fst (submit c (mk_world (calls w) []))) as [v|e];
      destruct o as [s1|e1]; cbn [is_Ok settled_by fst snd] in *.
    + destruct Ef as [Hv Hs1]. rewrite Hv. cbn [andb].
      destruct (IH (i + 1) s1 w1) as [IH1 IH2]. cbn zeta in IH1, IH2.
      split.
      * intros H.
        destruct (IH1 H) as ((s' & E1 & E2) & E3 & E4).
        rewrite (Eo Hv) in E4. rewrite <- app_assoc in E4.
        repeat split; [exists s'; split; [exact E1 | lia] | exact E3 | exact E4].
      * destruct (fst (for_enumerate body (i + 1) cs s1 w1));
          [destruct IH2; split; [assumption | lia] | exact IH2].
    + destruct Ef as [Hv He]. rewrite Hv. cbn [andb].
      split; [discriminate | split; [reflexivity | exact He]].
    + destruct Ef as [He Hs1]. rewrite He. cbn [andb].
      destruct (IH (i + 1) s1 w1) as [IH1 IH2]. cbn zeta in IH1, IH2.
      split.
      * intros H.
        destruct (IH1 H) as ((s' & E1 & E2) & E3 & E4).
        rewrite (Eo He) in E4. rewrite <- app_assoc in E4.
        repeat split; [exists s'; split; [exact E1 | lia] | exact E3 | exact E4].
      * destruct (fst (for_enumerate body (i + 1) cs s1 w1));
          [destruct IH2; split; [assumption | lia] | exact IH2].
    + destruct Ef as [He ->]. rewrite He. cbn [andb].
      split; [discriminate | split; reflexivity].
Qed.

(** A loop that gets through its records has made one request for each,
    in their order. *)
Lemma loop_calls (cs : list dict) (i : Z) (s : S) (w : world) :
  Forall pre cs ->
  is_Ok (fst (for_enumerate body i cs s w)) = true ->
  calls (snd (for_enumerate body i cs s w)) = calls w ++ map request_of cs.
Proof.
  intros Hp Ho. destruct (loop_counts cs Hp i s w) as [L1 L2].
  cbn zeta in L1, L2.
  destruct (fst (for_enumerate body i cs s w)) as [s'|e]; [|discriminate].
  destruct L2 as [Hs _]. now destruct (L1 Hs) as (_ & Ec & _).
Qed.

(** The counter of a loop that starts from zero. *)
Lemma loop_counter (cs : list dict) (i : Z) (s : S) (w : world) :
  Forall pre cs ->
  count s = 0 ->
  counter_ok submit good (calls w) cs
    (result_map count (fst (for_enumerate body i cs s w))).
Proof.
  intros Hp H0. destruct (loop_counts cs Hp i s w) as [_ L]. cbn zeta in L.
  destruct (fst (for_enumerate body i cs s w)) as [s'|e]; cbn; [|exact L].
  destruct L as [L1 L2]. split; [exact L1|]. split; [lia|].
  pose proof (created_count_bounds submit cs (calls w)). lia.
Qed.

(** One more record. *)
Lemma loop_step (xs : list dict) (c : dict) (i : Z) (s : S) (w : world) :
  Forall pre (xs ++ [c]) ->
  counter_step good
    (fst (submit c (mk_world (calls w ++ map request_of xs) [])))
    (result_map count (fst (for_enumerate body i xs s w)))
    (result_map count (fst (for_enumerate body i (xs ++ [c]) s w))).
Proof.
  intros Hp. apply Forall_app in Hp. destruct Hp as [Hp1 Hp2].
  inversion Hp2 as [|? ? Hc _]; subst.
  rewrite for_enumerate_app.
  destruct (loop_counts xs Hp1 i s w) as [L1 L2]. cbn zeta in L1, L2.
  destruct (for_enumerate body i xs s w) as [[s1|e] w1];
    cbn [fst snd result_map] in *; [|reflexivity].
  destruct L2 as [Hs _]. destruct (L1 Hs) as (_ & Ec & _).
  rewrite for_enumerate_cons.
  destruct (body_step (i + len xs) c s1 w1 Hc) as (_ & _ & Ef).
  rewrite Ec in Ef.
  destruct (body (i + len xs) c s1 w1) as [[s2|e2] w2];
    cbn [fst snd result_map for_enumerate ret counter_step] in *;
    destruct (fst (submit c _)) as [v|e]; cbn [settled_by is_Ok];
    destruct Ef as [E1 E2]; split; try assumption; try lia;
    subst; assumption.
Qed.

(** The loop is left at the first record whose submission raises
    something else than a [RuntimeError]: the records after it are not
    submitted. *)
Lemma loop_aborts (cs1 : list dict) (c : dict) (cs2 : list dict)
  (i : Z) (s : S) (w : world) (e : exn) :
  Forall pre (cs1 ++ [c]) ->
  forallb (settled_by good) (outcomes submit (calls w) cs1) = true ->
  fst (submit c (mk_world (calls w ++ map request_of cs1) [])) = Raise e ->
  is_RuntimeError e = false ->
  let r := for_enumerate body i (cs1 ++ c :: cs2) s w in
  fst r = Raise e
  /\ calls (snd r) = calls w ++ map request_of (cs1 ++ [c]).
Proof.
  intros Hp Hs He Hr. cbn zeta.
  apply Forall_app in Hp. destruct Hp as [Hp1 Hp2].
  rewrite for_enumerate_app.
  destruct (loop_counts cs1 Hp1 i s w) as [L _]. cbn zeta in L.
  destruct (L Hs) as ((s1 & E1 & _) & E2 & _).
  destruct (for_enumerate body i cs1 s w) as [o w1].
  cbn [fst snd] in E1, E2. subst o.
  rewrite for_enumerate_cons.
  inversion Hp2 as [|? ? Hc _]; subst.
  destruct (body_step (i + len cs1) c s1 w1 Hc) as (Ec & _ & Ef).
  rewrite E2, He in Ef.
  destruct (body (i + len cs1) c s1 w1) as [[s2|e2] w2];
    cbn [fst snd] in *.
  - destruct Ef as [Ef _]. congruence.
  - destruct Ef as [_ ->]. split; [reflexivity|].
    rewrite Ec, E2, map_app. cbn [map]. now rewrite app_assoc.
Qed.

End Loop.

End CountingLoop.

(* ------------------------------------------------------------------ *)
(** * The Tk and Streamlit clients *)

Module UIFacts.

Import ReplayFacts.

Lemma result_tags_app (a b : list event) :
  result_tags (a ++ b) = result_tags a ++ result_tags b.
Proof. unfold result_tags. apply flat_map_app. Qed.

Section Net.

Variable net : network.
Variables base_url api_key : str.

Local Abbreviation submit :=
  (fun c => UI.push_customer net c base_url api_key).

Lemma tk_push_customer_frame (c : dict) (w : world) :
  fst (submit c w) = fst (submit c (mk_world (calls w) []))
  /\ calls (snd (submit c w)) = calls w ++ [ui_request base_url api_key c].
Proof. unfold UI.push_customer. run; auto. Qed.

Lemma tk_body_step (total i : Z) (c : dict) (ok : Z) (w : world) :
  calls (snd (UI.push_batch_body net base_url api_key total i c ok w))
  = calls w ++ [ui_request base_url api_key c]
  /\ (settled (fst (submit c (mk_world (calls w) []))) = true ->
      result_tags
        (shown (snd (UI.push_batch_body net base_url api_key total i c ok w)))
      = result_tags (shown w)
        ++ [tag_of (fst (submit c (mk_world (calls w) [])))])
  /\ match fst (submit c (mk_world (calls w) [])),
           fst (UI.push_batch_body net base_url api_key total i c ok w) with
     | Ok v, Ok ok' => well_formed v = true /\ ok' = ok + 1
     | Ok v, Raise e' => well_formed v = false /\ is_RuntimeError e' = false
     | Raise e, Ok ok' => is_RuntimeError e = true /\ ok' = ok
     | Raise e, Raise e' => is_RuntimeError e = false /\ e' = e
     end.
Proof.
  unfold UI.push_batch_body, UI.push_customer, well_formed.
  run; rewrite ?result_tags_app; cbn; rewrite ?app_nil_r;
    repeat split; intros; try discriminate; try reflexivity.
Qed.

Lemma tk_loop_counts (total : Z) (cs : list dict) (i ok : Z) (w : world) :
  let r := for_enumerate (UI.push_batch_body net base_url api_key total)
             i cs ok w in
  (forallb settled (outcomes submit (calls w) cs) = true ->
   (exists ok', fst r = Ok ok'
                /\ ok' = ok + created_count submit (calls w) cs)
   /\ calls (snd r) = calls w ++ map (ui_request base_url api_key) cs
   /\ result_tags (shown (snd r))
      = result_tags (shown w) ++ map tag_of (outcomes submit (calls w) cs))
  /\ match fst r with
     | Ok ok' =>
         forallb settled (outcomes submit (calls w) cs) = true
         /\ ok' = ok + created_count submit (calls w) cs
     | Raise e =>
         forallb settled (outcomes submit (calls w) cs) = false
         /\ is_RuntimeError e = false
     end.
Proof.
  apply (CountingLoop.loop_counts Z str submit (ui_request base_url api_key)
           (UI.push_batch_body net base_url api_key total)
           (fun ok => ok) (fun _ => True) well_formed
           (fun w => result_tags (shown w)) tag_of).
  - intros c hist. apply (tk_push_customer_frame c (mk_world hist [])).
  - intros i0 c ok0 w0 _. apply tk_body_step.
  - apply Forall_forall. trivial.
Qed.

(** A batch in which every submission settles runs to its end. *)
Lemma push_batch_settled (cs : list dict) (w : world) :
  forallb settled (outcomes submit (calls w) cs) = true ->
  let r := UI.push_batch net cs base_url api_key w in
  fst r = Ok tt
  /\ calls (snd r) = calls w ++ map (ui_request base_url api_key) cs
  /\ result_tags (shown (snd r))
     = result_tags (shown w) ++ map tag_of (outcomes submit (calls w) cs)
  /\ last (shown (snd r)) ProgressEmpty
     = DoneCb (created_count submit (calls w) cs) (len cs).
Proof.
  intros H. cbn zeta. unfold UI.push_batch, bind.
  destruct (tk_loop_counts (len cs) cs 1 0 w) as [L _]. cbn zeta in L.
  destruct (L H) as ((ok & E1 & E2) & E3 & E4).
  destruct (for_enumerate _ 1 cs 0 w) as [o w1].
  cbn [fst snd] in *. subst o. cbn.
  rewrite result_tags_app, app_nil_r, last_last, E2.
  auto.
Qed.

End Net.

End UIFacts.

Module StreamlitFacts.

Import ReplayFacts.

Lemma normalise_named (rows : list dict) :
  Forall named (Streamlit.normalise rows).
Proof.
  apply Forall_forall. intros c Hc.
  apply in_map_iff in Hc. destruct Hc as (row & <- & _).
  split; discriminate.
Qed.

Section Net.

Variable net : network.
Variables base_url api_key : str.

Local Abbreviation submit := (Streamlit.push_customer net base_url api_key).

Lemma st_push_customer_frame (c : dict) (w : world) :
  fst (submit c w) = fst (submit c (mk_world (calls w) []))
  /\ calls (snd (submit c w))
     = calls w ++ [streamlit_request base_url api_key c].
Proof. unfold Streamlit.push_customer. run; auto. Qed.

Lemma st_body_step (total i : Z) (c : dict) (s : list fmt * Z) (w : world) :
  named c ->
  calls (snd (Streamlit.push_all_body net base_url api_key total i c s w))
  = calls w ++ [streamlit_request base_url api_key c]
  /\ (settled_by has_id (fst (submit c (mk_world (calls w) []))) = true ->
      ticks (snd (Streamlit.push_all_body net base_url api_key total i c s w))
      = ticks w ++ [tt])
  /\ match fst (submit c (mk_world (calls w) [])),
           fst (Streamlit.push_all_body net base_url api_key total i c s w)
     with
     | Ok v, Ok s' => has_id v = true /\ snd s' = snd s + 1
     | Ok v, Raise e' => has_id v = false /\ is_RuntimeError e' = false
     | Raise e, Ok s' => is_RuntimeError e = true /\ snd s' = snd s
     | Raise e, Raise e' => is_RuntimeError e = false /\ e' = e
     end.
Proof.
  intros [H1 H2]. destruct s as [log_lines ok_count].
  unfold Streamlit.push_all_body, Streamlit.push_customer, has_id, ticks.
  run; rewrite ?flat_map_app; cbn; rewrite ?app_nil_r;
    repeat split; intros; try discriminate; try reflexivity.
Qed.

Lemma st_loop_counts (total : Z) (data : list dict) (i : Z)
  (s : list fmt * Z) (w : world) :
  Forall named data ->
  let r := for_enumerate (Streamlit.push_all_body net base_url api_key total)
             i data s w in
  (forallb (settled_by has_id) (outcomes submit (calls w) data) = true ->
   (exists s', fst r = Ok s'
               /\ snd s' = snd s + created_count submit (calls w) data)
   /\ calls (snd r)
      = calls w ++ map (streamlit_request base_url api_key) data
   /\ ticks (snd r)
      = ticks w ++ map (fun _ => tt) (outcomes submit (calls w) data))
  /\ match fst r with
     | Ok s' =>
         forallb (settled_by has_id) (outcomes submit (calls w) data) = true
         /\ snd s' = snd s + created_count submit (calls w) data
     | Raise e =>
         forallb (settled_by has_id) (outcomes submit (calls w) data) = false
         /\ is_RuntimeError e = false
     end.
Proof.
  intros Hd.
  apply (CountingLoop.loop_counts (list fmt * Z) unit submit
           (streamlit_request base_url api_key)
           (Streamlit.push_all_body net base_url api_key total)
           snd named has_id ticks (fun _ => tt)).
  - intros c hist. apply (st_push_customer_frame c (mk_world hist [])).
  - intros i0 c s0 w0 Hc. now apply st_body_step.
  - exact Hd.
Qed.

End Net.

End StreamlitFacts.

(* ------------------------------------------------------------------ *)
(** * The submission client *)

Module SubmissionClient.

Import Samples.

Section Net.

Variable net : network.
Variables base_url api_key : str.

Lemma integration_raw_failure (c : dict) (w : world) (e : exn) :
  raw_failure (net (calls w) (integration_request c)) = Some e ->
  fst (Integration.push_customer net c w) = Raise e
  /\ is_RuntimeError e = false
  /\ calls (snd (Integration.push_customer net c w))
     = calls w ++ [integration_request c].
Proof.
  intros H. unfold Integration.push_customer, bind, post.
  change {| url := Integration.BASE_URL ++ lit "/api/customers";
            json := c; headers := Integration.HEADERS; timeout := 10 |}
    with (integration_request c).
  destruct (net (calls w) (integration_request c)) as [r|cls msg];
    cbn in H |- *.
  - destruct (status_code r =? 201); [|discriminate].
    unfold response_json. destruct (body_json r); inversion H; subst.
    cbn. auto.
  - inversion H; subst. auto.
Qed.

Lemma ui_raw_failure (c : dict) (w : world) (e : exn) :
  raw_failure (net (calls w) (ui_request base_url api_key c)) = Some e ->
  fst (UI.push_customer net c base_url api_key w) = Raise e
  /\ is_RuntimeError e = false
  /\ calls (snd (UI.push_customer net c base_url api_key w))
     = calls w ++ [ui_request base_url api_key c].
Proof.
  intros H. unfold UI.push_customer, bind, post. cbv zeta.
  change {| url := base_url ++ lit "/api/customers";
            json := c;
            headers := [(lit "Content-Type", lit "application/json");
                        (lit "X-API-Key", api_key)];
            timeout := 10 |}
    with (ui_request base_url api_key c).
  destruct (net (calls w) (ui_request base_url api_key c)) as [r|cls msg];
    cbn in H |- *.
  - destruct (status_code r =? 201); [|discriminate].
    unfold response_json. destruct (body_json r); inversion H; subst.
    cbn. auto.
  - inversion H; subst. auto.
Qed.

Lemma integration_rejection (c : dict) (w : world) (r : response) :
  status_code r <> 201 ->
  net (calls w) (integration_request c) = Responded r ->
  Integration.push_customer net c w
  = (Raise (RuntimeError (lit "Failed to push customer: " ++ text r)),
     mk_world (calls w ++ [integration_request c])
       (shown w ++ [Print [Lit "[FAIL] HTTP "; FInt (status_code r);
                           Lit ": "; FStr (text r)]])).
Proof.
  intros Hs Hn. apply Z.eqb_neq in Hs.
  unfold Integration.push_customer, bind, post.
  change {| url := Integration.BASE_URL ++ lit "/api/customers";
            json := c; headers := Integration.HEADERS; timeout := 10 |}
    with (integration_request c).
  rewrite Hn, Hs. reflexivity.
Qed.

Lemma ui_rejection (c : dict) (w : world) (r : response) :
  status_code r <> 201 ->
  net (calls w) (ui_request base_url api_key c) = Responded r ->
  UI.push_customer net c base_url api_key w
  = (Raise (RuntimeError (lit "HTTP " ++ of_int (status_code r)
                          ++ lit ": " ++ text r)),
     mk_world (calls w ++ [ui_request base_url api_key c]) (shown w)).
Proof.
  intros Hs Hn. apply Z.eqb_neq in Hs.
  unfold UI.push_customer, bind, post. cbv zeta.
  change {| url := base_url ++ lit "/api/customers";
            json := c;
            headers := [(lit "Content-Type", lit "application/json");
                        (lit "X-API-Key", api_key)];
            timeout := 10 |}
    with (ui_request base_url api_key c).
  rewrite Hn, Hs. reflexivity.
Qed.

Lemma streamlit_raw_failure (c : dict) (w : world) (e : exn) :
  raw_failure (net (calls w) (streamlit_request base_url api_key c)) = Some e ->
  fst (Streamlit.push_customer net base_url api_key c w) = Raise e
  /\ is_RuntimeError e = false
  /\ calls (snd (Streamlit.push_customer net base_url api_key c w))
     = calls w ++ [streamlit_request base_url api_key c].
Proof.
  intros H. unfold Streamlit.push_customer, bind, post.
  change {| url := rstrip_chars (lit "/") base_url ++ lit "/api/customers";
            json := c;
            headers := Streamlit.HEADERS api_key;
            timeout := 10 |}
    with (streamlit_request base_url api_key c).
  destruct (net (calls w) (streamlit_request base_url api_key c))
    as [r|cls msg]; cbn in H |- *.
  - destruct (status_code r =? 201); [|discriminate].
    unfold response_json. destruct (body_json r); inversion H; subst.
    cbn. auto.
  - inversion H; subst. auto.
Qed.

Lemma streamlit_rejection (c : dict) (w : world) (r : response) :
  status_code r <> 201 ->
  net (calls w) (streamlit_request base_url api_key c) = Responded r ->
  Streamlit.push_customer net base_url api_key c w
  = (Raise (RuntimeError (lit "HTTP " ++ of_int (status_code r)
                          ++ lit ": " ++ text r)),
     mk_world (calls w ++ [streamlit_request base_url api_key c]) (shown w)).
Proof.
  intros Hs Hn. apply Z.eqb_neq in Hs.
  unfold Streamlit.push_customer, bind, post.
  change {| url := rstrip_chars (lit "/") base_url ++ lit "/api/customers";
            json := c;
            headers := Streamlit.HEADERS api_key;
            timeout := 10 |}
    with (streamlit_request base_url api_key c).
  rewrite Hn, Hs. reflexivity.
Qed.

End Net.

(** X20.  When the HTTP call fails at the transport level, or a 201
    response carries a body that is not JSON, each of the three
    [push_customer] is left by the exception of the library as it is, after
    its one request; that exception is not a [RuntimeError], so the
    [except RuntimeError] of the batch loops does not catch it. *)
Theorem push_customer_passes_failures_through
  (net : network) (base_url api_key : str) (c : dict) (w : world) (e : exn) :
  (raw_failure (net (calls w) (integration_request c)) = Some e ->
   fst (Integration.push_customer net c w) = Raise e
   /\ is_RuntimeError e = false
   /\ calls (snd (Integration.push_customer net c w))
      = calls w ++ [integration_request c])
  /\ (raw_failure (net (calls w) (ui_request base_url api_key c)) = Some e ->
      fst (UI.push_customer net c base_url api_key w) = Raise e
      /\ is_RuntimeError e = false
      /\ calls (snd (UI.push_customer net c base_url api_key w))
         = calls w ++ [ui_request base_url api_key c])
  /\ (raw_failure (net (calls w) (streamlit_request base_url api_key c))
      = Some e ->
      fst (Streamlit.push_customer net base_url api_key c w) = Raise e
      /\ is_RuntimeError e = false
      /\ calls (snd (Streamlit.push_customer net base_url api_key c w))
         = calls w ++ [streamlit_request base_url api_key c]).
Proof.
  split; [apply integration_raw_failure|].
  split; [apply ui_raw_failure | apply streamlit_raw_failure].
Qed.

Lemma push_customer_passes_failures_through_witness :
  (fst (Integration.push_customer garbled alice fresh)
   = Raise (JSONDecodeError (lit "Expecting value: line 1 column 1 (char 0)"))
   /\ calls (snd (Integration.push_customer garbled alice fresh))
      = [integration_request alice])
  /\ (fst (UI.push_customer flaky alice endpoint secret fresh)
      = Raise (RequestException ConnectionError (lit "Connection refused"))
      /\ calls (snd (UI.push_customer flaky alice endpoint secret fresh))
         = [ui_request endpoint secret alice])
  /\ (fst (Streamlit.push_customer flaky endpoint secret alice fresh)
      = Raise (RequestException ConnectionError (lit "Connection refused"))
      /\ calls (snd (Streamlit.push_customer flaky endpoint secret alice
                      fresh))
         = [streamlit_request endpoint secret alice]).
Proof.
  destruct (push_customer_passes_failures_through garbled endpoint secret
              alice fresh
              (JSONDecodeError
                 (lit "Expecting value: line 1 column 1 (char 0)")))
    as (HI & _ & _).
  destruct (push_customer_passes_failures_through flaky endpoint secret alice
              fresh
              (RequestException ConnectionError (lit "Connection refused")))
    as (_ & HU & HS).
  destruct (HI eq_refl) as (I1 & _ & I2).
  destruct (HU eq_refl) as (U1 & _ & U2).
  destruct (HS eq_refl) as (S1 & _ & S2).
  repeat split; assumption.
Defined.

(** C4, at the failing input.  The connection is refused: [push_customer]
    produces no outcome.  The [ConnectionError] of the library leaves it, in
    the command-line client (whose docstring says "Raises RuntimeError on
    failure") and in the Tk client, and it is not a [RuntimeError], the
    class raised for a rejection.  A 201 whose body is not JSON leaves both
    as [JSONDecodeError].  A 201 whose body is JSON but no record leaves
    the command-line client as [TypeError] and is returned by the Tk client
    as if it were the created record. *)
Theorem transport_failure_is_raised :
  fst (Integration.push_customer flaky alice fresh)
  = Raise (RequestException ConnectionError (lit "Connection refused"))
  /\ fst (UI.push_customer flaky alice endpoint secret fresh)
     = Raise (RequestException ConnectionError (lit "Connection refused"))
  /\ is_RuntimeError
       (RequestException ConnectionError (lit "Connection refused")) = false
  /\ fst (Integration.push_customer garbled alice fresh)
     = Raise (JSONDecodeError
                (lit "Expecting value: line 1 column 1 (char 0)"))
  /\ fst (UI.push_customer garbled alice endpoint secret fresh)
     = Raise (JSONDecodeError
                (lit "Expecting value: line 1 column 1 (char 0)"))
  /\ fst (Integration.push_customer
            (always (mk_response 201 (lit "[]") (inr (JArr [])))) alice fresh)
     = Raise (TypeError
                (lit "list indices must be integers or slices, not str"))
  /\ fst (UI.push_customer
            (always (mk_response 201 (lit "[]") (inr (JArr [])))) alice
            endpoint secret fresh)
     = Ok (JArr [])
  /\ fst (Integration.push_customer (always (rejection 422 "zip invalid"))
            alice fresh)
     = Raise (RuntimeError (lit "Failed to push customer: zip invalid")).
Proof. repeat split. Qed.

(** C5, as the code has it.  A response whose status is not 201 makes
    [push_customer] raise a [RuntimeError] whose message ends with the body
    text as received: "HTTP <status>: <body>" in the Tk client and in the
    Streamlit client, "Failed to push customer: <body>" in the command-line
    client, which shows the status on its console only. *)
Theorem push_customer_rejects_other_statuses
  (net : network) (base_url api_key : str) (c : dict) (w : world)
  (r : response) :
  status_code r <> 201 ->
  (net (calls w) (integration_request c) = Responded r ->
   Integration.push_customer net c w
   = (Raise (RuntimeError (lit "Failed to push customer: " ++ text r)),
      mk_world (calls w ++ [integration_request c])
        (shown w ++ [Print [Lit "[FAIL] HTTP "; FInt (status_code r);
                            Lit ": "; FStr (text r)]])))
  /\ (net (calls w) (ui_request base_url api_key c) = Responded r ->
      UI.push_customer net c base_url api_key w
      = (Raise (RuntimeError (lit "HTTP " ++ of_int (status_code r)
                              ++ lit ": " ++ text r)),
         mk_world (calls w ++ [ui_request base_url api_key c]) (shown w)))
  /\ (net (calls w) (streamlit_request base_url api_key c) = Responded r ->
      Streamlit.push_customer net base_url api_key c w
      = (Raise (RuntimeError (lit "HTTP " ++ of_int (status_code r)
                              ++ lit ": " ++ text r)),
         mk_world (calls w ++ [streamlit_request base_url api_key c])
           (shown w))).
Proof.
  intros Hs. split; [|split]; intros Hn.
  - now apply integration_rejection.
  - now apply ui_rejection.
  - now apply streamlit_rejection.
Qed.

Lemma push_customer_rejects_other_statuses_witness :
  Integration.push_customer (always (rejection 422 "zip invalid")) alice fresh
  = (Raise (RuntimeError (lit "Failed to push customer: zip invalid")),
     mk_world [integration_request alice]
       [Print [Lit "[FAIL] HTTP "; FInt 422; Lit ": ";
               FStr (lit "zip invalid")]])
  /\ UI.push_customer (always (rejection 422 "zip invalid")) alice endpoint secret
       fresh
     = (Raise (RuntimeError (lit "HTTP 422: zip invalid")),
        mk_world [ui_request endpoint secret alice] [])
  /\ Streamlit.push_customer (always (rejection 422 "zip invalid")) endpoint
       secret alice fresh
     = (Raise (RuntimeError (lit "HTTP 422: zip invalid")),
        mk_world [streamlit_request endpoint secret alice] []).
Proof.
  destruct (push_customer_rejects_other_statuses
              (always (rejection 422 "zip invalid")) endpoint secret alice fresh
              (rejection 422 "zip invalid")) as (HI & HU & HS).
  - discriminate.
  - split; [apply HI | split; [apply HU | apply HS]]; reflexivity.
Defined.

(** C5 fails as stated: what the command-line client raises does not
    carry the status code (a 422 and a 500 with the same body raise the same
    exception), and the message of the Tk client is not the body text
    alone. *)
Lemma rejection_does_not_carry_status :
  fst (Integration.push_customer (always (rejection 422 "zip invalid"))
         alice fresh)
  = fst (Integration.push_customer (always (rejection 500 "zip invalid"))
           alice fresh)
  /\ fst (UI.push_customer (always (rejection 422 "zip invalid")) alice
            endpoint secret fresh)
     = Raise (RuntimeError (lit "HTTP 422: zip invalid"))
  /\ lit "HTTP 422: zip invalid" <> lit "zip invalid".
Proof. repeat split. discriminate. Qed.

End SubmissionClient.

(* ------------------------------------------------------------------ *)
(** * The validator of the single-record form *)

Module Validator.

Import StrFacts Validation Samples.

(** C6, as the code has it.  When at least one of the nine fields is empty
    once trimmed, both handlers list exactly the empty fields, in the
    canonical order, show that list and make no request: the Streamlit
    handler lists them by name, the Tk handler by form label.  A form with
    every field empty gets all nine. *)
Theorem invalid_form_lists_empty_fields
  (net : network) (base_url api_key var_url var_key : str)
  (f : form) (w : world) :
  empty_fields f <> [] ->
  Streamlit.missing (Streamlit.customer f) = empty_fields f
  /\ Streamlit.submit_record net base_url api_key f w
     = (Ok tt,
        mk_world (calls w)
          (shown w ++ [St "error" [Lit "Please fill in: ";
                                   FStr (join (lit ", ") (empty_fields f))]]))
  /\ UI.missing (UI.customer (UI.entry_vars f))
     = map label_of (empty_fields f)
  /\ UI._submit_single net f var_url var_key w
     = (Ok tt,
        mk_world (calls w)
          (shown w ++ [MessageBox "showwarning" "Missing Fields"
                         [Lit "Please fill in:\n";
                          FStr (join [10%N]
                                  (map label_of (empty_fields f)))]]))
  /\ (Forall (fun '(k, v) => strip v = []) (typed f) ->
      empty_fields f = Streamlit.REQUIRED_COLS).
Proof.
  intros He. repeat split.
  - apply streamlit_missing_names.
  - now apply streamlit_invalid_run.
  - apply ui_missing_labels.
  - now apply ui_invalid_run.
  - intros Hall. unfold empty_fields.
    destruct f as [a b c d e g h i j]. unfold typed in *.
    cbn [first_name last_name road city state zip_code country phone dob]
      in *.
    repeat match goal with
           | H : Forall _ (_ :: _) |- _ =>
               let H1 := fresh in let H2 := fresh in
               inversion H as [|? ? H1 H2]; subst; clear H
           end.
    cbn [filter].
    repeat match goal with H : strip _ = [] |- _ => rewrite H; clear H end.
    reflexivity.
Qed.

Lemma invalid_form_lists_empty_fields_witness :
  empty_fields no_road = [lit "road"; lit "dob"]
  /\ Streamlit.submit_record service endpoint secret no_road fresh
     = (Ok tt, mk_world [] [St "error" [Lit "Please fill in: ";
                                        FStr (lit "road, dob")]])
  /\ UI.missing (UI.customer (UI.entry_vars no_road))
     = [lit "Road / Street *"; lit "Date of Birth (MM/DD/YYYY) *"]
  /\ empty_fields blank = Streamlit.REQUIRED_COLS.
Proof.
  assert (Hn : empty_fields no_road <> []) by discriminate.
  assert (Hb : empty_fields blank <> []) by discriminate.
  destruct (invalid_form_lists_empty_fields service endpoint secret
              endpoint secret no_road fresh Hn) as (_ & E2 & E3 & _ & _).
  destruct (invalid_form_lists_empty_fields service endpoint secret
              endpoint secret blank fresh Hb) as (_ & _ & _ & _ & E5).
  split; [reflexivity|]. split; [exact E2|]. split; [exact E3|].
  apply E5. repeat constructor.
Defined.

(** C6 fails as stated: the Tk handler lists form labels, not field
    names. *)
Lemma tk_lists_labels_not_names :
  empty_fields no_road = [lit "road"; lit "dob"]
  /\ UI.missing (UI.customer (UI.entry_vars no_road))
     = [lit "Road / Street *"; lit "Date of Birth (MM/DD/YYYY) *"]
  /\ UI.missing (UI.customer (UI.entry_vars no_road))
     <> empty_fields no_road.
Proof. repeat split. discriminate. Qed.

(** C7.  When every one of the nine fields is non-empty once trimmed, both
    handlers find nothing missing and submit, in one request, the record
    whose values are the typed ones with the whitespace at both ends
    removed. *)
Theorem valid_form_is_normalised
  (net : network) (base_url api_key var_url var_key : str)
  (f : form) (w : world) :
  empty_fields f = [] ->
  Streamlit.missing (Streamlit.customer f) = []
  /\ UI.missing (UI.customer (UI.entry_vars f)) = []
  /\ Streamlit.customer f = normalised f
  /\ UI.customer (UI.entry_vars f) = normalised f
  /\ map fst (normalised f) = Streamlit.REQUIRED_COLS
  /\ (forall k raw, In (k, raw) (typed f) ->
      exists v l r,
        In (k, v) (normalised f)
        /\ raw = l ++ v ++ r
        /\ forallb isspace l = true /\ forallb isspace r = true
        /\ trimmed v = true /\ v <> [])
  /\ calls (snd (Streamlit.submit_record net base_url api_key f w))
     = calls w ++ [streamlit_request base_url api_key (normalised f)]
  /\ calls (snd (UI._submit_single net f var_url var_key w))
     = calls w ++ [ui_request (rstrip_chars (lit "/") var_url)
                              (strip var_key) (normalised f)].
Proof.
  intros He. repeat split.
  - now rewrite streamlit_missing_names.
  - now rewrite ui_missing_labels, He.
  - intros k raw Hin.
    destruct (strip_split raw) as (l & r & E & Hl & Hr).
    exists (strip raw), l, r. repeat split; auto.
    + now apply normalised_values.
    + apply strip_trimmed.
    + now apply (valid_values_nonempty f k).
  - now apply streamlit_submit_calls.
  - now apply ui_submit_calls.
Qed.

Lemma valid_form_is_normalised_witness :
  empty_fields padded = []
  /\ normalised padded = alice
  /\ calls (snd (Streamlit.submit_record service endpoint secret
                   padded fresh))
     = [streamlit_request endpoint secret alice].
Proof.
  assert (He : empty_fields padded = []) by reflexivity.
  destruct (valid_form_is_normalised service endpoint secret endpoint secret
              padded fresh He) as (_ & _ & _ & _ & _ & _ & E & _).
  split; [exact He|]. split; [reflexivity|]. exact E.
Defined.

(** C8.  The verdict on a form depends on the form alone.  Run twice in a
    row, from any world and against any service, either handler shows the
    same list of missing fields both times and makes no request, or submits
    the same normalised record both times; and normalising a normalised
    record changes nothing. *)
Theorem validation_is_repeatable
  (net : network) (base_url api_key var_url var_key : str)
  (f : form) (w : world) :
  let twice_st :=
    (Streamlit.submit_record net base_url api_key f ;;
     Streamlit.submit_record net base_url api_key f) w in
  let twice_tk :=
    (UI._submit_single net f var_url var_key ;;
     UI._submit_single net f var_url var_key) w in
  let error_st :=
    St "error" [Lit "Please fill in: ";
                FStr (join (lit ", ") (empty_fields f))] in
  let warning_tk :=
    MessageBox "showwarning" "Missing Fields"
      [Lit "Please fill in:\n";
       FStr (join [10%N] (map label_of (empty_fields f)))] in
  let q_st := streamlit_request base_url api_key (normalised f) in
  let q_tk := ui_request (rstrip_chars (lit "/") var_url) (strip var_key)
                (normalised f) in
  UI.customer (normalised f) = normalised f
  /\ match empty_fields f with
     | [] =>
         fst twice_st = Ok tt
         /\ calls (snd twice_st) = calls w ++ [q_st; q_st]
         /\ fst twice_tk = Ok tt
         /\ calls (snd twice_tk) = calls w ++ [q_tk; q_tk]
     | _ :: _ =>
         twice_st
         = (Ok tt, mk_world (calls w) (shown w ++ [error_st; error_st]))
         /\ twice_tk
            = (Ok tt, mk_world (calls w) (shown w ++ [warning_tk; warning_tk]))
     end.
Proof.
  cbn zeta. split.
  - unfold UI.customer, normalised. rewrite map_map.
    apply map_ext. intros [k v]. now rewrite strip_idempotent.
  - destruct (empty_fields f) as [|m ms] eqn:He.
    + unfold bind.
      destruct (streamlit_submit_calls net base_url api_key f w He)
        as [E1 E2].
      destruct (Streamlit.submit_record net base_url api_key f w)
        as [o w1]. cbn [fst snd] in E1, E2. subst o.
      destruct (streamlit_submit_calls net base_url api_key f w1 He)
        as [E3 E4].
      destruct (ui_submit_calls net var_url var_key f w He) as [E5 E6].
      destruct (UI._submit_single net f var_url var_key w) as [o w2].
      cbn [fst snd] in E5, E6. subst o.
      destruct (ui_submit_calls net var_url var_key f w2 He) as [E7 E8].
      rewrite E3, E4, E2, E7, E8, E6, <- !app_assoc. auto.
    + assert (Hne : empty_fields f <> []) by (rewrite He; discriminate).
      unfold bind.
      rewrite (streamlit_invalid_run net base_url api_key f w Hne).
      rewrite (streamlit_invalid_run net base_url api_key f _ Hne).
      rewrite (ui_invalid_run net var_url var_key f w Hne).
      rewrite (ui_invalid_run net var_url var_key f _ Hne).
      cbn [calls shown]. rewrite He, <- !app_assoc. auto.
Qed.

End Validator.

(* ------------------------------------------------------------------ *)
(** * The batch loops *)

Module BatchRunner.

Import ReplayFacts Samples.

Section Net.

Variable net : network.
Variables base_url api_key : str.

Local Abbreviation submit_cli := (Integration.push_customer net).
Local Abbreviation submit_tk :=
  (fun c => UI.push_customer net c base_url api_key).
Local Abbreviation submit_st := (Streamlit.push_customer net base_url api_key).

Lemma cli_submit_calls (c : dict) (hist : list request) :
  calls (snd (submit_cli c (mk_world hist []))) = hist ++ [integration_request c].
Proof. apply (IntegrationFacts.cli_push_customer_frame net c (mk_world hist [])). Qed.

Lemma tk_submit_calls (c : dict) (hist : list request) :
  calls (snd (submit_tk c (mk_world hist [])))
  = hist ++ [ui_request base_url api_key c].
Proof.
  apply (UIFacts.tk_push_customer_frame net base_url api_key c (mk_world hist [])).
Qed.

Lemma st_submit_calls (c : dict) (hist : list request) :
  calls (snd (submit_st c (mk_world hist [])))
  = hist ++ [streamlit_request base_url api_key c].
Proof.
  apply (StreamlitFacts.st_push_customer_frame net base_url api_key c
           (mk_world hist [])).
Qed.

(** The loop of the command-line client as a counting loop: its counter
    is the length of [created]. *)
Lemma cli_body_counting (total i : Z) (c : dict) (created : list jval)
  (w : world) :
  True ->
  calls (snd (Integration.push_batch_body net total i c created w))
  = calls w ++ [integration_request c]
  /\ (settled (fst (submit_cli c (mk_world (calls w) []))) = true ->
      map (fun _ => tt)
        (calls (snd (Integration.push_batch_body net total i c created w)))
      = map (fun _ => tt) (calls w) ++ [tt])
  /\ match fst (submit_cli c (mk_world (calls w) [])),
           fst (Integration.push_batch_body net total i c created w) with
     | Ok v, Ok s' => well_formed v = true /\ len s' = len created + 1
     | Ok v, Raise e' => well_formed v = false /\ is_RuntimeError e' = false
     | Raise e, Ok s' => is_RuntimeError e = true /\ len s' = len created
     | Raise e, Raise e' => is_RuntimeError e = false /\ e' = e
     end.
Proof.
  intros _.
  destruct (IntegrationFacts.cli_body_step net total i c created w) as [Ef Ec].
  rewrite Ec, Ef, map_app. split; [reflexivity|]. split; [reflexivity|].
  destruct (fst (submit_cli c (mk_world (calls w) []))) as [v|e] eqn:Eo.
  - rewrite len_app. split; [|reflexivity].
    apply (IntegrationFacts.push_customer_well_formed net c _ v Eo).
  - destruct (is_RuntimeError e) eqn:Er; auto.
Qed.

Lemma cli_aborts (cs1 : list dict) (c : dict) (cs2 : list dict)
  (w : world) (e : exn) :
  forallb settled (outcomes submit_cli (calls w) cs1) = true ->
  fst (submit_cli c (mk_world (calls w ++ map integration_request cs1) []))
  = Raise e ->
  is_RuntimeError e = false ->
  let r := Integration.push_batch net (cs1 ++ c :: cs2) w in
  fst r = Raise e
  /\ calls (snd r) = calls w ++ map integration_request (cs1 ++ [c]).
Proof.
  intros Hs He Hr. cbn zeta. unfold Integration.push_batch, bind.
  destruct (CountingLoop.loop_aborts (list jval) unit submit_cli
              integration_request
              (Integration.push_batch_body net (len (cs1 ++ c :: cs2)))
              len (fun _ => True) well_formed
              (fun w => map (fun _ => tt) (calls w))
              (fun _ => tt) cli_submit_calls
              (cli_body_counting (len (cs1 ++ c :: cs2)))
              cs1 c cs2 1 [] w e) as [E1 E2]; auto.
  { apply Forall_forall. trivial. }
  destruct (for_enumerate _ 1 (cs1 ++ c :: cs2) [] w) as [o w1].
  cbn [fst snd] in E1, E2. subst o. auto.
Qed.

Lemma tk_aborts (cs1 : list dict) (c : dict) (cs2 : list dict)
  (w : world) (e : exn) :
  forallb settled (outcomes submit_tk (calls w) cs1) = true ->
  fst (submit_tk c (mk_world (calls w ++ map (ui_request base_url api_key) cs1)
                             []))
  = Raise e ->
  is_RuntimeError e = false ->
  let r := UI.push_batch net (cs1 ++ c :: cs2) base_url api_key w in
  fst r = Raise e
  /\ calls (snd r) = calls w ++ map (ui_request base_url api_key) (cs1 ++ [c]).
Proof.
  intros Hs He Hr. cbn zeta. unfold UI.push_batch, bind.
  destruct (CountingLoop.loop_aborts Z str submit_tk
              (ui_request base_url api_key)
              (UI.push_batch_body net base_url api_key
                 (len (cs1 ++ c :: cs2)))
              (fun ok => ok) (fun _ => True) well_formed
              (fun w => result_tags (shown w)) tag_of tk_submit_calls
              (fun i0 c0 s0 w0 _ =>
                 UIFacts.tk_body_step net base_url api_key
                   (len (cs1 ++ c :: cs2)) i0 c0 s0 w0)
              cs1 c cs2 1 0 w e) as [E1 E2]; auto.
  { apply Forall_forall. trivial. }
  destruct (for_enumerate _ 1 (cs1 ++ c :: cs2) 0 w) as [o w1].
  cbn [fst snd] in E1, E2. subst o. auto.
Qed.

(** A batch of the command-line client in which every submission
    settles. *)
Lemma cli_settled (cs : list dict) (w : world) :
  forallb settled (outcomes submit_cli (calls w) cs) = true ->
  let r := Integration.push_batch net cs w in
  fst r = Ok (created_records submit_cli (calls w) cs)
  /\ calls (snd r) = calls w ++ map integration_request cs
  /\ last (shown (snd r)) ProgressEmpty
     = Print [Lit "\nDone. "; FInt (created_count submit_cli (calls w) cs);
              Lit "/"; FInt (len cs); Lit " records pushed successfully."].
Proof.
  intros H. cbn zeta. unfold Integration.push_batch, bind.
  destruct (IntegrationFacts.loop_spec net (len cs) cs 1 [] w) as [L _].
  cbn zeta in L. destruct (L H) as [E1 E2].
  destruct (for_enumerate _ 1 cs [] w) as [o w1].
  cbn [fst snd] in E1, E2. subst o. cbn.
  rewrite last_last. auto.
Qed.

(** The "Push All Records" block when every submission settles, an [id]
    being all the block reads of a created record. *)
Lemma st_block (data : list dict) (w : world) :
  Forall named data ->
  forallb (settled_by has_id) (outcomes submit_st (calls w) data) = true ->
  let r := Streamlit.push_all_records net base_url api_key data w in
  (exists log_lines,
      fst r = Ok (log_lines, created_count submit_st (calls w) data))
  /\ calls (snd r) = calls w ++ map (streamlit_request base_url api_key) data.
Proof.
  intros Hd H r.
  assert (Er : r = Streamlit.push_all_records net base_url api_key data w)
    by reflexivity.
  clearbody r. unfold Streamlit.push_all_records, bind, emit, ret in Er.
  cbn [calls shown] in Er.
  match type of Er with
  | context [for_enumerate ?b ?i ?d ?s ?w0] =>
      destruct (StreamlitFacts.st_loop_counts net base_url api_key (len data)
                  data i s w0 Hd)
        as [L _];
      cbn zeta in L; destruct (L H) as (([ls n] & E1 & E2) & E3 & _);
      destruct (for_enumerate b i d s w0) as [o w1]
  end.
  cbn [fst snd calls] in E1, E2, E3. subst o. cbn in E2. subst n.
  cbn [snd] in Er.
  destruct (_ =? len data) in Er; subst r; cbn; eauto.
Qed.

Lemma st_settled (rows : list dict) (w : world) :
  let data := Streamlit.normalise rows in
  forallb settled (outcomes submit_st (calls w) data) = true ->
  let r := Streamlit.push_all_records net base_url api_key data w in
  (exists log_lines,
      fst r = Ok (log_lines, created_count submit_st (calls w) data))
  /\ calls (snd r) = calls w ++ map (streamlit_request base_url api_key) data.
Proof.
  intros data H.
  apply st_block;
    [apply StreamlitFacts.normalise_named
    | now apply CountingLoop.settled_has_id].
Qed.

Lemma cli_counter (total : Z) (cs : list dict) (w : world) :
  counter_ok submit_cli well_formed (calls w) cs
    (result_map len
       (fst (for_enumerate (Integration.push_batch_body net total)
               1 cs [] w))).
Proof.
  apply (CountingLoop.loop_counter (list jval) unit submit_cli
           integration_request (Integration.push_batch_body net total)
           len (fun _ => True) well_formed
           (fun w => map (fun _ => tt) (calls w)) (fun _ => tt)
           cli_submit_calls (cli_body_counting total));
    [apply Forall_forall; trivial | reflexivity].
Qed.

Lemma tk_counter (total : Z) (cs : list dict) (w : world) :
  counter_ok submit_tk well_formed (calls w) cs
    (fst (for_enumerate (UI.push_batch_body net base_url api_key total)
            1 cs 0 w)).
Proof.
  pose proof (CountingLoop.loop_counter Z str submit_tk
                (ui_request base_url api_key)
                (UI.push_batch_body net base_url api_key total)
                (fun ok => ok) (fun _ => True) well_formed
                (fun w => result_tags (shown w)) tag_of tk_submit_calls
                (fun i0 c0 s0 w0 _ =>
                   UIFacts.tk_body_step net base_url api_key total i0 c0 s0
                     w0)
                cs 1 0 w) as C.
  destruct (fst (for_enumerate _ 1 cs 0 w));
    apply C; try reflexivity; apply Forall_forall; trivial.
Qed.

Lemma st_counter (total : Z) (data : list dict) (w : world) :
  Forall named data ->
  counter_ok submit_st has_id (calls w) data
    (result_map snd
       (fst (for_enumerate
               (Streamlit.push_all_body net base_url api_key total)
               1 data ([], 0) w))).
Proof.
  intros Hd.
  apply (CountingLoop.loop_counter (list fmt * Z) unit submit_st
           (streamlit_request base_url api_key)
           (Streamlit.push_all_body net base_url api_key total)
           snd named has_id ticks (fun _ => tt) st_submit_calls
           (fun i0 c0 s0 w0 Hc =>
              StreamlitFacts.st_body_step net base_url api_key total i0 c0
                s0 w0 Hc));
    [exact Hd | reflexivity].
Qed.

Lemma cli_calls (total : Z) (cs : list dict) (w : world) :
  is_Ok (fst (for_enumerate (Integration.push_batch_body net total)
                1 cs [] w)) = true ->
  calls (snd (for_enumerate (Integration.push_batch_body net total)
                1 cs [] w))
  = calls w ++ map integration_request cs.
Proof.
  apply (CountingLoop.loop_calls (list jval) unit submit_cli
           integration_request (Integration.push_batch_body net total)
           len (fun _ => True) well_formed
           (fun w => map (fun _ => tt) (calls w)) (fun _ => tt)
           cli_submit_calls (cli_body_counting total)).
  apply Forall_forall; trivial.
Qed.

Lemma tk_calls (total : Z) (cs : list dict) (w : world) :
  is_Ok (fst (for_enumerate (UI.push_batch_body net base_url api_key total)
                1 cs 0 w)) = true ->
  calls (snd (for_enumerate (UI.push_batch_body net base_url api_key total)
                1 cs 0 w))
  = calls w ++ map (ui_request base_url api_key) cs.
Proof.
  apply (CountingLoop.loop_calls Z str submit_tk
           (ui_request base_url api_key)
           (UI.push_batch_body net base_url api_key total)
           (fun ok => ok) (fun _ => True) well_formed
           (fun w => result_tags (shown w)) tag_of tk_submit_calls
           (fun i0 c0 s0 w0 _ =>
              UIFacts.tk_body_step net base_url api_key total i0 c0 s0 w0)).
  apply Forall_forall; trivial.
Qed.

Lemma st_calls (total : Z) (data : list dict) (w : world) :
  Forall named data ->
  is_Ok (fst (for_enumerate
                (Streamlit.push_all_body net base_url api_key total)
                1 data ([], 0) w)) = true ->
  calls (snd (for_enumerate
                (Streamlit.push_all_body net base_url api_key total)
                1 data ([], 0) w))
  = calls w ++ map (streamlit_request base_url api_key) data.
Proof.
  intros Hd.
  apply (CountingLoop.loop_calls (list fmt * Z) unit submit_st
           (streamlit_request base_url api_key)
           (Streamlit.push_all_body net base_url api_key total)
           snd named has_id ticks (fun _ => tt) st_submit_calls
           (fun i0 c0 s0 w0 Hc =>
              StreamlitFacts.st_body_step net base_url api_key total i0 c0
                s0 w0 Hc)).
  exact Hd.
Qed.

Lemma cli_step (total : Z) (xs : list dict) (c : dict) (w : world) :
  counter_step well_formed
    (fst (submit_cli c (mk_world (calls w ++ map integration_request xs) [])))
    (result_map len
       (fst (for_enumerate (Integration.push_batch_body net total)
               1 xs [] w)))
    (result_map len
       (fst (for_enumerate (Integration.push_batch_body net total)
               1 (xs ++ [c]) [] w))).
Proof.
  apply (CountingLoop.loop_step (list jval) unit submit_cli
           integration_request (Integration.push_batch_body net total)
           len (fun _ => True) well_formed
           (fun w => map (fun _ => tt) (calls w)) (fun _ => tt)
           cli_submit_calls (cli_body_counting total)).
  apply Forall_forall; trivial.
Qed.

Lemma tk_step (total : Z) (xs : list dict) (c : dict) (w : world) :
  counter_step well_formed
    (fst (submit_tk c
            (mk_world (calls w ++ map (ui_request base_url api_key) xs) [])))
    (fst (for_enumerate (UI.push_batch_body net base_url api_key total)
            1 xs 0 w))
    (fst (for_enumerate (UI.push_batch_body net base_url api_key total)
            1 (xs ++ [c]) 0 w)).
Proof.
  pose proof (CountingLoop.loop_step Z str submit_tk
                (ui_request base_url api_key)
                (UI.push_batch_body net base_url api_key total)
                (fun ok => ok) (fun _ => True) well_formed
                (fun w => result_tags (shown w)) tag_of tk_submit_calls
                (fun i0 c0 s0 w0 _ =>
                   UIFacts.tk_body_step net base_url api_key total i0 c0 s0
                     w0)
                xs c 1 0 w) as C.
  destruct (fst (for_enumerate _ 1 xs 0 w));
    destruct (fst (for_enumerate _ 1 (xs ++ [c]) 0 w));
    apply C; apply Forall_forall; trivial.
Qed.

Lemma st_step (total : Z) (xs : list dict) (c : dict) (w : world) :
  Forall named (xs ++ [c]) ->
  counter_step has_id
    (fst (submit_st c
            (mk_world
               (calls w ++ map (streamlit_request base_url api_key) xs) [])))
    (result_map snd
       (fst (for_enumerate
               (Streamlit.push_all_body net base_url api_key total)
               1 xs ([], 0) w)))
    (result_map snd
       (fst (for_enumerate
               (Streamlit.push_all_body net base_url api_key total)
               1 (xs ++ [c]) ([], 0) w))).
Proof.
  intros Hd.
  apply (CountingLoop.loop_step (list fmt * Z) unit submit_st
           (streamlit_request base_url api_key)
           (Streamlit.push_all_body net base_url api_key total)
           snd named has_id ticks (fun _ => tt) st_submit_calls
           (fun i0 c0 s0 w0 Hc =>
              StreamlitFacts.st_body_step net base_url api_key total i0 c0
                s0 w0 Hc)).
  exact Hd.
Qed.

(** What [done_cb] is told at the end of a Tk batch. *)
Lemma tk_final_report (cs : list dict) (w : world) :
  match UI.push_batch net cs base_url api_key w with
  | (Ok _, w') =>
      exists ok, last (shown w') ProgressEmpty = DoneCb ok (len cs)
                 /\ counter_ok submit_tk well_formed (calls w) cs (Ok ok)
  | (Raise e, _) => counter_ok submit_tk well_formed (calls w) cs (Raise e)
  end.
Proof.
  unfold UI.push_batch, bind.
  pose proof (tk_counter (len cs) cs w) as C.
  destruct (for_enumerate _ 1 cs 0 w) as [[ok|e] w1]; cbn [fst] in C;
    [|exact C].
  exists ok. cbn. rewrite last_last. auto.
Qed.

(** What the command-line [push_batch] returns. *)
Lemma cli_final_report (cs : list dict) (w : world) :
  counter_ok submit_cli well_formed (calls w) cs
    (result_map len (fst (Integration.push_batch net cs w))).
Proof.
  unfold Integration.push_batch, bind.
  pose proof (cli_counter (len cs) cs w) as C.
  destruct (for_enumerate _ 1 cs [] w) as [[created|e] w1]; exact C.
Qed.

(** The [ok_count] the "Push All Records" block ends with. *)
Lemma st_final_report (data : list dict) (w : world) :
  Forall named data ->
  counter_ok submit_st has_id (calls w) data
    (result_map snd
       (fst (Streamlit.push_all_records net base_url api_key data w))).
Proof.
  intros Hd.
  destruct (Streamlit.push_all_records net base_url api_key data w)
    as [r wf] eqn:Er.
  unfold Streamlit.push_all_records, bind, emit, ret in Er.
  cbn [calls shown] in Er.
  match type of Er with
  | context [for_enumerate ?b ?i ?d ?s ?w0] =>
      pose proof (st_counter (len data) data w0 Hd) as C;
      destruct (for_enumerate b i d s w0) as [[[ls n]|e] w1]
  end; cbn [fst snd result_map calls] in C, Er.
  - destruct (n =? len data); inversion Er; subst; exact C.
  - inversion Er; subst; exact C.
Qed.

(** The messages only grow. *)
Lemma for_enumerate_grows {A S} (body : Z -> A -> S -> M S) :
  (forall i x s w, exists evs, shown (snd (body i x s w)) = shown w ++ evs) ->
  forall xs i s w,
    exists evs, shown (snd (for_enumerate body i xs s w)) = shown w ++ evs.
Proof.
  intros Hb. induction xs as [|x xs IH]; intros i s w.
  - exists []. cbn. now rewrite app_nil_r.
  - rewrite for_enumerate_cons. destruct (Hb i x s w) as [evs E].
    destruct (body i x s w) as [[s1|e] w1]; cbn [snd] in E.
    + destruct (IH (i + 1) s1 w1) as [evs' E']. exists (evs ++ evs').
      now rewrite E', E, app_assoc.
    + exists evs. exact E.
Qed.

Lemma cli_body_grows (total i : Z) (c : dict) (created : list jval)
  (w : world) :
  exists evs,
    shown (snd (Integration.push_batch_body net total i c created w))
    = shown w ++ evs.
Proof.
  unfold Integration.push_batch_body, Integration.push_customer.
  run; rewrite <- ?app_assoc; eexists; reflexivity.
Qed.

Lemma st_body_grows (total i : Z) (c : dict) (s : list fmt * Z) (w : world) :
  exists evs,
    shown (snd (Streamlit.push_all_body net base_url api_key total i c s w))
    = shown w ++ evs.
Proof.
  destruct s as [log_lines ok_count].
  unfold Streamlit.push_all_body, Streamlit.push_customer.
  run; rewrite <- ?app_assoc; try (eexists; reflexivity);
    exists []; now rewrite app_nil_r.
Qed.

(** A record the service rejects is reported with the answer of the
    service, whatever the record holds. *)
Lemma cli_reports_rejection (cs1 : list dict) (c : dict) (cs2 : list dict)
  (w : world) (r : response) :
  forallb settled (outcomes submit_cli (calls w) cs1) = true ->
  net (calls w ++ map integration_request cs1) (integration_request c)
  = Responded r ->
  status_code r <> 201 ->
  In (Print [Lit "  Skipping record "; FInt (len cs1 + 1); Lit ": ";
             FExc (RuntimeError
                     (lit "Failed to push customer: " ++ text r))])
     (shown (snd (Integration.push_batch net (cs1 ++ c :: cs2) w))).
Proof.
  intros Hs Hn Hr. unfold Integration.push_batch.
  generalize (len (cs1 ++ c :: cs2)). intros total.
  assert (L : In (Print [Lit "  Skipping record "; FInt (len cs1 + 1);
                         Lit ": ";
                         FExc (RuntimeError
                                 (lit "Failed to push customer: "
                                  ++ text r))])
                (shown (snd (for_enumerate
                               (Integration.push_batch_body net total)
                               1 (cs1 ++ c :: cs2) [] w)))).
  { rewrite for_enumerate_app.
    destruct (IntegrationFacts.loop_spec net total cs1 1 [] w) as [L1 _].
    cbn zeta in L1. destruct (L1 Hs) as [E1 E2].
    destruct (for_enumerate _ 1 cs1 [] w) as [o w1].
    cbn [fst snd] in E1, E2. subst o. rewrite <- E2 in Hn.
    rewrite for_enumerate_cons.
    replace (1 + len cs1) with (len cs1 + 1) by lia.
    unfold Integration.push_batch_body at 1.
    unfold bind at 1, emit at 1, try_except, bind at 1.
    rewrite (SubmissionClient.integration_rejection net c
               (mk_world (calls w1) _) r Hr Hn).
    cbn [is_RuntimeError]. unfold bind, emit, ret. cbn [calls shown].
    match goal with
    | |- context [for_enumerate ?b ?i cs2 ?s0 ?w0] =>
        destruct (for_enumerate_grows b (cli_body_grows total) cs2 i s0 w0)
          as [evs E]
    end.
    rewrite E. cbn [shown]. apply in_or_app. left.
    apply in_or_app. right. left. reflexivity. }
  unfold bind.
  destruct (for_enumerate _ 1 (cs1 ++ c :: cs2) [] w) as [[created|e] w'];
    cbn [snd] in L; cbn; [apply in_or_app; left|]; exact L.
Qed.

Lemma st_reports_rejection (d1 : list dict) (c : dict) (d2 : list dict)
  (w : world) (r : response) :
  Forall named (d1 ++ c :: d2) ->
  forallb settled (outcomes submit_st (calls w) d1) = true ->
  net (calls w ++ map (streamlit_request base_url api_key) d1)
      (streamlit_request base_url api_key c) = Responded r ->
  status_code r <> 201 ->
  exists earlier,
    In (LogArea
          (earlier
           ++ [[Lit "❌ ["; FInt (len d1 + 1); Lit "/";
                FInt (len (d1 ++ c :: d2)); Lit "] Failed – ";
                FStr (dict_get_default c (lit "first_name") [] ++ lit " "
                      ++ dict_get_default c (lit "last_name") []);
                Lit ": ";
                FExc (RuntimeError
                        (lit "HTTP " ++ of_int (status_code r) ++ lit ": "
                         ++ text r))]]))
       (shown (snd (Streamlit.push_all_records net base_url api_key
                      (d1 ++ c :: d2) w))).
Proof.
  intros Hd Hs Hn Hr. unfold Streamlit.push_all_records.
  generalize (len (d1 ++ c :: d2)). intros total.
  apply Forall_app in Hd. destruct Hd as [Hd1 Hd2].
  inversion Hd2 as [|? ? [Hf Hl] _]; subst.
  unfold bind at 1, emit at 1.
  set (w0 := mk_world (calls w) (shown w ++ [St "progress" [Lit "Starting…"]])).
  destruct (StreamlitFacts.st_loop_counts net base_url api_key total d1 1
              ([], 0) w0 Hd1) as [L1 _].
  cbn zeta in L1.
  destruct (L1 (CountingLoop.settled_has_id _ Hs))
    as (([ls1 n1] & E1 & _) & E2 & _).
  assert (B : exists w2,
             for_enumerate (Streamlit.push_all_body net base_url api_key total)
               1 (d1 ++ c :: d2) ([], 0) w0
             = for_enumerate (Streamlit.push_all_body net base_url api_key
                                total)
                 (1 + len d1 + 1) d2
                 (ls1 ++ [[Lit "❌ ["; FInt (len d1 + 1); Lit "/";
                           FInt total; Lit "] Failed – ";
                           FStr (dict_get_default c (lit "first_name") []
                                 ++ lit " "
                                 ++ dict_get_default c (lit "last_name") []);
                           Lit ": ";
                           FExc (RuntimeError
                                   (lit "HTTP " ++ of_int (status_code r)
                                    ++ lit ": " ++ text r))]], n1)
                 w2
             /\ In (LogArea
                      (ls1 ++ [[Lit "❌ ["; FInt (len d1 + 1); Lit "/";
                                FInt total; Lit "] Failed – ";
                                FStr (dict_get_default c (lit "first_name") []
                                      ++ lit " "
                                      ++ dict_get_default c (lit "last_name")
                                           []);
                                Lit ": ";
                                FExc (RuntimeError
                                        (lit "HTTP "
                                         ++ of_int (status_code r)
                                         ++ lit ": " ++ text r))]]))
                  (shown w2)).
  { rewrite for_enumerate_app.
    destruct (for_enumerate _ 1 d1 ([], 0) w0) as [o w1].
    cbn [fst snd] in E1, E2. subst o. cbn [calls w0] in E2.
    rewrite <- E2 in Hn.
    rewrite for_enumerate_cons.
    replace (1 + len d1) with (len d1 + 1) by lia.
    unfold Streamlit.push_all_body at 1.
    unfold dict_getitem, dict_get_default.
    destruct (dict_get c (lit "first_name")) as [first|]; [|congruence].
    destruct (dict_get c (lit "last_name")) as [last|]; [|congruence].
    unfold bind at 1, ret at 1. unfold bind at 1, ret at 1.
    unfold bind at 1, try_except, bind at 1.
    rewrite (SubmissionClient.streamlit_rejection net base_url api_key c w1 r
               Hr Hn).
    cbn [is_RuntimeError]. unfold bind, emit, ret. cbn [calls shown fst].
    eexists. split; [reflexivity|].
    cbn [shown]. apply in_or_app. right. left. reflexivity. }
  destruct B as (w2 & B1 & B2). exists ls1.
  unfold bind. rewrite B1.
  match goal with
  | |- context [for_enumerate ?b ?i d2 ?s0 w2] =>
      destruct (for_enumerate_grows b
                  (st_body_grows total) d2 i s0 w2) as [evs E];
      destruct (for_enumerate b i d2 s0 w2) as [[s3|e3] w3]
  end; cbn [snd] in E.
  - unfold emit, ret. cbn [calls shown snd].
    destruct (snd s3 =? total); cbn [snd shown];
      rewrite E; repeat (apply in_or_app; left); exact B2.
  - cbn [snd]. rewrite E. apply in_or_app. left. exact B2.
Qed.

End Net.

(** The state of a loop after its first [k] records is the state of the
    loop run on those records alone. *)
Lemma for_enumerate_firstn {A S} (body : Z -> A -> S -> M S) (k : nat)
  (xs : list A) (i : Z) (s : S) (w : world) :
  for_enumerate body i xs s w
  = match for_enumerate body i (firstn k xs) s w with
    | (Ok s', w') =>
        for_enumerate body (i + len (firstn k xs)) (skipn k xs) s' w'
    | (Raise e, w') => (Raise e, w')
    end.
Proof. rewrite <- for_enumerate_app. now rewrite firstn_skipn. Qed.

Lemma progress_lines_app (a b : list event) :
  progress_lines (a ++ b) = progress_lines a ++ progress_lines b.
Proof. unfold progress_lines. apply filter_app. Qed.

(** C1, at the failing input.  The connection is refused for the first
    record of a batch of two: the exception of the library leaves
    [push_batch], in the command-line client and in the Tk client, and the
    second record is never submitted, nor is the run's result reported.
    Behind a connection that works both records are created. *)
Theorem transport_failure_aborts_batch :
  Integration.push_batch flaky [alice; bob] fresh
  = (Raise (RequestException ConnectionError (lit "Connection refused")),
     mk_world [integration_request alice]
       [Print [Lit "Pushing record "; FInt 1; Lit "/"; FInt 2; Lit " ..."]])
  /\ UI.push_batch flaky [alice; bob] endpoint secret fresh
     = (Raise (RequestException ConnectionError (lit "Connection refused")),
        mk_world [ui_request endpoint secret alice]
          [LogCb [Lit "["; FInt 1; Lit "/"; FInt 2; Lit "] Pushing ";
                  FStr (lit "Alice"); Lit " "; FStr (lit "Johnson");
                  Lit " …"] (lit "info")])
  /\ fst (Integration.push_batch service [alice; bob] fresh)
     = Ok [echoed alice; echoed bob].
Proof. repeat split. Qed.

(** C2, as the code has it.  When every submission of a batch of N records
    settles (a well-formed created record, or a [RuntimeError]), every
    record is submitted, in input order, and its outcome is the one of its
    own submission.  The command-line [push_batch] returns the created
    records only, in input order: their number is the success count, at
    most N, and N exactly when every record was created; N itself is only
    printed.  The Tk [push_batch] returns nothing: it logs one result line
    per record, in input order, and tells [done_cb] the success count and
    N. *)
Theorem push_batch_tally
  (net : network) (base_url api_key : str) (cs : list dict) (w : world) :
  let submit_cli := Integration.push_customer net in
  let submit_tk := fun c => UI.push_customer net c base_url api_key in
  forallb settled (outcomes submit_cli (calls w) cs) = true ->
  forallb settled (outcomes submit_tk (calls w) cs) = true ->
  let cli := Integration.push_batch net cs w in
  let tk := UI.push_batch net cs base_url api_key w in
  List.length (outcomes submit_cli (calls w) cs) = List.length cs
  /\ fst cli = Ok (created_records submit_cli (calls w) cs)
  /\ calls (snd cli) = calls w ++ map integration_request cs
  /\ last (shown (snd cli)) ProgressEmpty
     = Print [Lit "\nDone. "; FInt (created_count submit_cli (calls w) cs);
              Lit "/"; FInt (len cs); Lit " records pushed successfully."]
  /\ 0 <= created_count submit_cli (calls w) cs <= len cs
  /\ (created_count submit_cli (calls w) cs = len cs
      <-> forallb is_Ok (outcomes submit_cli (calls w) cs) = true)
  /\ List.length (outcomes submit_tk (calls w) cs) = List.length cs
  /\ fst tk = Ok tt
  /\ calls (snd tk) = calls w ++ map (ui_request base_url api_key) cs
  /\ result_tags (shown (snd tk))
     = result_tags (shown w) ++ map tag_of (outcomes submit_tk (calls w) cs)
  /\ last (shown (snd tk)) ProgressEmpty
     = DoneCb (created_count submit_tk (calls w) cs) (len cs)
  /\ 0 <= created_count submit_tk (calls w) cs <= len cs.
Proof.
  intros submit_cli submit_tk Hc Ht cli tk.
  destruct (cli_settled net cs w Hc) as (C1 & C2 & C3).
  destruct (UIFacts.push_batch_settled net base_url api_key cs w Ht)
    as (T1 & T2 & T3 & T4).
  repeat split; try assumption;
    try apply outcomes_length; try apply created_count_bounds;
    apply created_count_all.
Qed.

Lemma push_batch_tally_witness :
  fst (Integration.push_batch service [alice; charlie; bob] fresh)
  = Ok [echoed alice; echoed bob]
  /\ created_count (Integration.push_customer service) []
       [alice; charlie; bob] = 2
  /\ result_tags
       (shown (snd (UI.push_batch service [alice; charlie; bob]
                      endpoint secret fresh)))
     = [lit "ok"; lit "error"; lit "ok"]
  /\ last (shown (snd (UI.push_batch service [alice; charlie; bob]
                         endpoint secret fresh))) ProgressEmpty
     = DoneCb 2 3.
Proof.
  destruct (push_batch_tally service endpoint secret [alice; charlie; bob]
              fresh eq_refl eq_refl)
    as (_ & E1 & _ & _ & _ & _ & _ & _ & _ & E2 & E3 & _).
  split; [exact E1|]. split; [reflexivity|]. split; [exact E2 | exact E3].
Defined.

(** C2 fails as stated: of three records, one rejected, the command-line
    [push_batch] returns two outcomes, and the Tk [push_batch] returns
    none. *)
Lemma returned_list_shorter_than_batch :
  fst (Integration.push_batch service [alice; charlie; bob] fresh)
  = Ok [echoed alice; echoed bob]
  /\ len [echoed alice; echoed bob] <> len [alice; charlie; bob]
  /\ fst (UI.push_batch service [alice; charlie; bob] endpoint secret fresh)
     = Ok tt.
Proof. repeat split. discriminate. Qed.

(** C3, as the code has it.  The batch loops validate nothing: when every
    submission settles, each record of the batch is submitted as it is, in
    input order, the one with an empty required field like the others.  What
    is reported for a record the service rejects, whatever the record holds,
    is the answer of the service: the [RuntimeError] that carries the body
    text of the response, in the "Skipping record" line of the command-line
    loop and in the log line of the Streamlit loop. *)
Theorem batch_submits_every_record
  (net : network) (base_url api_key : str) (cs rows : list dict)
  (w : world) :
  let submit_cli := Integration.push_customer net in
  let submit_st := Streamlit.push_customer net base_url api_key in
  let data := Streamlit.normalise rows in
  forallb settled (outcomes submit_cli (calls w) cs) = true ->
  forallb settled (outcomes submit_st (calls w) data) = true ->
  calls (snd (Integration.push_batch net cs w))
  = calls w ++ map integration_request cs
  /\ calls (snd (Streamlit.push_all_records net base_url api_key data w))
     = calls w ++ map (streamlit_request base_url api_key) data
  /\ (forall cs1 c cs2 r,
        cs = cs1 ++ c :: cs2 ->
        net (calls w ++ map integration_request cs1) (integration_request c)
        = Responded r ->
        status_code r <> 201 ->
        In (Print [Lit "  Skipping record "; FInt (len cs1 + 1); Lit ": ";
                   FExc (RuntimeError
                           (lit "Failed to push customer: " ++ text r))])
           (shown (snd (Integration.push_batch net cs w))))
  /\ (forall d1 c d2 r,
        data = d1 ++ c :: d2 ->
        net (calls w ++ map (streamlit_request base_url api_key) d1)
            (streamlit_request base_url api_key c) = Responded r ->
        status_code r <> 201 ->
        exists earlier,
          In (LogArea
                (earlier
                 ++ [[Lit "❌ ["; FInt (len d1 + 1); Lit "/";
                      FInt (len data); Lit "] Failed – ";
                      FStr (dict_get_default c (lit "first_name") []
                            ++ lit " "
                            ++ dict_get_default c (lit "last_name") []);
                      Lit ": ";
                      FExc (RuntimeError
                              (lit "HTTP " ++ of_int (status_code r)
                               ++ lit ": " ++ text r))]]))
             (shown (snd (Streamlit.push_all_records net base_url api_key
                            data w)))).
Proof.
  intros submit_cli submit_st data Hc Hs.
  split; [apply (cli_settled net cs w Hc)|].
  split; [apply (st_settled net base_url api_key rows w Hs)|].
  split.
  - intros cs1 c cs2 r -> Hn Hr.
    apply cli_reports_rejection; [|exact Hn | exact Hr].
    unfold submit_cli in Hc.
    rewrite (CountingLoop.outcomes_app (Integration.push_customer net)
               integration_request (cli_submit_calls net)) in Hc.
    rewrite forallb_app in Hc. apply andb_true_iff in Hc. apply Hc.
  - intros d1 c d2 r Ed Hn Hr.
    pose proof (StreamlitFacts.normalise_named rows) as Hd.
    fold data in Hd. rewrite Ed in Hs, Hd |- *.
    apply st_reports_rejection; [exact Hd | | exact Hn | exact Hr].
    unfold submit_st in Hs.
    rewrite (CountingLoop.outcomes_app
               (Streamlit.push_customer net base_url api_key)
               (streamlit_request base_url api_key)
               (st_submit_calls net base_url api_key)) in Hs.
    rewrite forallb_app in Hs. apply andb_true_iff in Hs. apply Hs.
Qed.

Lemma batch_submits_every_record_witness :
  calls (snd (Integration.push_batch service [alice; charlie; bob] fresh))
  = [integration_request alice; integration_request charlie;
     integration_request bob]
  /\ calls (snd (Streamlit.push_all_records service endpoint secret
                   (Streamlit.normalise [alice; charlie; bob]) fresh))
     = [streamlit_request endpoint secret alice;
        streamlit_request endpoint secret charlie;
        streamlit_request endpoint secret bob]
  /\ In (Print [Lit "  Skipping record "; FInt 2; Lit ": ";
                FExc (RuntimeError
                        (lit "Failed to push customer: road is required"))])
       (shown (snd (Integration.push_batch service [alice; charlie; bob]
                      fresh)))
  /\ exists earlier,
       In (LogArea
             (earlier
              ++ [[Lit "❌ ["; FInt 2; Lit "/"; FInt 3; Lit "] Failed – ";
                   FStr (lit "Charlie Brown"); Lit ": ";
                   FExc (RuntimeError (lit "HTTP 422: road is required"))]]))
          (shown (snd (Streamlit.push_all_records service endpoint secret
                         (Streamlit.normalise [alice; charlie; bob])
                         fresh))).
Proof.
  destruct (batch_submits_every_record service endpoint secret
              [alice; charlie; bob] [alice; charlie; bob] fresh
              eq_refl eq_refl) as (E1 & E2 & E3 & E4).
  split; [exact E1|]. split; [exact E2|]. split.
  - apply (E3 [alice] charlie [bob] (rejection 422 "road is required"));
      [reflexivity | reflexivity | discriminate].
  - apply (E4 [alice] charlie [bob] (rejection 422 "road is required"));
      [reflexivity | reflexivity | discriminate].
Defined.

(** C3 fails as stated: the record whose [road] is empty is sent to the
    service like the others, and the message reported for it is the
    service's answer, not a list of missing fields. *)
Lemma invalid_record_is_submitted :
  dict_get charlie (lit "road") = Some []
  /\ In (integration_request charlie)
       (calls (snd (Integration.push_batch service [alice; charlie; bob]
                      fresh)))
  /\ In (Print [Lit "  Skipping record "; FInt 2; Lit ": ";
                FExc (RuntimeError
                        (lit "Failed to push customer: road is required"))])
       (shown (snd (Integration.push_batch service [alice; charlie; bob]
                      fresh)))
  /\ In (streamlit_request endpoint secret charlie)
       (calls (snd (Streamlit.push_all_records service endpoint secret
                      (Streamlit.normalise [alice; charlie; bob]) fresh))).
Proof. repeat split; cbn; tauto. Qed.

(** C9.  The empty batch: no request, no progress line; the command-line
    [push_batch] returns the empty list after printing its summary 0/0, the
    Tk [push_batch] calls [done_cb(0, 0)] and nothing else. *)
Theorem empty_batch
  (net : network) (base_url api_key : str) (w : world) :
  Integration.push_batch net [] w
  = (Ok [],
     mk_world (calls w)
       (shown w ++ [Print [Lit "\nDone. "; FInt 0; Lit "/"; FInt 0;
                           Lit " records pushed successfully."]]))
  /\ UI.push_batch net [] base_url api_key w
     = (Ok tt, mk_world (calls w) (shown w ++ [DoneCb 0 0]))
  /\ progress_lines (shown (snd (Integration.push_batch net [] w)))
     = progress_lines (shown w)
  /\ progress_lines (shown (snd (UI.push_batch net [] base_url api_key w)))
     = progress_lines (shown w).
Proof.
  repeat split; cbn; rewrite progress_lines_app; cbn; apply app_nil_r.
Qed.

(** C10.  In the three loops the success counter ([len(created)], [ok],
    [ok_count]) after the first [k] records is the number of those records
    whose submission returned a created record, between 0 and [k]: the loop
    gets through them exactly when each of their submissions settles, having
    submitted each of them once, and is otherwise left by an exception that
    is not a [RuntimeError].  One more
    record adds one to the counter when its submission returns, leaves it
    when its submission raises a [RuntimeError], and ends the loop
    otherwise.  The count reported at the end of a batch of N records (the
    length of the list returned, the count [done_cb] is told, the final
    [ok_count]) is the number of created records, between 0 and N. *)
Theorem success_counter_invariant
  (net : network) (base_url api_key : str) (cs rows : list dict)
  (k : nat) (w : world) :
  let submit_cli := Integration.push_customer net in
  let submit_tk := fun c => UI.push_customer net c base_url api_key in
  let submit_st := Streamlit.push_customer net base_url api_key in
  let data := Streamlit.normalise rows in
  let cli := fun xs =>
    result_map len
      (fst (for_enumerate (Integration.push_batch_body net (len cs))
              1 xs [] w)) in
  let tk := fun xs =>
    fst (for_enumerate (UI.push_batch_body net base_url api_key (len cs))
           1 xs 0 w) in
  let st := fun xs =>
    result_map snd
      (fst (for_enumerate
              (Streamlit.push_all_body net base_url api_key (len data))
              1 xs ([], 0) w)) in
  counter_ok submit_cli well_formed (calls w) (firstn k cs)
    (cli (firstn k cs))
  /\ counter_ok submit_tk well_formed (calls w) (firstn k cs)
       (tk (firstn k cs))
  /\ counter_ok submit_st has_id (calls w) (firstn k data)
       (st (firstn k data))
  /\ (is_Ok (cli (firstn k cs)) = true ->
      calls (snd (for_enumerate (Integration.push_batch_body net (len cs))
                    1 (firstn k cs) [] w))
      = calls w ++ map integration_request (firstn k cs))
  /\ (is_Ok (tk (firstn k cs)) = true ->
      calls (snd (for_enumerate
                    (UI.push_batch_body net base_url api_key (len cs))
                    1 (firstn k cs) 0 w))
      = calls w ++ map (ui_request base_url api_key) (firstn k cs))
  /\ (is_Ok (st (firstn k data)) = true ->
      calls (snd (for_enumerate
                    (Streamlit.push_all_body net base_url api_key (len data))
                    1 (firstn k data) ([], 0) w))
      = calls w ++ map (streamlit_request base_url api_key) (firstn k data))
  /\ match nth_error cs k with
     | Some c =>
         counter_step well_formed
           (fst (submit_cli c
                   (mk_world
                      (calls w ++ map integration_request (firstn k cs)) [])))
           (cli (firstn k cs)) (cli (firstn (S k) cs))
     | None => True
     end
  /\ match nth_error cs k with
     | Some c =>
         counter_step well_formed
           (fst (submit_tk c
                   (mk_world
                      (calls w
                       ++ map (ui_request base_url api_key) (firstn k cs))
                      [])))
           (tk (firstn k cs)) (tk (firstn (S k) cs))
     | None => True
     end
  /\ match nth_error data k with
     | Some c =>
         counter_step has_id
           (fst (submit_st c
                   (mk_world
                      (calls w
                       ++ map (streamlit_request base_url api_key)
                            (firstn k data))
                      [])))
           (st (firstn k data)) (st (firstn (S k) data))
     | None => True
     end
  /\ counter_ok submit_cli well_formed (calls w) cs
       (result_map len (fst (Integration.push_batch net cs w)))
  /\ match UI.push_batch net cs base_url api_key w with
     | (Ok _, w') =>
         exists ok, last (shown w') ProgressEmpty = DoneCb ok (len cs)
                    /\ counter_ok submit_tk well_formed (calls w) cs (Ok ok)
     | (Raise e, _) =>
         counter_ok submit_tk well_formed (calls w) cs (Raise e)
     end
  /\ counter_ok submit_st has_id (calls w) data
       (result_map snd
          (fst (Streamlit.push_all_records net base_url api_key data w))).
Proof.
  intros submit_cli submit_tk submit_st data cli tk st.
  assert (Hn : forall n, Forall named (firstn n data)).
  { intros n. unfold data, Streamlit.normalise. rewrite firstn_map.
    apply StreamlitFacts.normalise_named. }
  split; [apply cli_counter|].
  split; [apply tk_counter|].
  split; [apply st_counter, Hn|].
  split.
  { intros H. apply cli_calls. unfold cli in H.
    destruct (fst (for_enumerate _ 1 (firstn k cs) [] w));
      [reflexivity | discriminate]. }
  split; [apply tk_calls|].
  split.
  { intros H. apply st_calls; [apply Hn|]. unfold st in H.
    destruct (fst (for_enumerate _ 1 (firstn k data) ([], 0) w));
      [reflexivity | discriminate]. }
  split.
  { destruct (nth_error cs k) as [c|] eqn:E; [|exact I].
    rewrite (CountingLoop.firstn_snoc cs k c E). apply cli_step. }
  split.
  { destruct (nth_error cs k) as [c|] eqn:E; [|exact I].
    rewrite (CountingLoop.firstn_snoc cs k c E). apply tk_step. }
  split.
  { destruct (nth_error data k) as [c|] eqn:E; [|exact I].
    pose proof (Hn (S k)) as H.
    rewrite (CountingLoop.firstn_snoc data k c E) in H |- *.
    now apply st_step. }
  split; [apply cli_final_report|].
  split; [apply tk_final_report|].
  apply st_final_report, StreamlitFacts.normalise_named.
Qed.

End BatchRunner.

(* ------------------------------------------------------------------ *)
(** * More facts: handlers, loops, rows *)

Module SingleRecord.

Import ReplayFacts StrFacts Validation.

Section Net.

Variable net : network.
Variables base_url api_key var_url var_key : str.

Lemma st_never_raises (f : form) (w : world) :
  fst (Streamlit.submit_record net base_url api_key f w) = Ok tt.
Proof.
  destruct (empty_fields f) as [|m ms] eqn:He.
  - apply (streamlit_submit_calls net base_url api_key f w He).
  - rewrite streamlit_invalid_run by (rewrite He; discriminate). reflexivity.
Qed.

Lemma tk_never_raises (f : form) (w : world) :
  fst (UI._submit_single net f var_url var_key w) = Ok tt.
Proof.
  destruct (empty_fields f) as [|m ms] eqn:He.
  - apply (ui_submit_calls net var_url var_key f w He).
  - rewrite ui_invalid_run by (rewrite He; discriminate). reflexivity.
Qed.

Lemma st_shows_failure (f : form) (w : world) (e : exn) :
  empty_fields f = [] ->
  fst (Streamlit.push_customer net base_url api_key (normalised f)
         (mk_world (calls w) [])) = Raise e ->
  shown (snd (Streamlit.submit_record net base_url api_key f w))
  = shown w ++ [St "spinner" [Lit "Submitting…"];
                St "error" [Lit "❌ "; FExc e]].
Proof.
  intros He Hr. unfold Streamlit.submit_record. cbv zeta.
  rewrite streamlit_missing_names, He, streamlit_customer_normalised.
  revert Hr. unfold Streamlit.push_customer, is_Exception.
  run; intros E; inversion E; subst; now rewrite <- app_assoc.
Qed.

Lemma tk_shows_failure (f : form) (w : world) (e : exn) :
  empty_fields f = [] ->
  fst (UI.push_customer net (normalised f) (rstrip_chars (lit "/") var_url)
         (strip var_key) (mk_world (calls w) [])) = Raise e ->
  exists first last,
    shown (snd (UI._submit_single net f var_url var_key w))
    = shown w ++ [LogCb [Lit "Submitting "; FStr first; Lit " "; FStr last;
                         Lit " …"] (lit "info");
                  LogCb [Lit "✘ "; FExc e] (lit "error");
                  CallbackError (NameError (lit "exc"))].
Proof.
  intros He Hr. unfold UI._submit_single. cbv zeta.
  rewrite ui_missing_labels, He, ui_customer_normalised.
  revert Hr. unfold UI.task, UI.push_customer, is_Exception.
  run; intros E; inversion E; subst; do 2 eexists;
    rewrite <- !app_assoc; reflexivity.
Qed.

End Net.

End SingleRecord.

Module StreamlitLoop.

Import ReplayFacts StrFacts.

Lemma progress_of_app (a b : list event) :
  progress_of (a ++ b) = progress_of a ++ progress_of b.
Proof. unfold progress_of. apply flat_map_app. Qed.

Lemma zrange_length (n : nat) : forall i, List.length (zrange i n) = n.
Proof. induction n; intros i; simpl; [reflexivity | now rewrite IHn]. Qed.

Lemma zrange_bounds (n : nat) :
  forall i j, In j (zrange i n) -> i <= j < i + Z.of_nat n.
Proof.
  induction n as [|n IH]; intros i j; simpl; [contradiction|].
  intros [<-|H]; [lia|]. apply IH in H. lia.
Qed.

Section Net.

Variable net : network.
Variables base_url api_key : str.

Local Abbreviation body := (Streamlit.push_all_body net base_url api_key).

Lemma body_run (total i : Z) (c : dict) (ls : list fmt) (n : Z) (w : world) :
  named c ->
  match body total i c (ls, n) w with
  | (Ok (ls', n'), w') =>
      (exists line, ls' = ls ++ [line])
      /\ shown w'
         = shown w ++ [Progress i total [Lit "Processing "; FInt i; Lit "/";
                                         FInt total; Lit "…"];
                       LogArea ls']
  | (Raise e, w') => shown w' = shown w
  end.
Proof.
  intros [H1 H2].
  unfold Streamlit.push_all_body, Streamlit.push_customer.
  run; rewrite <- ?app_assoc; eauto.
Qed.

Lemma loop_run (total : Z) (cs : list dict) :
  Forall named cs ->
  forall (i : Z) (ls : list fmt) (n : Z) (w : world),
    match for_enumerate (body total) i cs (ls, n) w with
    | (Ok (ls', n'), w') =>
        len ls' = len ls + len cs
        /\ progress_of (shown w')
           = progress_of (shown w)
             ++ map (fun j => (j, total)) (zrange i (List.length cs))
    | (Raise e, w') =>
        exists k, (k < List.length cs)%nat
                  /\ progress_of (shown w')
                     = progress_of (shown w)
                       ++ map (fun j => (j, total)) (zrange i k)
    end.
Proof.
  induction 1 as [|c cs Hc Hcs IH]; intros i ls n w.
  - cbn. unfold len; cbn. rewrite app_nil_r. split; [lia | reflexivity].
  - rewrite for_enumerate_cons.
    pose proof (body_run total i c ls n w Hc) as B.
    destruct (body total i c (ls, n) w) as [[[ls1 n1]|e] w1].
    + destruct B as [[line ->] Es].
      specialize (IH (i + 1) (ls ++ [line]) n1 w1).
      destruct (for_enumerate (body total) (i + 1) cs (ls ++ [line], n1) w1)
        as [[[ls2 n2]|e] w2].
      * destruct IH as [E1 E2]. rewrite E2, Es, progress_of_app.
        rewrite E1, !len_app. unfold len; cbn [List.length].
        split; [lia|]. cbn. now rewrite <- app_assoc.
      * destruct IH as (k & Hk & E). exists (S k). split; [cbn; lia|].
        rewrite E, Es, progress_of_app. cbn. now rewrite <- app_assoc.
    + exists 0%nat. split; [cbn; lia|]. rewrite B. cbn. now rewrite app_nil_r.
Qed.

Lemma block_run (data : list dict) (w : world) :
  Forall named data ->
  match Streamlit.push_all_records net base_url api_key data w with
  | (Ok (ls, n), w') =>
      len ls = len data
      /\ progress_of (shown w')
         = progress_of (shown w)
           ++ map (fun j => (j, len data)) (zrange 1 (List.length data))
      /\ last (shown w') ProgressEmpty
         = (if n =? len data
            then St "success" [Lit "🎉 All "; FInt n;
                               Lit " records pushed successfully!"]
            else St "warning"
                   [Lit "⚠️ "; FInt n; Lit "/"; FInt (len data);
                    Lit " records pushed. Check the log above for failures."])
  | (Raise e, w') =>
      exists k, (k < List.length data)%nat
                /\ progress_of (shown w')
                   = progress_of (shown w)
                     ++ map (fun j => (j, len data)) (zrange 1 k)
  end.
Proof.
  intros Hd.
  destruct (Streamlit.push_all_records net base_url api_key data w)
    as [r wf] eqn:Er.
  unfold Streamlit.push_all_records, bind, emit, ret in Er.
  cbn [calls shown] in Er.
  match type of Er with
  | context [for_enumerate ?b ?i ?d ?s ?w0] =>
      pose proof (loop_run (len data) data Hd i [] 0 w0) as L;
      destruct (for_enumerate b i d s w0) as [[[ls n]|e] w1]
  end; cbn [shown snd fst] in L, Er.
  - destruct L as [E1 E2]. rewrite progress_of_app in E2. cbn in E2.
    rewrite app_nil_r in E2.
    destruct (n =? len data) eqn:En; inversion Er; subst; cbn [shown];
      rewrite !progress_of_app, E2, last_last, En; cbn; rewrite !app_nil_r;
      (split; [unfold len in *; cbn in *; lia | split; reflexivity]).
  - destruct L as (k & Hk & E). rewrite progress_of_app in E. cbn in E.
    rewrite app_nil_r in E. inversion Er; subst. eauto.
Qed.

End Net.

End StreamlitLoop.

Module Urls.

Import ReplayFacts StrFacts.

Lemma rstrip_by_drop (p : char -> bool) (s : str) (c : char) :
  p c = true -> rstrip_by p (s ++ [c]) = rstrip_by p s.
Proof.
  intros Hc. unfold rstrip_by. rewrite rev_app_distr. cbn. now rewrite Hc.
Qed.

Lemma rstrip_slashes (s : str) (n : nat) :
  rstrip_chars (lit "/") (s ++ repeat 47%N n) = rstrip_chars (lit "/") s.
Proof.
  induction n as [|n IH]; cbn [repeat].
  - now rewrite app_nil_r.
  - rewrite repeat_cons, app_assoc. unfold rstrip_chars in *.
    rewrite rstrip_by_drop; [exact IH | reflexivity].
Qed.

Lemma rstrip_by_clean (p : char -> bool) (s : str) :
  starts_clean p (rev (rstrip_by p s)) = true.
Proof. unfold rstrip_by. rewrite rev_involutive. apply lstrip_by_clean. Qed.

Lemma rstrip_chars_no_slash (s : str) :
  starts_clean is_slash (rev (rstrip_chars (lit "/") s)) = true.
Proof.
  pose proof (rstrip_by_clean (fun c => existsb (N.eqb c) (lit "/")) s) as H.
  unfold rstrip_chars.
  destruct (rev (rstrip_by _ s)) as [|c t]; [reflexivity|].
  cbn in *. unfold is_slash. now rewrite orb_false_r in H.
Qed.

End Urls.

Module Rows.

Import ReplayFacts StrFacts.

Lemma collect_map {A B} (f : A -> B) (xs : list A) :
  collect (fun x => inr (f x)) xs = inr (map f xs).
Proof. induction xs as [|x xs IH]; cbn; [reflexivity | now rewrite IH]. Qed.

Lemma collect_ext {A B} (f g : A -> uncaught + B) (xs : list A) :
  (forall x, In x xs -> f x = g x) -> collect f xs = collect g xs.
Proof.
  induction xs as [|x xs IH]; intros H; cbn; [reflexivity|].
  rewrite (H x) by (left; reflexivity).
  rewrite IH by (intros y Hy; apply H; right; exact Hy). reflexivity.
Qed.

Lemma collect_length {A B} (f : A -> uncaught + B) (xs : list A)
  (ys : list B) :
  collect f xs = inr ys -> List.length ys = List.length xs.
Proof.
  revert ys. induction xs as [|x xs IH]; intros ys; cbn.
  - intros E; inversion E; reflexivity.
  - destruct (f x); [discriminate|].
    destruct (collect f xs); [discriminate|].
    intros E; inversion E; subst. cbn. now rewrite (IH l).
Qed.

Lemma lookup_of_strings (d : dict) (col : str) :
  Csv.lookup (of_strings d) col = option_map Some (dict_get d col).
Proof.
  induction d as [|[k v] d IH]; cbn; [reflexivity|].
  destruct (eqb k col); [reflexivity | exact IH].
Qed.

Lemma get_of_strings (d : dict) (col : str) :
  Csv.get (of_strings d) col = Some (dict_get_default d col []).
Proof.
  unfold Csv.get, dict_get_default. rewrite lookup_of_strings.
  destruct (dict_get d col); reflexivity.
Qed.

(** On rows of strings the comprehension is the [normalise] of the batch
    loops. *)
Lemma normalise_rows_of_strings (rows : list dict) :
  normalise_rows Streamlit.REQUIRED_COLS (map of_strings rows)
  = inr (Streamlit.normalise rows).
Proof.
  unfold normalise_rows, Streamlit.normalise.
  induction rows as [|r rows IH]; cbn [map collect]; [reflexivity|].
  rewrite IH.
  assert (E : normalise_row Streamlit.REQUIRED_COLS (of_strings r)
              = inr (map (fun col => (col, strip (dict_get_default r col [])))
                         Streamlit.REQUIRED_COLS)).
  { unfold normalise_row. rewrite <- collect_map. apply collect_ext.
    intros col _. unfold stripped_cell. now rewrite get_of_strings. }
  now rewrite E.
Qed.

Lemma normalise_row_readable (cols : list str) (r : Csv.row) :
  readable cols r = true ->
  normalise_row cols r
  = inr (map (fun col => (col, strip (match Csv.get r col with
                                      | Some s => s
                                      | None => []
                                      end))) cols).
Proof.
  unfold readable, normalise_row. induction cols as [|c cols IH]; cbn.
  - reflexivity.
  - intros H. apply andb_true_iff in H. destruct H as [Hc H].
    unfold stripped_cell at 1. destruct (Csv.get r c); [|discriminate].
    now rewrite (IH H).
Qed.

Lemma normalise_row_unreadable (cols : list str) (r : Csv.row) :
  readable cols r = false ->
  normalise_row cols r
  = inl (AttributeError (lit "'NoneType' object has no attribute 'strip'")).
Proof.
  unfold readable, normalise_row. induction cols as [|c cols IH]; cbn.
  - discriminate.
  - unfold stripped_cell at 1. destruct (Csv.get r c); cbn; [|reflexivity].
    intros H. now rewrite (IH H).
Qed.

Lemma normalise_rows_readable (cols : list str) (rows : list Csv.row) :
  forallb (readable cols) rows = true ->
  normalise_rows cols rows = inr (loaded cols rows).
Proof.
  unfold normalise_rows, loaded. induction rows as [|r rows IH]; cbn.
  - reflexivity.
  - intros H. apply andb_true_iff in H. destruct H as [Hr H].
    now rewrite (normalise_row_readable cols r Hr), (IH H).
Qed.

Lemma normalise_rows_unreadable (cols : list str) (rows : list Csv.row) :
  forallb (readable cols) rows = false ->
  normalise_rows cols rows
  = inl (AttributeError (lit "'NoneType' object has no attribute 'strip'")).
Proof.
  unfold normalise_rows. induction rows as [|r rows IH]; cbn.
  - discriminate.
  - destruct (readable cols r) eqn:Hr; cbn.
    + intros H. now rewrite (normalise_row_readable cols r Hr), (IH H).
    + intros _. now rewrite (normalise_row_unreadable cols r Hr).
Qed.

(** Looking a column up in a row built over the columns. *)
Lemma dict_get_built (f : str -> str) (cols : list str) (col : str) :
  In col cols -> dict_get (map (fun c => (c, f c)) cols) col = Some (f col).
Proof.
  induction cols as [|c cols IH]; cbn; [contradiction|].
  destruct (eqb c col) eqn:E.
  - apply eqb_eq in E. now subst.
  - intros [->|H]; [now rewrite eqb_refl in E | now apply IH].
Qed.

Lemma dict_get_built_absent (f : str -> str) (cols : list str) (col : str) :
  ~ In col cols -> dict_get (map (fun c => (c, f c)) cols) col = None.
Proof.
  induction cols as [|c cols IH]; cbn; [reflexivity|].
  intros H. destruct (eqb c col) eqn:E.
  - apply eqb_eq in E. tauto.
  - apply IH. tauto.
Qed.

End Rows.

Module Loading.

Import ReplayFacts StrFacts Rows.

Lemma loaded_length (cols : list str) (rows : list Csv.row) :
  List.length (loaded cols rows) = List.length rows.
Proof. unfold loaded. apply length_map. Qed.

Lemma loaded_clean (rows : list Csv.row) :
  Forall clean_record (loaded UI.CSV_COLUMNS rows).
Proof.
  apply Forall_forall. intros d Hd. unfold loaded in Hd.
  apply in_map_iff in Hd. destruct Hd as (r & <- & _).
  split.
  - rewrite map_map. cbn [fst]. apply map_id.
  - rewrite map_map. cbn [snd]. apply Forall_forall. intros v Hv.
    apply in_map_iff in Hv. destruct Hv as (c & <- & _). apply strip_trimmed.
Qed.

Lemma load_readable (path : str) (first : Csv.row) (rest : list Csv.row)
  (a : TkApp.app) (w : world) :
  forallb (readable UI.CSV_COLUMNS) (first :: rest) = true ->
  let data := loaded UI.CSV_COLUMNS (first :: rest) in
  TkApp._load_csv path (Csv.Rows (first :: rest)) a w
  = (inr tt,
     TkApp.with_btn_push_csv "normal"
       (TkApp.with_var_row_count
          [FInt (len data); Lit " record";
           Lit (if len data =? 1 then "" else "s"); Lit " loaded."]
          (TkApp.with_tree (preview_of data) (TkApp.with_csv_data data a))),
     mk_world (calls w)
       (shown w ++ missing_warning first
        ++ [LogCb [Lit "Loaded "; FInt (len data); Lit " records from: ";
                   FStr path] (lit "info")])).
Proof.
  intros H data. unfold TkApp._load_csv, TkApp._populate_preview.
  rewrite (normalise_rows_readable _ _ H). fold data.
  unfold missing_warning.
  destruct (missing_cols UI.CSV_COLUMNS first); unfold_handler; cbn;
    rewrite <- ?app_assoc; reflexivity.
Qed.

Lemma load_unreadable (path : str) (first : Csv.row) (rest : list Csv.row)
  (a : TkApp.app) (w : world) :
  forallb (readable UI.CSV_COLUMNS) (first :: rest) = false ->
  TkApp._load_csv path (Csv.Rows (first :: rest)) a w
  = (inl (AttributeError (lit "'NoneType' object has no attribute 'strip'")),
     a,
     mk_world (calls w) (shown w ++ missing_warning first)).
Proof.
  intros H. unfold TkApp._load_csv.
  rewrite (normalise_rows_unreadable _ _ H). unfold missing_warning.
  destruct (missing_cols UI.CSV_COLUMNS first); unfold_handler; cbn;
    rewrite ?app_nil_r; destruct w; reflexivity.
Qed.

End Loading.

Module Pushing.

Import ReplayFacts.
Section Net.

Variable net : network.

(** [push_batch] with a [done_cb] that is only recorded is the [push_batch]
    of the batch loops. *)
Lemma push_batch_recorded (customers : list dict) (base_url api_key : str)
  (a : TkApp.app) (w : world) :
  TkApp.push_batch net customers base_url api_key
    (fun ok total => lift (emit (DoneCb ok total))) a w
  = lift (UI.push_batch net customers base_url api_key) a w.
Proof.
  unfold TkApp.push_batch, UI.push_batch, tbind, lift, bind.
  destruct (for_enumerate _ 1 customers 0 w) as [[ok|e] w1]; reflexivity.
Qed.

Lemma push_csv_no_data (a : TkApp.app) (w : world) :
  TkApp._csv_data a = [] -> TkApp._push_csv net a w = (inr tt, a, w).
Proof.
  intros H. unfold TkApp._push_csv, tbind, get_state. now rewrite H.
Qed.

(** What [_push_csv] does in terms of the loop of [push_batch]. *)
Lemma push_csv_run (a : TkApp.app) (w : world) :
  TkApp._csv_data a <> [] ->
  let data := TkApp._csv_data a in
  let start :=
    LogCb [Lit "─── Starting batch push of "; FInt (len data);
           Lit " records ───"] (lit "warn") in
  TkApp._push_csv net a w
  = match for_enumerate
            (UI.push_batch_body net (rstrip_chars (lit "/") (TkApp.var_url a))
               (strip (TkApp.var_key a)) (len data))
            1 data 0 (mk_world (calls w) (shown w ++ [start])) with
    | (Ok ok, w1) =>
        (inr tt,
         TkApp.with_btn_push_csv "normal"
           (TkApp.with_btn_push_csv "disabled" a),
         mk_world (calls w1)
           (shown w1
            ++ [LogCb [Lit "─── Batch complete: "; FInt ok; Lit "/";
                       FInt (len data);
                       Lit " records pushed successfully ───"]
                  (if ok =? len data then lit "ok" else lit "warn");
                MessageBox "showinfo" "Batch Complete"
                  [FInt ok; Lit " of "; FInt (len data);
                   Lit " records pushed successfully."]]))
    | (Raise e, w1) =>
        (inl (Exc e), TkApp.with_btn_push_csv "disabled" a, w1)
    end.
Proof.
  intros H. cbn zeta. unfold TkApp._push_csv, TkApp.push_batch, TkApp.done.
  unfold tbind at 1. unfold get_state at 1.
  destruct (TkApp._csv_data a) as [|c cs] eqn:Ed; [congruence|].
  unfold_handler. cbn [calls shown].
  destruct (for_enumerate _ 1 (c :: cs) 0 _) as [[ok|e] w1]; cbn;
    rewrite <- ?app_assoc; reflexivity.
Qed.

Lemma push_csv_settled (a : TkApp.app) (w : world) :
  TkApp._csv_data a <> [] ->
  forallb settled (outcomes (tk_client net a) (calls w) (TkApp._csv_data a))
  = true ->
  let data := TkApp._csv_data a in
  let ok := created_count (tk_client net a) (calls w) data in
  exists before,
    TkApp._push_csv net a w
    = (inr tt,
       TkApp.with_btn_push_csv "normal"
         (TkApp.with_btn_push_csv "disabled" a),
       mk_world (calls w ++ map (tk_request a) data)
         (before
          ++ [LogCb [Lit "─── Batch complete: "; FInt ok; Lit "/";
                     FInt (len data);
                     Lit " records pushed successfully ───"]
                (if forallb is_Ok (outcomes (tk_client net a) (calls w) data)
                 then lit "ok" else lit "warn");
              MessageBox "showinfo" "Batch Complete"
                [FInt ok; Lit " of "; FInt (len data);
                 Lit " records pushed successfully."]])).
Proof.
  intros Hd Hs data ok. rewrite (push_csv_run a w Hd). cbn zeta. fold data.
  match goal with
  | |- context [for_enumerate ?b ?i ?d ?s ?w0] =>
      destruct (UIFacts.tk_loop_counts net
                  (rstrip_chars (lit "/") (TkApp.var_url a))
                  (strip (TkApp.var_key a)) (len data) data i s w0)
        as [L _];
      cbn zeta in L; destruct (L Hs) as ((ok' & E1 & E2) & E3 & _);
      destruct (for_enumerate b i d s w0) as [r w1]
  end.
  cbn [fst snd] in E1, E3. subst r.
  assert (Eok : ok' = ok) by exact E2.
  assert (Ec : calls w1 = calls w ++ map (tk_request a) data) by exact E3.
  rewrite Eok, Ec. clear L E2 E3 Eok Ec.
  assert (Eq : (ok =? len data)
               = forallb is_Ok (outcomes (tk_client net a) (calls w) data)).
  { pose proof (created_count_all (tk_client net a) data (calls w)) as Hall.
    fold ok in Hall.
    destruct (forallb is_Ok _) eqn:F.
    - apply Z.eqb_eq. now apply Hall.
    - apply Z.eqb_neq. intros E. apply Hall in E. discriminate. }
  exists (shown w1). rewrite Eq. reflexivity.
Qed.

Lemma push_csv_aborts (a : TkApp.app) (w : world) (cs1 : list dict)
  (c : dict) (cs2 : list dict) (e : exn) :
  TkApp._csv_data a = cs1 ++ c :: cs2 ->
  forallb settled (outcomes (tk_client net a) (calls w) cs1) = true ->
  fst (tk_client net a c
         (mk_world (calls w ++ map (tk_request a) cs1) [])) = Raise e ->
  is_RuntimeError e = false ->
  exists w',
    TkApp._push_csv net a w
    = (inl (Exc e), TkApp.with_btn_push_csv "disabled" a, w')
    /\ calls w' = calls w ++ map (tk_request a) (cs1 ++ [c])
    /\ forall w'',
         TkApp.perform net TkApp.PushAllRecords
           (TkApp.with_btn_push_csv "disabled" a) w''
         = (inr tt, TkApp.with_btn_push_csv "disabled" a, w'').
Proof.
  intros Hd Hs He Hr.
  assert (Hne : TkApp._csv_data a <> [])
    by (rewrite Hd; destruct cs1; discriminate).
  rewrite (push_csv_run a w Hne). cbn zeta. rewrite Hd.
  match goal with
  | |- context [for_enumerate ?b ?i _ ?s ?w0] =>
      destruct (CountingLoop.loop_aborts Z str (tk_client net a)
                  (tk_request a) b (fun ok => ok) (fun _ => True)
                  well_formed (fun w => result_tags (shown w)) tag_of
                  (fun c0 hist =>
                     proj2 (UIFacts.tk_push_customer_frame net
                              (rstrip_chars (lit "/") (TkApp.var_url a))
                              (strip (TkApp.var_key a)) c0
                              (mk_world hist [])))
                  (fun i0 c0 s0 w1 _ =>
                     UIFacts.tk_body_step net
                       (rstrip_chars (lit "/") (TkApp.var_url a))
                       (strip (TkApp.var_key a))
                       (len (cs1 ++ c :: cs2)) i0 c0 s0 w1)
                  cs1 c cs2 i s w0 e) as [E1 E2];
        [apply Forall_forall; trivial | exact Hs | exact He | exact Hr |];
      destruct (for_enumerate b i (cs1 ++ c :: cs2) s w0) as [r w1]
  end.
  cbn [fst snd calls] in E1, E2. subst r.
  exists w1. split; [reflexivity|]. split; [exact E2|].
  intros w''. reflexivity.
Qed.

End Net.

End Pushing.

Module Sessions.

Import ReplayFacts StrFacts Validation Loading Pushing.

Lemma built_consistent : consistent TkApp.built.
Proof.
  unfold consistent. cbn. repeat split; try reflexivity.
  - discriminate.
  - constructor.
Qed.

Lemma set_entry_keys (key value : str) (vars : dict) :
  map fst (TkApp.set_entry key value vars) = map fst vars.
Proof.
  induction vars as [|[k v] vars IH]; cbn; [reflexivity|].
  destruct (eqb k key); cbn; [reflexivity | now rewrite IH].
Qed.

Lemma cleared_keys (vars : dict) :
  map fst (map (fun '(key, var) => (key, @nil char)) vars) = map fst vars.
Proof.
  rewrite map_map. apply map_ext. intros [k v]. reflexivity.
Qed.

Lemma consistent_same (a b : TkApp.app) :
  map fst (TkApp.entry_vars b) = map fst (TkApp.entry_vars a) ->
  TkApp.btn_push_csv b = TkApp.btn_push_csv a ->
  TkApp._csv_data b = TkApp._csv_data a ->
  TkApp.tree b = TkApp.tree a ->
  consistent a -> consistent b.
Proof.
  unfold consistent. intros -> -> -> ->. trivial.
Qed.

Section Net.

Variable net : network.

Lemma submit_single_state (a : TkApp.app) (w : world) :
  snd (fst (TkApp._submit_single net a w)) = a.
Proof.
  unfold TkApp._submit_single, tbind, get_state, lift.
  destruct (UI.missing _); [|reflexivity].
  match goal with |- context [match ?c w with _ => _ end] =>
    destruct (c w) as [[?|?] ?] end; reflexivity.
Qed.

(** On the entries of a form, the handler is the [_submit_single] of the
    validation. *)
Lemma submit_single_on_form (f : form) (a : TkApp.app) (w : world) :
  TkApp.entry_vars a = UI.entry_vars f ->
  TkApp._submit_single net a w
  = lift (UI._submit_single net f (TkApp.var_url a) (TkApp.var_key a)) a w.
Proof.
  intros H. unfold TkApp._submit_single, UI._submit_single, tbind, get_state.
  rewrite H. cbv zeta. destruct (UI.missing _); reflexivity.
Qed.

Lemma browse_consistent (path : str) (read : Csv.read) (a : TkApp.app)
  (w : world) :
  consistent a -> consistent (snd (fst (TkApp._browse_csv path read a w))).
Proof.
  intros Ha. unfold TkApp._browse_csv.
  destruct (is_empty path); [exact Ha|].
  unfold tbind at 1. unfold modify at 1.
  assert (Hp : consistent (TkApp.with_var_csv_path path a)) by exact Ha.
  revert Hp. generalize (TkApp.with_var_csv_path path a). clear a Ha.
  intros a Ha.
  destruct read as [message|[|first rest]]; [exact Ha | exact Ha |].
  destruct (forallb (readable UI.CSV_COLUMNS) (first :: rest)) eqn:Hr.
  - rewrite (load_readable path first rest a w Hr). cbn [fst snd].
    destruct Ha as (H1 & _ & _ & _).
    repeat split.
    + exact H1.
    + intros _. discriminate.
    + apply loaded_clean.
  - rewrite (load_unreadable path first rest a w Hr). exact Ha.
Qed.

Lemma push_csv_consistent (a : TkApp.app) (w : world) :
  consistent a -> consistent (snd (fst (TkApp._push_csv net a w))).
Proof.
  intros Ha. destruct (TkApp._csv_data a) as [|c cs] eqn:Ed.
  - now rewrite (push_csv_no_data net a w Ed).
  - assert (Hne : TkApp._csv_data a <> []) by (rewrite Ed; discriminate).
    rewrite (push_csv_run net a w Hne). cbn zeta.
    destruct Ha as (H1 & _ & H3 & H4).
    destruct (for_enumerate _ 1 (TkApp._csv_data a) 0 _) as [[ok|e] w1];
      cbn [fst snd]; repeat split; auto.
Qed.

Lemma perform_consistent (act : TkApp.action) (a : TkApp.app) (w : world) :
  consistent a -> consistent (snd (fst (TkApp.perform net act a w))).
Proof.
  intros Ha. destruct act; cbn [TkApp.perform].
  - apply (consistent_same a); try reflexivity; [|exact Ha].
    apply set_entry_keys.
  - exact Ha.
  - exact Ha.
  - apply (consistent_same a); try reflexivity; [|exact Ha].
    apply cleared_keys.
  - now rewrite submit_single_state.
  - now apply browse_consistent.
  - unfold tbind, get_state.
    destruct (String.eqb _ _); [now apply push_csv_consistent | exact Ha].
Qed.

Lemma session_consistent (acts : list TkApp.action) :
  forall a w, consistent a -> consistent (fst (TkApp.session net acts a w)).
Proof.
  induction acts as [|act acts IH]; intros a w Ha; cbn; [exact Ha|].
  pose proof (perform_consistent act a w Ha) as H.
  destruct (TkApp.perform net act a w) as [[r a'] w']. cbn in H.
  now apply IH.
Qed.

End Net.

End Sessions.

(* ------------------------------------------------------------------ *)
(** * Further properties: the clients and the single-record handlers *)

Module ClientProperties.

Import ReplayFacts StrFacts Validation SingleRecord Urls Samples.

(** X1.  The two single-record handlers never raise: whatever the form
    holds and whatever the network does, they return.  When the form is
    complete and [push_customer] raises, be it a rejection or an exception
    of the library, the Streamlit handler shows that exception as its one
    error.  The Tk handler logs it as an error, and that is all the operator
    sees of it: the error box is a callback that reads [exc] once the
    [except] clause has unbound it, so that it ends in a [NameError] in the
    event loop and no box appears. *)
Theorem single_record_handlers_capture_failures
  (net : network) (base_url api_key var_url var_key : str)
  (f : form) (w : world) (e : exn) :
  fst (Streamlit.submit_record net base_url api_key f w) = Ok tt
  /\ fst (UI._submit_single net f var_url var_key w) = Ok tt
  /\ (empty_fields f = [] ->
      fst (Streamlit.push_customer net base_url api_key (normalised f)
             (mk_world (calls w) [])) = Raise e ->
      shown (snd (Streamlit.submit_record net base_url api_key f w))
      = shown w ++ [St "spinner" [Lit "Submitting…"];
                    St "error" [Lit "❌ "; FExc e]])
  /\ (empty_fields f = [] ->
      fst (UI.push_customer net (normalised f)
             (rstrip_chars (lit "/") var_url) (strip var_key)
             (mk_world (calls w) [])) = Raise e ->
      exists first last,
        shown (snd (UI._submit_single net f var_url var_key w))
        = shown w ++ [LogCb [Lit "Submitting "; FStr first; Lit " ";
                             FStr last; Lit " …"] (lit "info");
                      LogCb [Lit "✘ "; FExc e] (lit "error");
                      CallbackError (NameError (lit "exc"))]).
Proof.
  split; [apply st_never_raises|].
  split; [apply tk_never_raises|].
  split; [apply st_shows_failure | apply tk_shows_failure].
Qed.

Lemma single_record_handlers_capture_failures_witness :
  fst (Streamlit.submit_record flaky endpoint secret padded fresh) = Ok tt
  /\ fst (UI._submit_single flaky padded endpoint secret fresh) = Ok tt
  /\ shown (snd (Streamlit.submit_record flaky endpoint secret padded fresh))
     = [St "spinner" [Lit "Submitting…"];
        St "error" [Lit "❌ ";
                    FExc (RequestException ConnectionError
                            (lit "Connection refused"))]]
  /\ exists first last,
       shown (snd (UI._submit_single flaky padded endpoint secret fresh))
       = [LogCb [Lit "Submitting "; FStr first; Lit " "; FStr last;
                 Lit " …"] (lit "info");
          LogCb [Lit "✘ ";
                 FExc (RequestException ConnectionError
                         (lit "Connection refused"))] (lit "error");
          CallbackError (NameError (lit "exc"))].
Proof.
  destruct (single_record_handlers_capture_failures flaky endpoint secret
              endpoint secret padded fresh
              (RequestException ConnectionError (lit "Connection refused")))
    as (E1 & E2 & E3 & E4).
  split; [exact E1|]. split; [exact E2|].
  split; [apply E3; reflexivity | apply E4; reflexivity].
Defined.

(** X2.  Slashes at the end of the base URL make no difference: the
    Streamlit client and the Tk single-record handler behave the same with
    and without them, and the URL they request is the base URL without its
    trailing slashes followed by [/api/customers]. *)
Theorem trailing_slashes_are_ignored
  (net : network) (base_url api_key var_key : str) (n : nat)
  (c : dict) (f : form) (w : world) :
  Streamlit.push_customer net (base_url ++ repeat 47%N n) api_key c w
  = Streamlit.push_customer net base_url api_key c w
  /\ UI._submit_single net f (base_url ++ repeat 47%N n) var_key w
     = UI._submit_single net f base_url var_key w
  /\ calls (snd (Streamlit.push_customer net base_url api_key c w))
     = calls w
       ++ [ui_request (rstrip_chars (lit "/") base_url) api_key c]
  /\ starts_clean is_slash (rev (rstrip_chars (lit "/") base_url)) = true
  /\ (exists slashes,
        base_url = rstrip_chars (lit "/") base_url ++ slashes
        /\ forallb is_slash slashes = true).
Proof.
  split.
  { unfold Streamlit.push_customer. now rewrite rstrip_slashes. }
  split.
  { unfold UI._submit_single. now rewrite rstrip_slashes. }
  split.
  { apply (StreamlitFacts.st_push_customer_frame net base_url api_key c w). }
  split; [apply rstrip_chars_no_slash|].
  unfold rstrip_chars.
  destruct (rstrip_by_split (fun ch => existsb (N.eqb ch) (lit "/")) base_url)
    as (r & E & F).
  exists r. split; [exact E|].
  rewrite forallb_forall in *. intros x Hx. specialize (F x Hx).
  cbn in F. unfold is_slash. now rewrite orb_false_r in F.
Qed.

(** X3.  Every call of [push_customer] makes exactly one request, whether
    it returns or raises: a POST of the record, unchanged, to
    [<base>/api/customers] with the JSON content type, the key in
    [X-API-Key] and a timeout of 10.  The Tk and Streamlit clients show
    nothing themselves, and what a client returns or raises depends on the
    requests made so far only. *)
Theorem push_customer_makes_one_request
  (net : network) (base_url api_key : str) (c : dict) (w : world) :
  calls (snd (Integration.push_customer net c w))
  = calls w ++ [integration_request c]
  /\ snd (UI.push_customer net c base_url api_key w)
     = mk_world (calls w ++ [ui_request base_url api_key c]) (shown w)
  /\ snd (Streamlit.push_customer net base_url api_key c w)
     = mk_world (calls w ++ [streamlit_request base_url api_key c]) (shown w)
  /\ fst (Integration.push_customer net c w)
     = fst (Integration.push_customer net c (mk_world (calls w) []))
  /\ fst (UI.push_customer net c base_url api_key w)
     = fst (UI.push_customer net c base_url api_key (mk_world (calls w) []))
  /\ fst (Streamlit.push_customer net base_url api_key c w)
     = fst (Streamlit.push_customer net base_url api_key c
              (mk_world (calls w) [])).
Proof.
  split; [apply IntegrationFacts.cli_push_customer_frame|].
  split; [unfold UI.push_customer; run; reflexivity|].
  split; [unfold Streamlit.push_customer; run; reflexivity|].
  split; [apply IntegrationFacts.cli_push_customer_frame|].
  split; [apply UIFacts.tk_push_customer_frame|].
  apply StreamlitFacts.st_push_customer_frame.
Qed.

(** X4.  On a 201 whose body is JSON the Tk client returns the decoded
    body as it is, whatever it holds.  The command-line client returns it
    only when it is an object with [id], [first_name] and [last_name]; for
    any other body it raises, and not a [RuntimeError]. *)
Theorem created_record_is_checked_by_the_cli_only
  (net : network) (base_url api_key : str) (c : dict) (w : world)
  (r : response) (v : jval) :
  status_code r = 201 ->
  body_json r = inr v ->
  (net (calls w) (ui_request base_url api_key c) = Responded r ->
   fst (UI.push_customer net c base_url api_key w) = Ok v)
  /\ (net (calls w) (integration_request c) = Responded r ->
      if well_formed v
      then fst (Integration.push_customer net c w) = Ok v
      else exists e, fst (Integration.push_customer net c w) = Raise e
                     /\ is_RuntimeError e = false).
Proof.
  intros Hs Hb. split; intros Hn.
  - unfold UI.push_customer, bind, post. cbv zeta.
    change {| url := base_url ++ lit "/api/customers";
              json := c;
              headers := [(lit "Content-Type", lit "application/json");
                          (lit "X-API-Key", api_key)];
              timeout := 10 |}
      with (ui_request base_url api_key c).
    rewrite Hn, Hs. cbn. unfold response_json. now rewrite Hb.
  - unfold Integration.push_customer, bind, post.
    change {| url := Integration.BASE_URL ++ lit "/api/customers";
              json := c; headers := Integration.HEADERS; timeout := 10 |}
      with (integration_request c).
    rewrite Hn, Hs. cbn. unfold response_json. rewrite Hb.
    unfold well_formed.
    destruct v as [| | | | |m]; run; eauto.
Qed.

Lemma created_record_is_checked_by_the_cli_only_witness :
  fst (UI.push_customer (always (mk_response 201 (lit "[]") (inr (JArr []))))
         alice endpoint secret fresh) = Ok (JArr [])
  /\ exists e,
       fst (Integration.push_customer
              (always (mk_response 201 (lit "[]") (inr (JArr []))))
              alice fresh) = Raise e
       /\ is_RuntimeError e = false.
Proof.
  destruct (created_record_is_checked_by_the_cli_only
              (always (mk_response 201 (lit "[]") (inr (JArr []))))
              endpoint secret alice fresh
              (mk_response 201 (lit "[]") (inr (JArr []))) (JArr [])
              eq_refl eq_refl) as [HU HI].
  split; [apply HU; reflexivity | apply HI; reflexivity].
Defined.

End ClientProperties.

(* ------------------------------------------------------------------ *)
(** * Further properties: the "Push All Records" block *)

Module PushAllProperties.

Import ReplayFacts StreamlitLoop Samples.

(** X5.  The progress bar of "Push All Records" is updated once for each
    record the loop gets through, with the positions 1, 2, ... in this
    order over the total N of the batch: every position lies between 1
    and N, and all N are shown when the block runs to its end. *)
Theorem progress_counts_up_to_the_total
  (net : network) (base_url api_key : str) (rows : list dict) (w : world) :
  let data := Streamlit.normalise rows in
  let r := Streamlit.push_all_records net base_url api_key data w in
  exists k,
    progress_of (shown (snd r))
    = progress_of (shown w) ++ map (fun j => (j, len data)) (zrange 1 k)
    /\ (forall j, In j (zrange 1 k) -> 1 <= j <= len data)
    /\ (if is_Ok (fst r) then k = List.length data
        else (k < List.length data)%nat).
Proof.
  intros data r.
  pose proof (block_run net base_url api_key data w
                (StreamlitFacts.normalise_named rows)) as B.
  fold r in B. destruct r as [[[ls n]|e] w'].
  - destruct B as (_ & E & _). exists (List.length data).
    split; [exact E|]. split; [|reflexivity].
    intros j Hj. apply zrange_bounds in Hj. unfold len. lia.
  - destruct B as (k & Hk & E). exists k.
    split; [exact E|]. split; [|exact Hk].
    intros j Hj. apply zrange_bounds in Hj. unfold len. lia.
Qed.

(** X6.  When every submission settles for this loop (a created record
    that has an [id], which is all the loop reads of it, or a
    [RuntimeError]), "Push All Records" runs to its end with one log line
    for each record of the batch, created or rejected, and with [ok_count]
    the number of created records. *)
Theorem one_log_line_per_record
  (net : network) (base_url api_key : str) (rows : list dict) (w : world) :
  let data := Streamlit.normalise rows in
  let submit := Streamlit.push_customer net base_url api_key in
  forallb (settled_by has_id) (outcomes submit (calls w) data) = true ->
  exists log_lines,
    fst (Streamlit.push_all_records net base_url api_key data w)
    = Ok (log_lines, created_count submit (calls w) data)
    /\ len log_lines = len data.
Proof.
  intros data submit H.
  destruct (BatchRunner.st_block net base_url api_key data w
              (StreamlitFacts.normalise_named rows) H)
    as ((ls & E) & _).
  exists ls. split; [exact E|].
  pose proof (block_run net base_url api_key data w
                (StreamlitFacts.normalise_named rows)) as B.
  destruct (Streamlit.push_all_records net base_url api_key data w)
    as [[[ls' n]|e] w']; cbn in E; [|discriminate].
  inversion E; subst. apply B.
Qed.

Lemma one_log_line_per_record_witness :
  exists log_lines,
    fst (Streamlit.push_all_records Fixtures.terse endpoint secret
           (Streamlit.normalise [alice; charlie]) fresh)
    = Ok (log_lines, 2)
    /\ len log_lines = 2.
Proof.
  apply (one_log_line_per_record Fixtures.terse endpoint secret
           [alice; charlie] fresh).
  reflexivity.
Defined.

(** X7.  When every submission settles, the last thing "Push All Records"
    shows is its verdict: the success message with N when all N records
    were created, and otherwise the warning with the number created over
    N. *)
Theorem final_message_tells_success_from_failure
  (net : network) (base_url api_key : str) (rows : list dict) (w : world) :
  let data := Streamlit.normalise rows in
  let submit := Streamlit.push_customer net base_url api_key in
  forallb settled (outcomes submit (calls w) data) = true ->
  last (shown (snd (Streamlit.push_all_records net base_url api_key data w)))
       ProgressEmpty
  = if forallb is_Ok (outcomes submit (calls w) data)
    then St "success" [Lit "🎉 All "; FInt (len data);
                       Lit " records pushed successfully!"]
    else St "warning"
           [Lit "⚠️ "; FInt (created_count submit (calls w) data); Lit "/";
            FInt (len data);
            Lit " records pushed. Check the log above for failures."].
Proof.
  intros data submit H.
  destruct (BatchRunner.st_settled net base_url api_key rows w H)
    as ((ls & E) & _).
  pose proof (block_run net base_url api_key data w
                (StreamlitFacts.normalise_named rows)) as B.
  fold data in E.
  destruct (Streamlit.push_all_records net base_url api_key data w)
    as [[[ls' n]|e] w']; cbn in E; [|discriminate].
  inversion E; subst. destruct B as (_ & _ & B). cbn [snd]. rewrite B.
  pose proof (created_count_all submit data (calls w)) as Hall.
  fold submit.
  destruct (forallb is_Ok (outcomes submit (calls w) data)) eqn:F.
  - assert (Ec : created_count submit (calls w) data = len data)
      by now apply Hall.
    now rewrite Ec, Z.eqb_refl.
  - assert (Ec : created_count submit (calls w) data <> len data).
    { intros Ec. apply Hall in Ec. discriminate. }
    apply Z.eqb_neq in Ec. now rewrite Ec.
Qed.

Lemma final_message_tells_success_from_failure_witness :
  last (shown (snd (Streamlit.push_all_records service endpoint secret
                      (Streamlit.normalise [alice; charlie; bob]) fresh)))
       ProgressEmpty
  = St "warning"
      [Lit "⚠️ "; FInt 2; Lit "/"; FInt 3;
       Lit " records pushed. Check the log above for failures."].
Proof.
  apply (final_message_tells_success_from_failure service endpoint secret
           [alice; charlie; bob] fresh).
  reflexivity.
Defined.

End PushAllProperties.

(* ------------------------------------------------------------------ *)
(** * Further properties: the rows of a CSV file *)

Module RowProperties.

Import ReplayFacts StrFacts Rows Fixtures.

(** X8.  Normalising the rows of a file either gives one record per row,
    each with exactly the given columns in their order, a column holding
    its cell trimmed and the empty string when the row has no such column;
    or, when a cell it reads is [None] (a line shorter than the header),
    raises [AttributeError] and gives nothing. *)
Theorem rows_normalise_or_fail (cols : list str) (rows : list Csv.row) :
  normalise_rows cols rows
  = (if forallb (readable cols) rows
     then inr (loaded cols rows)
     else inl (AttributeError
                 (lit "'NoneType' object has no attribute 'strip'")))
  /\ List.length (loaded cols rows) = List.length rows
  /\ Forall (fun d => map fst d = cols) (loaded cols rows)
  /\ (forall r col,
        In r rows -> In col cols -> Csv.has r col = false ->
        exists d, In d (loaded cols rows) /\ dict_get d col = Some []).
Proof.
  split.
  { destruct (forallb (readable cols) rows) eqn:H.
    - now apply normalise_rows_readable.
    - now apply normalise_rows_unreadable. }
  split; [apply Loading.loaded_length|].
  split.
  { apply Forall_forall. intros d Hd. unfold loaded in Hd.
    apply in_map_iff in Hd. destruct Hd as (r & <- & _).
    rewrite map_map. cbn [fst]. apply map_id. }
  intros r col Hr Hc Hh.
  exists (map (fun c => (c, strip (match Csv.get r c with
                                   | Some s => s
                                   | None => []
                                   end))) cols).
  split.
  - unfold loaded. apply in_map_iff. exists r. split; [reflexivity | exact Hr].
  - rewrite (dict_get_built
               (fun c => strip (match Csv.get r c with
                                | Some s => s
                                | None => []
                                end)) cols col Hc).
    unfold Csv.get, Csv.has in *. destruct (Csv.lookup r col);
      [discriminate | reflexivity].
Qed.

Lemma rows_normalise_or_fail_witness :
  normalise_rows UI.CSV_COLUMNS [ada; short]
  = inl (AttributeError (lit "'NoneType' object has no attribute 'strip'"))
  /\ exists d, In d (loaded UI.CSV_COLUMNS [ada; bea])
               /\ dict_get d (lit "dob") = Some [].
Proof.
  destruct (rows_normalise_or_fail UI.CSV_COLUMNS [ada; short])
    as (E & _).
  destruct (rows_normalise_or_fail UI.CSV_COLUMNS [ada; bea])
    as (_ & _ & _ & H).
  split; [exact E|].
  apply (H ada (lit "dob")); [left; reflexivity | | reflexivity].
  cbn. tauto.
Defined.

Lemma loaded_fixpoint (cols : list str) (rows : list Csv.row) :
  loaded cols (map of_strings (loaded cols rows)) = loaded cols rows.
Proof.
  unfold loaded. rewrite !map_map. apply map_ext. intros r.
  apply map_ext_in. intros col Hc. f_equal.
  rewrite get_of_strings. unfold dict_get_default.
  rewrite (dict_get_built
             (fun c => strip (match Csv.get r c with
                              | Some s => s
                              | None => []
                              end)) cols col Hc).
  apply strip_idempotent.
Qed.

Lemma of_strings_readable (cols : list str) (data : list dict) :
  forallb (readable cols) (map of_strings data) = true.
Proof.
  apply forallb_forall. intros r Hr. apply in_map_iff in Hr.
  destruct Hr as (d & <- & _). apply forallb_forall. intros col _.
  now rewrite get_of_strings.
Qed.

(** X9.  Normalising is idempotent: the records a file was normalised
    to, read as rows again, normalise to themselves. *)
Theorem normalising_twice_changes_nothing
  (cols : list str) (rows : list Csv.row) (data : list dict) :
  normalise_rows cols rows = inr data ->
  normalise_rows cols (map of_strings data) = inr data.
Proof.
  intros H.
  destruct (forallb (readable cols) rows) eqn:Hr.
  - rewrite (normalise_rows_readable cols rows Hr) in H.
    inversion H; subst.
    rewrite (normalise_rows_readable _ _ (of_strings_readable cols _)).
    change (@inr uncaught _
              (loaded cols (map of_strings (loaded cols rows)))
            = inr (loaded cols rows)).
    now rewrite loaded_fixpoint.
  - rewrite (normalise_rows_unreadable cols rows Hr) in H. discriminate.
Qed.

Lemma normalising_twice_changes_nothing_witness :
  normalise_rows UI.CSV_COLUMNS [ada; bea]
  = inr [record_of "Ada" "Byron" "1 Main St" "5550001";
         record_of "Bea" "Cole" "" "5550002"]
  /\ normalise_rows UI.CSV_COLUMNS
       (map of_strings [record_of "Ada" "Byron" "1 Main St" "5550001";
                        record_of "Bea" "Cole" "" "5550002"])
     = inr [record_of "Ada" "Byron" "1 Main St" "5550001";
            record_of "Bea" "Cole" "" "5550002"].
Proof.
  split; [reflexivity|].
  apply (normalising_twice_changes_nothing UI.CSV_COLUMNS [ada; bea]).
  reflexivity.
Defined.

(** X10.  The form and the file agree: a line whose nine cells are what
    was typed into the form is normalised to the record the single-record
    handlers submit for that form. *)
Theorem form_and_file_normalise_alike (f : form) :
  normalise_rows Streamlit.REQUIRED_COLS [of_strings (typed f)]
  = inr [Streamlit.customer f]
  /\ normalise_rows UI.CSV_COLUMNS [of_strings (typed f)]
     = inr [UI.customer (UI.entry_vars f)]
  /\ Streamlit.normalise [typed f] = [Streamlit.customer f].
Proof.
  assert (E : Streamlit.normalise [typed f] = [Streamlit.customer f])
    by (destruct f; reflexivity).
  split; [|split; [|exact E]].
  - rewrite <- E. apply (normalise_rows_of_strings [typed f]).
  - change UI.CSV_COLUMNS with Streamlit.REQUIRED_COLS.
    change (UI.customer (UI.entry_vars f)) with (Streamlit.customer f).
    rewrite <- E. apply (normalise_rows_of_strings [typed f]).
Qed.

End RowProperties.

(* ------------------------------------------------------------------ *)
(** * Further properties: the Tk application *)

Module TkProperties.

Import ReplayFacts StrFacts Rows Loading Pushing Sessions Fixtures.

(** X11.  Choosing a file whose rows can all be read loads it, even when
    its header lacks required columns (they are only warned about): the
    application then holds one record per row, each with exactly the nine
    columns and trimmed values, previews the first five, and enables "Push
    All Records".  No request is made. *)
Theorem browse_loads_readable_file
  (path : str) (first : Csv.row) (rest : list Csv.row)
  (a : TkApp.app) (w : world) :
  path <> [] ->
  forallb (readable UI.CSV_COLUMNS) (first :: rest) = true ->
  let data := loaded UI.CSV_COLUMNS (first :: rest) in
  let r := TkApp._browse_csv path (Csv.Rows (first :: rest)) a w in
  let a' := snd (fst r) in
  fst (fst r) = inr tt
  /\ TkApp._csv_data a' = data
  /\ List.length data = S (List.length rest)
  /\ Forall clean_record data
  /\ TkApp.tree a' = preview_of data
  /\ (List.length (TkApp.tree a') <= 5)%nat
  /\ TkApp.btn_push_csv a' = "normal"%string
  /\ TkApp.var_csv_path a' = path
  /\ TkApp.entry_vars a' = TkApp.entry_vars a
  /\ snd r
     = mk_world (calls w)
         (shown w ++ missing_warning first
          ++ [LogCb [Lit "Loaded "; FInt (len data);
                     Lit " records from: "; FStr path] (lit "info")]).
Proof.
  intros Hp Hr data r a'.
  assert (Er : r = (inr tt,
                    TkApp.with_btn_push_csv "normal"
                      (TkApp.with_var_row_count
                         [FInt (len data); Lit " record";
                          Lit (if len data =? 1 then "" else "s");
                          Lit " loaded."]
                         (TkApp.with_tree (preview_of data)
                            (TkApp.with_csv_data data
                               (TkApp.with_var_csv_path path a)))),
                    mk_world (calls w)
                      (shown w ++ missing_warning first
                       ++ [LogCb [Lit "Loaded "; FInt (len data);
                                  Lit " records from: "; FStr path]
                             (lit "info")]))).
  { unfold r, TkApp._browse_csv.
    destruct path as [|ch path]; [congruence|]. cbn [is_empty].
    unfold tbind at 1. unfold modify at 1.
    now rewrite (load_readable _ first rest _ w Hr). }
  subst a'. rewrite Er. cbn [fst snd]. clear Er r.
  split; [reflexivity|]. split; [reflexivity|].
  split; [unfold data; now rewrite loaded_length|].
  split; [apply loaded_clean|].
  split; [reflexivity|].
  split.
  { cbn [TkApp.tree TkApp.with_btn_push_csv TkApp.with_var_row_count
         TkApp.with_tree].
    unfold preview_of. rewrite length_map, length_firstn. lia. }
  repeat split.
Qed.

Lemma browse_loads_readable_file_witness :
  TkApp._csv_data
    (snd (fst (TkApp._browse_csv path (Csv.Rows [ada; bea]) TkApp.built
                 fresh)))
  = [record_of "Ada" "Byron" "1 Main St" "5550001";
     record_of "Bea" "Cole" "" "5550002"]
  /\ TkApp.btn_push_csv
       (snd (fst (TkApp._browse_csv path (Csv.Rows [ada; bea]) TkApp.built
                    fresh)))
     = "normal"%string.
Proof.
  assert (Hp : path <> []) by discriminate.
  destruct (browse_loads_readable_file path ada [bea] TkApp.built fresh Hp
              eq_refl) as (_ & E1 & _ & _ & _ & _ & E2 & _).
  split; [exact E1 | exact E2].
Defined.

(** X12.  A file that cannot be loaded leaves what was loaded before
    alone.  Cancelling the dialog changes nothing at all.  A file that
    cannot be read, or has no data rows, is reported in one message box.
    A file with a line shorter than the header makes [_load_csv] raise
    [AttributeError] after its warning about missing columns.  In each of
    these cases the records, the preview, the record count and the state of
    "Push All Records" stay what they were, and no request is made. *)
Theorem browse_failure_keeps_loaded_data
  (path : str) (read : Csv.read) (a : TkApp.app) (w : world) :
  TkApp._browse_csv [] read a w = (inr tt, a, w)
  /\ (path <> [] ->
      match read with
      | Csv.Unreadable message =>
          TkApp._browse_csv path read a w
          = (inr tt, TkApp.with_var_csv_path path a,
             mk_world (calls w)
               (shown w ++ [MessageBox "showerror" "CSV Error"
                              [Lit "Could not read file:\n";
                               FStr message]]))
      | Csv.Rows [] =>
          TkApp._browse_csv path read a w
          = (inr tt, TkApp.with_var_csv_path path a,
             mk_world (calls w)
               (shown w ++ [MessageBox "showwarning" "Empty File"
                              [Lit "The CSV file contains no data rows."]]))
      | Csv.Rows (first :: rest) =>
          forallb (readable UI.CSV_COLUMNS) (first :: rest) = false ->
          TkApp._browse_csv path read a w
          = (inl (AttributeError
                    (lit "'NoneType' object has no attribute 'strip'")),
             TkApp.with_var_csv_path path a,
             mk_world (calls w) (shown w ++ missing_warning first))
      end).
Proof.
  split; [reflexivity|]. intros Hp.
  destruct path as [|ch path]; [congruence|].
  destruct read as [message|[|first rest]]; [reflexivity | reflexivity |].
  intros Hr. unfold TkApp._browse_csv. cbn [is_empty].
  unfold tbind at 1. unfold modify at 1.
  now rewrite (load_unreadable _ first rest _ w Hr).
Qed.

Lemma browse_failure_keeps_loaded_data_witness :
  TkApp._browse_csv path (Csv.Rows [ada; short]) with_two_rows fresh
  = (inl (AttributeError (lit "'NoneType' object has no attribute 'strip'")),
     TkApp.with_var_csv_path path with_two_rows,
     mk_world []
       [MessageBox "showwarning" "Missing Columns"
          [Lit "CSV is missing required columns:\n"; FStr (lit "dob")]]).
Proof.
  assert (Hp : path <> []) by discriminate.
  destruct (browse_failure_keeps_loaded_data path (Csv.Rows [ada; short])
              with_two_rows fresh) as [_ H].
  apply (H Hp). reflexivity.
Defined.

(** X13.  Whatever the operator does, in any order and against any
    service, the application stays consistent: the form keeps its nine
    entries, every loaded record has exactly the nine columns with trimmed
    values, the preview shows the first five loaded records, and "Push All
    Records" is enabled only while records are loaded (so the guard of
    [_push_csv] against an empty batch never fires from the button). *)
Theorem every_session_is_consistent
  (net : network) (acts : list TkApp.action) (w : world) :
  consistent (fst (TkApp.session net acts TkApp.built w)).
Proof. apply session_consistent, built_consistent. Qed.

(** X14.  A batch pushed from the CSV tab in which every submission
    settles: each loaded record is submitted once, in file order, to the
    base URL without its trailing slashes; the completion is logged with
    the number created over the total, tagged [ok] when every record was
    created and [warn] otherwise, then announced in a message box; and
    "Push All Records" is enabled again. *)
Theorem push_csv_reports_and_reenables
  (net : network) (a : TkApp.app) (w : world) :
  TkApp._csv_data a <> [] ->
  forallb settled (outcomes (tk_client net a) (calls w) (TkApp._csv_data a))
  = true ->
  let data := TkApp._csv_data a in
  let ok := created_count (tk_client net a) (calls w) data in
  exists before,
    TkApp._push_csv net a w
    = (inr tt,
       TkApp.with_btn_push_csv "normal"
         (TkApp.with_btn_push_csv "disabled" a),
       mk_world (calls w ++ map (tk_request a) data)
         (before
          ++ [LogCb [Lit "─── Batch complete: "; FInt ok; Lit "/";
                     FInt (len data);
                     Lit " records pushed successfully ───"]
                (if forallb is_Ok (outcomes (tk_client net a) (calls w) data)
                 then lit "ok" else lit "warn");
              MessageBox "showinfo" "Batch Complete"
                [FInt ok; Lit " of "; FInt (len data);
                 Lit " records pushed successfully."]])).
Proof. apply push_csv_settled. Qed.

Lemma push_csv_reports_and_reenables_witness :
  exists before,
    TkApp._push_csv accepting with_two_rows fresh
    = (inr tt,
       TkApp.with_btn_push_csv "normal"
         (TkApp.with_btn_push_csv "disabled" with_two_rows),
       mk_world
         [tk_request with_two_rows
            (record_of "Ada" "Byron" "1 Main St" "5550001");
          tk_request with_two_rows (record_of "Bea" "Cole" "" "5550002")]
         (before
          ++ [LogCb [Lit "─── Batch complete: "; FInt 2; Lit "/"; FInt 2;
                     Lit " records pushed successfully ───"] (lit "ok");
              MessageBox "showinfo" "Batch Complete"
                [FInt 2; Lit " of "; FInt 2;
                 Lit " records pushed successfully."]])).
Proof.
  assert (Hd : TkApp._csv_data with_two_rows <> []) by discriminate.
  exact (push_csv_reports_and_reenables accepting with_two_rows fresh Hd
           eq_refl).
Defined.

(** X15.  A batch pushed from the CSV tab whose worker thread is ended by
    an exception that is not a [RuntimeError]: the records after the
    failing one are not submitted, no completion is reported, and "Push All
    Records" stays disabled, so that pressing it does nothing any more. *)
Theorem push_csv_failure_leaves_button_disabled
  (net : network) (a : TkApp.app) (w : world)
  (cs1 : list dict) (c : dict) (cs2 : list dict) (e : exn) :
  TkApp._csv_data a = cs1 ++ c :: cs2 ->
  forallb settled (outcomes (tk_client net a) (calls w) cs1) = true ->
  fst (tk_client net a c
         (mk_world (calls w ++ map (tk_request a) cs1) [])) = Raise e ->
  is_RuntimeError e = false ->
  exists w',
    TkApp._push_csv net a w
    = (inl (Exc e), TkApp.with_btn_push_csv "disabled" a, w')
    /\ calls w' = calls w ++ map (tk_request a) (cs1 ++ [c])
    /\ forall w'',
         TkApp.perform net TkApp.PushAllRecords
           (TkApp.with_btn_push_csv "disabled" a) w''
         = (inr tt, TkApp.with_btn_push_csv "disabled" a, w'').
Proof. apply push_csv_aborts. Qed.

Lemma push_csv_failure_leaves_button_disabled_witness :
  exists w',
    TkApp._push_csv unreachable with_two_rows fresh
    = (inl (Exc (RequestException Timeout (lit "timed out"))),
       TkApp.with_btn_push_csv "disabled" with_two_rows, w')
    /\ calls w'
       = [tk_request with_two_rows
            (record_of "Ada" "Byron" "1 Main St" "5550001")].
Proof.
  destruct (push_csv_failure_leaves_button_disabled unreachable with_two_rows
              fresh [] (record_of "Ada" "Byron" "1 Main St" "5550001")
              [record_of "Bea" "Cole" "" "5550002"]
              (RequestException Timeout (lit "timed out"))
              eq_refl eq_refl eq_refl eq_refl) as (w' & E1 & E2 & _).
  exists w'. split; [exact E1 | exact E2].
Defined.

Lemma cleared_is_built (vars : dict) :
  map fst vars = UI.CSV_COLUMNS ->
  map (fun '(key, var) => (key, @nil char)) vars
  = TkApp.entry_vars TkApp.built.
Proof.
  intros H.
  assert (E : map (fun '(key, var) => (key, @nil char)) vars
              = map (fun key => (key, [])) (map fst vars)).
  { rewrite map_map. apply map_ext. intros [k v]. reflexivity. }
  rewrite E, H. reflexivity.
Qed.

(** X16.  "Clear Form" then "Submit Record": whatever the form held, the
    handler asks for all nine fields, by their labels in the canonical
    order, and makes no request. *)
Theorem cleared_form_is_refused
  (net : network) (a : TkApp.app) (w : world) :
  map fst (TkApp.entry_vars a) = UI.CSV_COLUMNS ->
  (TkApp._clear_form ;;; TkApp._submit_single net) a w
  = (inr tt,
     TkApp.with_entry_vars (TkApp.entry_vars TkApp.built) a,
     mk_world (calls w)
       (shown w ++ [MessageBox "showwarning" "Missing Fields"
                      [Lit "Please fill in:\n";
                       FStr (join [10%N] (map snd UI.FIELDS))]])).
Proof.
  intros H. unfold TkApp._clear_form, tbind, modify.
  rewrite (cleared_is_built _ H). reflexivity.
Qed.

Lemma cleared_form_is_refused_witness :
  (TkApp._clear_form ;;; TkApp._submit_single accepting) with_two_rows fresh
  = (inr tt,
     TkApp.with_entry_vars (TkApp.entry_vars TkApp.built) with_two_rows,
     mk_world []
       [MessageBox "showwarning" "Missing Fields"
          [Lit "Please fill in:\n";
           FStr (join [10%N] (map snd UI.FIELDS))]]).
Proof.
  apply (cleared_form_is_refused accepting with_two_rows fresh).
  reflexivity.
Defined.

(** X17.  The grid of the single-record tab: the labels and entries of
    two different fields never share a cell, a label is never where an
    entry is, each entry sits right of its label within the four columns
    of the header, and every field is below the header row and above the
    row of the buttons. *)
Theorem form_grid_has_no_collision (n i j : Z) :
  0 <= i < n ->
  0 <= j < n ->
  let '((row_i, lbl_i), (_, ent_i)) := TkApp.field_cells i in
  let '((row_j, lbl_j), (_, ent_j)) := TkApp.field_cells j in
  ((row_i, lbl_i) = (row_j, lbl_j) -> i = j)
  /\ ((row_i, ent_i) = (row_j, ent_j) -> i = j)
  /\ (row_i, lbl_i) <> (row_j, ent_j)
  /\ ent_i = lbl_i + 1
  /\ 0 <= lbl_i /\ ent_i <= 3
  /\ 1 <= row_i < TkApp.btn_row n.
Proof.
  intros Hi Hj. unfold TkApp.field_cells, TkApp.btn_row. cbv zeta.
  pose proof (Z.div_mod i 2 ltac:(lia)) as Di.
  pose proof (Z.div_mod j 2 ltac:(lia)) as Dj.
  pose proof (Z.mod_pos_bound i 2 ltac:(lia)) as Mi.
  pose proof (Z.mod_pos_bound j 2 ltac:(lia)) as Mj.
  pose proof (Z.div_le_mono i (n + 1) 2 ltac:(lia) ltac:(lia)) as Le.
  pose proof (Z.div_pos i 2 ltac:(lia) ltac:(lia)) as Pi.
  repeat split; try lia.
  - intros E. inversion E. lia.
  - intros E. inversion E. lia.
  - intros E. inversion E. lia.
Qed.

Lemma form_grid_has_no_collision_witness :
  TkApp.field_cells 8 = ((5, 0), (5, 1))
  /\ TkApp.btn_row (len UI.FIELDS) = 7
  /\ 1 <= 5 < TkApp.btn_row (len UI.FIELDS).
Proof.
  assert (H : 0 <= 8 < len UI.FIELDS) by (cbn; lia).
  pose proof (form_grid_has_no_collision (len UI.FIELDS) 8 8 H H) as G.
  cbn in G. split; [reflexivity|]. split; [reflexivity|]. apply G.
Defined.

End TkProperties.

(* ------------------------------------------------------------------ *)
(** * Further properties: the CSV tab of the Streamlit page *)

Module CsvTabProperties.

Import ReplayFacts StrFacts Rows RowProperties Fixtures.

Lemma loaded_named (rows : list Csv.row) :
  Forall named (loaded Streamlit.REQUIRED_COLS rows).
Proof.
  apply Forall_forall. intros d Hd. unfold loaded in Hd.
  apply in_map_iff in Hd. destruct Hd as (r & <- & _).
  split; discriminate.
Qed.

Lemma loaded_is_normalised (rows : list Csv.row) :
  Streamlit.normalise (loaded Streamlit.REQUIRED_COLS rows)
  = loaded Streamlit.REQUIRED_COLS rows.
Proof.
  pose proof (normalise_rows_of_strings
                (loaded Streamlit.REQUIRED_COLS rows)) as H.
  rewrite (normalise_rows_readable _ _
             (of_strings_readable Streamlit.REQUIRED_COLS _)) in H.
  change (@inr uncaught _
            (loaded Streamlit.REQUIRED_COLS
               (map of_strings (loaded Streamlit.REQUIRED_COLS rows)))
          = inr (Streamlit.normalise (loaded Streamlit.REQUIRED_COLS rows)))
    in H.
  rewrite loaded_fixpoint in H. now inversion H.
Qed.

Section Net.

Variable net : network.
Variables base_url api_key : str.

Local Abbreviation tab := (StreamlitApp.tab_csv net base_url api_key).

Lemma tab_without_push (uploaded_file : option Csv.read) (pushed : bool)
  (g : StreamlitApp.page) (w : world) :
  has_rows uploaded_file && pushed = false ->
  calls (snd (tab uploaded_file pushed g w)) = calls w.
Proof.
  intros H. unfold StreamlitApp.tab_csv.
  destruct uploaded_file as [[message|[|first rest]]|];
    try reflexivity.
  cbn in H. subst pushed.
  unfold_handler. cbn -[missing_cols normalise_rows join len firstn].
  destruct (missing_cols Streamlit.REQUIRED_COLS first);
    destruct (normalise_rows Streamlit.REQUIRED_COLS (first :: rest));
    reflexivity.
Qed.

Lemma tab_pushed (first : Csv.row) (rest : list Csv.row)
  (g : StreamlitApp.page) (w : world) :
  forallb (readable Streamlit.REQUIRED_COLS) (first :: rest) = true ->
  let data := loaded Streamlit.REQUIRED_COLS (first :: rest) in
  forallb settled
    (outcomes (Streamlit.push_customer net base_url api_key) (calls w) data)
  = true ->
  let r := tab (Some (Csv.Rows (first :: rest))) true g w in
  fst r = (inr tt, StreamlitApp.mk_page (firstn 5 data))
  /\ calls (snd r)
     = calls w ++ map (streamlit_request base_url api_key) data.
Proof.
  intros Hr data Hs r.
  assert (Hn : Streamlit.normalise data = data)
    by apply loaded_is_normalised.
  assert (Hd : normalise_rows Streamlit.REQUIRED_COLS (first :: rest)
               = inr data) by now apply normalise_rows_readable.
  subst r. clearbody data. rewrite <- Hn in Hs.
  unfold StreamlitApp.tab_csv. unfold_handler.
  cbn -[missing_cols normalise_rows join len firstn
        Streamlit.push_all_records].
  rewrite Hd.
  destruct (missing_cols Streamlit.REQUIRED_COLS first);
    cbn -[join len firstn Streamlit.push_all_records].
  all: match goal with
       | |- context [Streamlit.push_all_records _ _ _ _ ?w0] =>
           destruct (BatchRunner.st_settled net base_url api_key data w0 Hs)
             as ((ls & E1) & E2);
           rewrite Hn in E1, E2;
           destruct (Streamlit.push_all_records net base_url api_key data w0)
             as [o w1]
       end.
  all: cbn [fst snd calls] in E1, E2; subst o; cbn [fst snd calls]; split;
    [reflexivity | exact E2].
Qed.

End Net.

(** X18.  The CSV tab makes requests only when a file with data rows is
    uploaded and "Push All Records" is pressed: without a file, with a file
    that cannot be read or has no rows, or before the button is pressed, no
    request is made.  A file that cannot be read is reported twice, as
    unreadable and as having no data rows, and the table is left as it
    was. *)
Theorem csv_tab_pushes_only_on_demand
  (net : network) (base_url api_key : str)
  (uploaded_file : option Csv.read) (pushed : bool) (message : str)
  (g : StreamlitApp.page) (w : world) :
  (has_rows uploaded_file && pushed = false ->
   calls (snd (StreamlitApp.tab_csv net base_url api_key uploaded_file
                 pushed g w))
   = calls w)
  /\ StreamlitApp.tab_csv net base_url api_key
       (Some (Csv.Unreadable message)) pushed g w
     = (inr tt, g,
        mk_world (calls w)
          (shown w
           ++ [St "subheader" [Lit "Upload CSV File"];
               St "caption"
                 [Lit "Required columns: ";
                  FStr (join (lit ", ") Streamlit.REQUIRED_COLS)];
               St "error" [Lit "Could not read file: "; FStr message];
               St "warning" [Lit "The CSV file contains no data rows."]])).
Proof.
  split; [apply tab_without_push|].
  unfold StreamlitApp.tab_csv. unfold_handler. cbn.
  now rewrite <- !app_assoc.
Qed.

Lemma csv_tab_pushes_only_on_demand_witness :
  calls (snd (StreamlitApp.tab_csv accepting Samples.endpoint Samples.secret
                (Some (Csv.Rows [ada; bea])) false
                (StreamlitApp.mk_page []) fresh))
  = [].
Proof.
  destruct (csv_tab_pushes_only_on_demand accepting Samples.endpoint
              Samples.secret (Some (Csv.Rows [ada; bea])) false []
              (StreamlitApp.mk_page []) fresh) as [H _].
  apply H. reflexivity.
Defined.

(** X19.  With a file whose rows can all be read, pressing "Push All
    Records" when every submission settles submits one record per row, in
    file order, each with exactly the nine columns and trimmed values, the
    rows with empty required cells included; the table shows the first five
    records. *)
Theorem csv_tab_pushes_every_row
  (net : network) (base_url api_key : str)
  (first : Csv.row) (rest : list Csv.row)
  (g : StreamlitApp.page) (w : world) :
  forallb (readable Streamlit.REQUIRED_COLS) (first :: rest) = true ->
  let data := loaded Streamlit.REQUIRED_COLS (first :: rest) in
  forallb settled
    (outcomes (Streamlit.push_customer net base_url api_key) (calls w) data)
  = true ->
  let r := StreamlitApp.tab_csv net base_url api_key
             (Some (Csv.Rows (first :: rest))) true g w in
  fst r = (inr tt, StreamlitApp.mk_page (firstn 5 data))
  /\ calls (snd r)
     = calls w ++ map (streamlit_request base_url api_key) data
  /\ List.length data = S (List.length rest).
Proof.
  intros Hr data Hs r.
  destruct (tab_pushed net base_url api_key first rest g w Hr Hs)
    as [E1 E2].
  split; [exact E1|]. split; [exact E2|].
  unfold data. now rewrite Loading.loaded_length.
Qed.

Lemma csv_tab_pushes_every_row_witness :
  calls (snd (StreamlitApp.tab_csv accepting Samples.endpoint Samples.secret
                (Some (Csv.Rows [ada; bea])) true
                (StreamlitApp.mk_page []) fresh))
  = [streamlit_request Samples.endpoint Samples.secret
       (record_of "Ada" "Byron" "1 Main St" "5550001");
     streamlit_request Samples.endpoint Samples.secret
       (record_of "Bea" "Cole" "" "5550002")].
Proof.
  destruct (csv_tab_pushes_every_row accepting Samples.endpoint
              Samples.secret ada [bea] (StreamlitApp.mk_page []) fresh
              eq_refl eq_refl) as (_ & E & _).
  exact E.
Defined.

End CsvTabProperties.

